(** * SQL Data Importer: the reconciliation and batch-update engine

    A shallow embedding of [src/Config.py] (the data-processor part:
    [DataValidator], [SheetProcessor]), [src/Database.py]
    ([DatabaseManager]) and [src/Gui.py] (the import-service part:
    [ImportService]), followed by the properties of the engine.

    Cells are Python values ([None], [int], [float], [str]); floats are the
    kernel's binary64 numbers, so [abs(a - b) > threshold] is computed with
    the rounding Python uses.  A pandas frame is a list of column labels
    (labels may repeat) and a list of rows.  Exceptions are explicit: every
    fallible function returns an [outcome]. *)

From Stdlib Require Import List Bool Arith ZArith Lia String Ascii.
From Stdlib Require Import DecimalString Floats.
Import ListNotations.

Set Implicit Arguments.
Set Warnings "-inexact-float".
Local Open Scope string_scope.
Local Open Scope list_scope.

(* ================================================================== *)
(** * Python values *)

Inductive value : Type :=
| VNone
| VInt (z : Z)
| VFloat (f : float)
| VStr (s : string).

(** [np.nan]: the float for which pandas' [isna] holds. *)
Definition is_nan (f : float) : bool := negb (PrimFloat.eqb f f).

(** pandas' [isna] / [notna] on a cell. *)
Definition isna (v : value) : bool :=
  match v with
  | VNone => true
  | VFloat f => is_nan f
  | _ => false
  end.

Definition notna (v : value) : bool := negb (isna v).

(** [float(z)]: the nearest binary64 number, ties to even. *)
Definition float_of_Z (z : Z) : float :=
  SF2Prim (binary_normalize prec emax z 0 false).

(** Python compares an [int] with a [float] exactly, without rounding the
    integer first. *)
Definition int_eq_float (z : Z) (f : float) : bool :=
  match Prim2SF f with
  | S754_zero _ => Z.eqb z 0
  | S754_finite s m e =>
      let sm := cond_Zopp s (Zpos m) in
      if Z.leb 0 e then Z.eqb z (sm * 2 ^ e) else Z.eqb (z * 2 ^ (- e)) sm
  | S754_infinity _ | S754_nan => false
  end.

(** Python's [==] on cells. *)
Definition py_eq (a b : value) : bool :=
  match a, b with
  | VNone, VNone => true
  | VInt x, VInt y => Z.eqb x y
  | VFloat x, VFloat y => PrimFloat.eqb x y
  | VInt x, VFloat y => int_eq_float x y
  | VFloat x, VInt y => int_eq_float y x
  | VStr x, VStr y => String.eqb x y
  | _, _ => false
  end.

(** Python's [!=] on cells. *)
Definition py_ne (a b : value) : bool := negb (py_eq a b).

(* ================================================================== *)
(** * DataValidator.compare_values (Config.py, lines 292-311) *)

Definition default_float_threshold : float := 1e-6%float.

Definition compare_values (float_threshold : float)
    (excel_val sql_val : value) : bool :=
  match excel_val with
  | VNone => false
  | _ =>
      match excel_val, sql_val with
      | VFloat a, VFloat b =>
          PrimFloat.ltb float_threshold (PrimFloat.abs (PrimFloat.sub a b))
      | _, _ => py_ne excel_val sql_val
      end
  end.

(* ================================================================== *)
(** * Strings

    A string is a sequence of characters with code points below 256, so
    ['\xa0'] is the character 160. *)

(** The characters [str.strip()] removes. *)
Definition is_space (c : ascii) : bool :=
  let n := nat_of_ascii c in
  ((9 <=? n)%nat && (n <=? 13)%nat) || ((28 <=? n)%nat && (n <=? 32)%nat)
  || (n =? 133)%nat || (n =? 160)%nat.

Fixpoint lstrip (s : string) : string :=
  match s with
  | String c rest => if is_space c then lstrip rest else s
  | EmptyString => EmptyString
  end.

Fixpoint rstrip (s : string) : string :=
  match s with
  | String c rest =>
      match rstrip rest with
      | EmptyString => if is_space c then EmptyString else String c EmptyString
      | r => String c r
      end
  | EmptyString => EmptyString
  end.

(** [s.strip()] *)
Definition strip (s : string) : string := rstrip (lstrip s).

Fixpoint map_chars (f : ascii -> ascii) (s : string) : string :=
  match s with
  | String c rest => String (f c) (map_chars f rest)
  | EmptyString => EmptyString
  end.

Fixpoint remove_chars (drop : ascii -> bool) (s : string) : string :=
  match s with
  | String c rest =>
      if drop c then remove_chars drop rest else String c (remove_chars drop rest)
  | EmptyString => EmptyString
  end.

Definition nbsp : ascii := ascii_of_nat 160.
Definition space : ascii := ascii_of_nat 32.

(** [process_sheet], "Clean column names" (Config.py, lines 359-363):
    [.str.strip().str.replace('\xa0', ' ').str.replace(r'[\n\r\t]', '',
    regex=True)]. *)
Definition clean_column_name (h : string) : string :=
  remove_chars
    (fun c =>
       let n := nat_of_ascii c in (n =? 10)%nat || (n =? 13)%nat || (n =? 9)%nat)
    (map_chars (fun c => if Ascii.eqb c nbsp then space else c) (strip h)).

Definition mem_str (x : string) (l : list string) : bool :=
  existsb (String.eqb x) l.

(** [str(n)] for a natural number. *)
Definition str_of_nat (n : nat) : string :=
  NilZero.string_of_uint (Nat.to_uint n).

(** [str(z)] for an integer. *)
Definition str_of_Z (z : Z) : string :=
  NilZero.string_of_int (Z.to_int z).

(* ================================================================== *)
(** * Exceptions *)

Inductive exn : Type :=
| KeyError (key : string)
| ValueError
| TypeError
| AttributeError
| OSError
| PyodbcError
| DatabaseConnectionError
| DatabaseQueryError.

(** The outcome of a call: a returned value or a raised exception. *)
Inductive outcome (A : Type) : Type :=
| Return (a : A)
| Raise (e : exn).

Arguments Return {A} a.
Arguments Raise {A} e.

Definition bind {A B : Type} (m : outcome A) (k : A -> outcome B) : outcome B :=
  match m with
  | Return a => k a
  | Raise e => Raise e
  end.

Notation "x <- m ;; k" := (bind m (fun x => k))
  (at level 61, m at next level, right associativity).
Notation "' p <- m ;; k" := (bind m (fun p => k))
  (at level 61, p pattern, m at next level, right associativity).

Definition raised {A : Type} (m : outcome A) : bool :=
  match m with Raise _ => true | Return _ => false end.

(* ================================================================== *)
(** * Frames

    A row of a frame ([Series]) lists its cells with their labels, in column
    order.  A label may occur more than once in a sheet's frame (two headers
    mapped to one column, or the key column selected twice), and then a
    lookup by label does not give a cell.  Reference frames come from
    [pd.DataFrame()] or from [SELECT *], where labels are distinct. *)

Definition Series : Type := list (string * value).

Record DataFrame : Type := mkDataFrame {
  columns : list string;
  records : list Series
}.

(** [pd.DataFrame()] *)
Definition empty_frame : DataFrame := mkDataFrame [] [].

(** What [row[label]] evaluates to. *)
Inductive item : Type :=
| Missing                       (* the lookup raises KeyError *)
| Scalar (v : value)
| NonScalar (vs : list value).  (* a Series: the label is repeated *)

Definition has_label (label : string) (p : string * value) : bool :=
  String.eqb (fst p) label.

Definition series_get (label : string) (row : Series) : item :=
  match filter (has_label label) row with
  | [] => Missing
  | [p] => Scalar (snd p)
  | ps => NonScalar (map snd ps)
  end.

(** [df.empty]: some axis has length 0. *)
Definition frame_empty (df : DataFrame) : bool :=
  match columns df, records df with
  | [], _ | _, [] => true
  | _, _ => false
  end.

(** A frame read from a sheet without a header: its columns are a range
    index, not labels. *)
Definition has_no_columns (df : DataFrame) : bool :=
  match columns df with
  | [] => true
  | _ => false
  end.

(** [df.rename(columns=f)] and [df.columns = ...]. *)
Definition rename_columns (f : string -> string) (df : DataFrame) : DataFrame :=
  mkDataFrame (map f (columns df))
              (map (map (fun p => (f (fst p), snd p))) (records df)).

(** [df[labels]]: for every label, in order, all the columns that carry it. *)
Definition select_columns (labels : list string) (df : DataFrame) : DataFrame :=
  mkDataFrame
    (flat_map (fun l => filter (String.eqb l) (columns df)) labels)
    (map (fun row => flat_map (fun l => filter (has_label l) row) labels)
         (records df)).

(** [df[label] = df[label].<f>], cell by cell. *)
Definition map_cell (label : string) (f : value -> value)
    (p : string * value) : string * value :=
  if has_label label p then (fst p, f (snd p)) else p.

Definition map_column (label : string) (f : value -> value)
    (df : DataFrame) : DataFrame :=
  mkDataFrame (columns df) (map (map (map_cell label f)) (records df)).

(** [df.map(f)] *)
Definition map_frame (f : value -> value) (df : DataFrame) : DataFrame :=
  mkDataFrame (columns df)
              (map (map (fun p => (fst p, f (snd p)))) (records df)).

Definition filter_rows (keep : Series -> bool) (df : DataFrame) : DataFrame :=
  mkDataFrame (columns df) (filter keep (records df)).

Definition label_count (label : string) (df : DataFrame) : nat :=
  List.length (filter (String.eqb label) (columns df)).

(** The cells of column [label], one per row when the label is not
    repeated. *)
Definition column_values (label : string) (df : DataFrame) : list value :=
  flat_map (fun row => map snd (filter (has_label label) row)) (records df).

(* ================================================================== *)
(** * Dicts: association lists with distinct keys, in insertion order *)

Definition dict (V : Type) : Type := list (string * V).

Fixpoint dict_get {V : Type} (k : string) (d : dict V) : option V :=
  match d with
  | [] => None
  | (k', v) :: rest => if String.eqb k' k then Some v else dict_get k rest
  end.

(** [d[k] = v] *)
Fixpoint dict_set {V : Type} (k : string) (v : V) (d : dict V) : dict V :=
  match d with
  | [] => [(k, v)]
  | (k', v') :: rest =>
      if String.eqb k' k then (k', v) :: rest else (k', v') :: dict_set k v rest
  end.

Definition keys {V : Type} (d : dict V) : list string := map fst d.

(* ================================================================== *)
(** * Records of the data processor (Config.py, lines 143-167) *)

Record ProcessingConfig : Type := mkProcessingConfig {
  column_mapping : dict string;
  allowed_sheets : list string;
  ignored_headers : list string
}.

Record ValidationError : Type := mkValidationError {
  sheet_name : string;
  tag_number : item;
  excel_header : string;
  invalid_value : value;
  error_reason : string
}.

Record SheetResult : Type := mkSheetResult {
  sr_sheet_name : string;
  result : string;
  status : string;      (* SKIP, DRY-RUN, UPDATED, ERROR *)
  update_count : nat
}.

(** A changeset: [(tag_number, {column: new_value})]. *)
Definition update : Type := value * dict value.

Record DataValidator : Type := mkDataValidator {
  numeric_columns : list string;
  float_threshold : float
}.

Record SheetProcessor : Type := mkSheetProcessor {
  config : ProcessingConfig;
  sql_columns : list string;
  validator : DataValidator;
  tag_column : string
}.

(** A workbook: its sheets in order, each with what [pd.read_excel] gives
    for it (a frame, or the exception it raises). *)
Definition Workbook : Type := list (string * outcome DataFrame).

Fixpoint read_excel (xls : Workbook) (name : string) : outcome DataFrame :=
  match xls with
  | [] => Raise ValueError
  | (n, df) :: rest => if String.eqb n name then df else read_excel rest name
  end.

(** A number as [pd.to_numeric] sees it. *)
Inductive num : Type :=
| NInt (z : Z)
| NFloat (f : float).

Definition is_int (n : num) : bool :=
  match n with NInt _ => true | NFloat _ => false end.

Definition num_to_float (n : num) : float :=
  match n with NInt z => float_of_Z z | NFloat f => f end.

(** The bounds of numpy's [int64] and [uint64]. *)
Definition int64_min : Z := (- 2 ^ 63)%Z.
Definition int64_max : Z := (2 ^ 63 - 1)%Z.
Definition uint64_max : Z := (2 ^ 64 - 1)%Z.

(** Whether pandas keeps the integers it has seen as an integer array
    ([Seen.saw_int] and the range tests after it): every one lies between
    the least [int64] and the greatest [uint64], and no negative one stands
    beside one above the greatest [int64]. *)
Definition ints_fit (zs : list Z) : bool :=
  forallb (fun z => Z.leb int64_min z && Z.leb z uint64_max) zs
  && negb (existsb (fun z => Z.ltb z 0) zs
           && existsb (fun z => Z.ltb int64_max z) zs).

Definition num_ints (nums : list num) : list Z :=
  flat_map (fun n => match n with NInt z => [z] | NFloat _ => [] end) nums.

(** pandas' [Series == scalar]: a null on either side compares unequal. *)
Definition elem_eq (cell scalar : value) : bool :=
  if isna cell || isna scalar then false else py_eq cell scalar.

Definition getitem (row : Series) (label : string) : outcome item :=
  match series_get label row with
  | Missing => Raise (KeyError label)
  | i => Return i
  end.

(* ================================================================== *)
(** * The store *)

Inductive db_call : Type :=
| Connect
| Metadata
| SelectTags
| SelectByTags (chunk : list value)
| Update (tag : value) (changes : dict value)
| Commit
| Rollback.

Record Database : Type := mkDatabase {
  schema : list (string * string);  (* COLUMN_NAME, DATA_TYPE *)
  table : DataFrame;                (* the committed rows *)
  session : DataFrame;              (* the rows as the open transaction sees them *)
  journal : list db_call            (* the calls made so far *)
}.

(* ================================================================== *)
(** * Records of the import service (Config.py, lines 80-86; Gui.py,
      lines 509-518) *)

Record AppConfig : Type := mkAppConfig {
  batch_size : Z;
  float_comparison_threshold : float
}.

Record ImportResult : Type := mkImportResult {
  success : bool;
  sheet_results : list SheetResult;
  total_detected_updates : nat;
  total_committed_updates : nat;
  validation_errors : list ValidationError;
  error_report_path : option string;
  error_message : option string
}.

Record ImportService : Type := mkImportService {
  db_tag_column : string;          (* db_config.tag_column *)
  app_config : AppConfig
}.

(** The result of the three [except] clauses of [run_import]. *)
Definition failed_import (message : string) : ImportResult :=
  mkImportResult false [] 0 0 [] None (Some message).

Section Engine.

(** [str(f)] for a float, and the text-to-number parser of [pd.to_numeric],
    which is only asked about strings that are not blank. *)
Variable float_repr : float -> string.
Variable str_to_num : string -> option num.

(** [.astype(str)] on a cell. *)
Definition astype_str (v : value) : string :=
  match v with
  | VNone => "None"
  | VInt z => str_of_Z z
  | VFloat f => float_repr f
  | VStr s => s
  end.

(* ------------------------------------------------------------------ *)
(** ** DataValidator.validate_numeric_columns (Config.py, lines 242-290) *)

Definition cell_to_num (v : value) : num :=
  match v with
  | VNone => NFloat PrimFloat.nan
  | VInt z => NInt z
  | VFloat f => NFloat f
  | VStr s =>
      if String.eqb (strip s) EmptyString then NFloat PrimFloat.nan
      else match str_to_num s with
           | Some n => n
           | None => NFloat PrimFloat.nan
           end
  end.

(** [pd.to_numeric(column, errors="coerce")]: an integer column when every
    cell is an integer and the integers fit one 64-bit integer type, a float
    column (with NaN for what does not convert) otherwise.  An integer is
    turned into the nearest float; integers of magnitude 2^1024 and more, on
    which that conversion raises OverflowError, are not in the domain of the
    model. *)
Definition to_numeric (cells : list value) : list value :=
  let nums := map cell_to_num cells in
  if forallb is_int nums && ints_fit (num_ints nums)
  then map (fun n => match n with NInt z => VInt z | NFloat f => VFloat f end) nums
  else map (fun n => VFloat (num_to_float n)) nums.

(** [validated_df[col] = values] for a label that is not repeated. *)
Fixpoint assign_rows (col : string) (values : list value)
    (rows : list Series) : list Series :=
  match rows, values with
  | row :: rows', v :: values' =>
      map (map_cell col (fun _ => v)) row :: assign_rows col values' rows'
  | _, _ => rows
  end.

Definition assign_column (col : string) (values : list value)
    (df : DataFrame) : DataFrame :=
  mkDataFrame (columns df) (assign_rows col values (records df)).

Definition type_mismatch : string := "Type Mismatch - Expected numeric value".

(** The [mask] of lines 271-275. *)
Definition conversion_failed (raw converted : value) : bool :=
  isna converted && notna raw && negb (String.eqb (strip (astype_str raw)) EmptyString).

(** The loop of lines 278-287 over [raw_df[mask].iterrows()]. *)
Fixpoint log_errors (sheet tagc col : string) (rows : list Series)
    (raws converted : list value) : outcome (list ValidationError) :=
  match rows, raws, converted with
  | row :: rows', raw :: raws', conv :: converted' =>
      if conversion_failed raw conv then
        tag <- getitem row tagc ;;
        rest <- log_errors sheet tagc col rows' raws' converted' ;;
        Return (mkValidationError sheet tag col raw type_mismatch :: rest)
      else log_errors sheet tagc col rows' raws' converted'
  | _, _, _ => Return []
  end.

Fixpoint validate_columns (df : DataFrame) (sheet tagc : string)
    (cols : list string) (validated_df : DataFrame)
    (errors : list ValidationError)
  : outcome (DataFrame * list ValidationError) :=
  match cols with
  | [] => Return (validated_df, errors)
  | col :: rest =>
      if negb (mem_str col (columns df)) then
        validate_columns df sheet tagc rest validated_df errors
      else if (1 <? label_count col df)%nat then
        Raise TypeError            (* pd.to_numeric of a frame *)
      else
        let raws := column_values col df in
        let converted := to_numeric raws in
        let validated_df' := assign_column col converted validated_df in
        found <- log_errors sheet tagc col (records df) raws converted ;;
        validate_columns df sheet tagc rest validated_df' (errors ++ found)
  end.

Definition validate_numeric_columns (self : DataValidator) (df : DataFrame)
    (sheet tagc : string) : outcome (DataFrame * list ValidationError) :=
  validate_columns df sheet tagc (numeric_columns self) df [].

(* ------------------------------------------------------------------ *)
(** ** SheetProcessor._clean_dataframe (Config.py, lines 420-430)

    [df.replace({np.nan: None})] and the function given to [df.map] work
    cell by cell: NaN and the empty string become None.  [df.map] then
    builds every column anew from the cells it got and infers its type
    again ([lib.map_infer] with [convert=True], that is
    [maybe_convert_objects]): a column without text that holds a float, or
    an integer beside a None, comes out as a float column, in which the None
    cells are NaN again.  Only a column that holds text, or no number at
    all, keeps its None cells. *)

Definition clean_cell (v : value) : value :=
  let x := if isna v then VNone else v in          (* replace({np.nan: None}) *)
  match x with
  | VNone => VNone
  | _ => if py_ne x (VStr EmptyString) then x else VNone
  end.

Definition is_str (v : value) : bool :=
  match v with VStr _ => true | _ => false end.

Definition is_float (v : value) : bool :=
  match v with VFloat _ => true | _ => false end.

Definition is_integer (v : value) : bool :=
  match v with VInt _ => true | _ => false end.

Definition is_none (v : value) : bool :=
  match v with VNone => true | _ => false end.

(** The integers [maybe_convert_objects] tests against the 64-bit range:
    those it meets before the first None. *)
Fixpoint checked_ints (cells : list value) : list Z :=
  match cells with
  | [] => []
  | VNone :: _ => []
  | VInt z :: rest => z :: checked_ints rest
  | _ :: rest => checked_ints rest
  end.

(** Whether [maybe_convert_objects] returns its float array for the cells
    of a column: it met no text and no integer outside the range, and it met
    a float, or an integer and a None. *)
Definition infers_float (cells : list value) : bool :=
  negb (existsb is_str cells)
  && ints_fit (checked_ints cells)
  && (existsb is_float cells
      || (existsb is_none cells && existsb is_integer cells)).

(** A cell in the float array (an integer as the nearest float, within the
    range of floats as in [to_numeric]). *)
Definition as_float (v : value) : value :=
  match v with
  | VNone => VFloat PrimFloat.nan
  | VInt z => VFloat (float_of_Z z)
  | _ => v
  end.

(** The cells at position [j] of the rows: a column of the frame. *)
Definition cells_at (j : nat) (rows : list Series) : list value :=
  flat_map (fun row => match nth_error row j with
                       | Some p => [snd p]
                       | None => []
                       end) rows.

(** A row of the result: the cell at position [j] is taken from the float
    array when [floats j] holds. *)
Fixpoint infer_row (floats : nat -> bool) (j : nat) (row : Series) : Series :=
  match row with
  | [] => []
  | p :: rest =>
      (fst p, if floats j then as_float (snd p) else snd p)
      :: infer_row floats (S j) rest
  end.

Definition _clean_dataframe (df : DataFrame) : DataFrame :=
  let mapped := map_frame clean_cell df in
  mkDataFrame (columns df)
    (map (infer_row (fun j => infers_float (cells_at j (records mapped))) 0)
         (records mapped)).

(* ------------------------------------------------------------------ *)
(** ** SheetProcessor._identify_updates (Config.py, lines 432-471) *)

(** [if self.validator.compare_values(excel_val, sql_val):] where either
    value may be a Series; the truth value of a Series raises. *)
Definition compare_truth (thr : float) (excel_val sql_val : item) : outcome bool :=
  match excel_val with
  | Scalar a =>
      match sql_val with
      | Scalar b => Return (compare_values thr a b)
      | _ => match a with
             | VNone => Return false     (* excel_val is None *)
             | _ => Raise ValueError
             end
      end
  | _ => Raise ValueError
  end.

(** The inner loop, lines 461-466. *)
Fixpoint check_columns (thr : float) (excel_row sql_row : Series)
    (columns_to_check : list string) (changes : dict value)
  : outcome (dict value) :=
  match columns_to_check with
  | [] => Return changes
  | col :: rest =>
      excel_val <- getitem excel_row col ;;
      sql_val <- getitem sql_row col ;;
      differs <- compare_truth thr excel_val sql_val ;;
      check_columns thr excel_row sql_row rest
        (match differs, excel_val with
         | true, Scalar v => dict_set col v changes
         | _, _ => changes
         end)
  end.

(** [sql_df[sql_df[tag_column] == tag]] *)
Definition sql_match_rows (tagc : string) (tag : value) (sql_df : DataFrame)
  : list Series :=
  filter (fun row => match series_get tagc row with
                     | Scalar c => elem_eq c tag
                     | _ => false
                     end)
         (records sql_df).

(** The outer loop, lines 451-469. *)
Fixpoint identify_rows (thr : float) (tagc : string) (sql_df : DataFrame)
    (columns_to_check : list string) (excel_rows : list Series)
    (updates : list update) : outcome (list update) :=
  match excel_rows with
  | [] => Return updates
  | excel_row :: rest =>
      tag_item <- getitem excel_row tagc ;;
      if negb (mem_str tagc (columns sql_df)) then Raise (KeyError tagc)
      else
        match tag_item with
        | Scalar tag =>
            match sql_match_rows tagc tag sql_df with
            | [] => identify_rows thr tagc sql_df columns_to_check rest updates
            | sql_row :: _ =>
                changes <- check_columns thr excel_row sql_row columns_to_check [] ;;
                identify_rows thr tagc sql_df columns_to_check rest
                  (match changes with
                   | [] => updates
                   | _ => updates ++ [(tag, changes)]
                   end)
            end
        | _ => Raise ValueError      (* Series == Series, labels differ *)
        end
  end.

Definition _identify_updates (self : SheetProcessor) (excel_df sql_df : DataFrame)
    (columns_to_check : list string) : outcome (list update) :=
  identify_rows (float_threshold (validator self)) (tag_column self) sql_df
    columns_to_check (records excel_df) [].

(* ------------------------------------------------------------------ *)
(** ** SheetProcessor.process_sheet (Config.py, lines 329-418) *)

(** "Apply column mapping": [column_mapping.get(x, x)]. *)
Definition map_header (self : SheetProcessor) (x : string) : string :=
  match dict_get x (column_mapping (config self)) with
  | Some c => c
  | None => x
  end.

(** The frame after "Clean column names" and "Apply column mapping". *)
Definition mapped_frame (self : SheetProcessor) (df : DataFrame) : DataFrame :=
  rename_columns (map_header self) (rename_columns clean_column_name df).

Definition tag_isin (tagc : string) (existing_tags : list string)
    (row : Series) : bool :=
  match series_get tagc row with
  | Scalar (VStr s) => mem_str s existing_tags
  | _ => false
  end.

(** "Clean and filter tags", lines 378-379, on a frame whose key label is
    not repeated. *)
Definition filter_tags (self : SheetProcessor) (existing_tags : list string)
    (df : DataFrame) : DataFrame :=
  filter_rows (tag_isin (tag_column self) existing_tags)
    (map_column (tag_column self) (fun v => VStr (strip (astype_str v))) df).

(** "Select valid columns", lines 390-393. *)
Definition valid_columns_of (self : SheetProcessor) (df : DataFrame) : list string :=
  filter (fun c => mem_str c (sql_columns self)
                   && negb (mem_str c (ignored_headers (config self))))
         (columns df).

Definition changes_detected (n : nat) : string :=
  (str_of_nat n ++ " changes detected")%string.

Definition process_sheet (self : SheetProcessor) (xls : Workbook)
    (sheet : string) (existing_tags : list string) (sql_data : DataFrame)
  : outcome (SheetResult * list update * list ValidationError) :=
  df <- read_excel xls sheet ;;
  if has_no_columns df then
    Raise AttributeError           (* df.columns of an empty frame has no .str *)
  else
  let df := mapped_frame self df in
  if negb (mem_str (tag_column self) (columns df)) then
    Return (mkSheetResult sheet "Tag Column Missing" "SKIP" 0, [], [])
  else if (1 <? label_count (tag_column self) df)%nat then
    Raise AttributeError           (* a frame has no .str *)
  else
    let df := filter_tags self existing_tags df in
    if frame_empty df then
      Return (mkSheetResult sheet "No Valid Tags" "SKIP" 0, [], [])
    else
      let valid_columns := valid_columns_of self df in
      let df := select_columns (valid_columns ++ [tag_column self]) df in
      '(df, validation_errors) <-
         validate_numeric_columns (validator self) df sheet (tag_column self) ;;
      let df := _clean_dataframe df in
      updates <- _identify_updates self df sql_data valid_columns ;;
      let result_str :=
        match updates with
        | [] => "No changes"
        | _ => changes_detected (List.length updates)
        end in
      Return (mkSheetResult sheet result_str "DRY-RUN" (List.length updates),
              updates, validation_errors).

(* ================================================================== *)
(** * DatabaseManager (Database.py)

    The connection is opened with [autocommit=False]: statements act on the
    session's view of the table, [commit] makes that view the table, and
    [rollback] resets it to the table.  Whether the server refuses a call
    is decided by the environment, [query_fails]. *)

Variable query_fails : Database -> db_call -> bool.

Definition DB (A : Type) : Type := Database -> outcome A * Database.

Definition journalled (c : db_call) (db : Database) : Database :=
  mkDatabase (schema db) (table db) (session db) (journal db ++ [c]).

Definition commit (db : Database) : Database :=
  mkDatabase (schema db) (session db) (session db) (journal db ++ [Commit]).

(** [conn.rollback()]: the session sees the table again; when the server
    refuses the call (the connection is lost) the driver's error is raised
    and nothing is committed. *)
Definition rollback : DB unit := fun db =>
  if query_fails db Rollback
  then (Raise PyodbcError, journalled Rollback db)
  else (Return tt,
        mkDatabase (schema db) (table db) (table db) (journal db ++ [Rollback])).

(** [connect] (lines 49-67) *)
Definition connect : DB unit := fun db =>
  if query_fails db Connect
  then (Raise DatabaseConnectionError, journalled Connect db)
  else (Return tt, journalled Connect db).

Definition numeric_types : list string :=
  ["decimal"; "numeric"; "float"; "real"; "int"; "bigint"; "smallint"; "tinyint"].

(** [get_table_metadata] (lines 95-132) *)
Definition get_table_metadata : DB (list string * list string) := fun db =>
  if query_fails db Metadata
  then (Raise DatabaseQueryError, journalled Metadata db)
  else (Return (map fst (schema db),
                map fst (filter (fun p => mem_str (snd p) numeric_types)
                                (schema db))),
        journalled Metadata db).

(** [get_existing_tags] (lines 134-163) *)
Definition get_existing_tags (tagc : string) : DB (list string) := fun db =>
  if query_fails db SelectTags || negb (mem_str tagc (columns (session db)))
  then (Raise DatabaseQueryError, journalled SelectTags db)
  else (Return (map (fun v => strip (astype_str v))
                    (column_values tagc (session db))),
        journalled SelectTags db).

(** [tags[i:i + batch_size] for i in range(0, len(tags), batch_size)] *)
Fixpoint chunks (fuel size : nat) (tags : list value) : list (list value) :=
  match fuel, tags with
  | _, [] => []
  | O, _ => []
  | S fuel', _ => firstn size tags :: chunks fuel' size (skipn size tags)
  end.

(** [WHERE [tag_column] IN (?, ..., ?)] *)
Definition tag_in (tagc : string) (chunk : list value) (row : Series) : bool :=
  match series_get tagc row with
  | Scalar c => existsb (elem_eq c) chunk
  | _ => false
  end.

Fixpoint fetch_chunks (tagc : string) (todo : list (list value))
    (result_dfs : list DataFrame) : DB (list DataFrame) := fun db =>
  match todo with
  | [] => (Return result_dfs, db)
  | chunk :: rest =>
      let db' := journalled (SelectByTags chunk) db in
      if query_fails db (SelectByTags chunk)
         || negb (mem_str tagc (columns (session db)))
      then (Raise PyodbcError, db')
      else fetch_chunks tagc rest
             (result_dfs ++ [filter_rows (tag_in tagc chunk) (session db)]) db'
  end.

(** [pd.concat(result_dfs, ignore_index=True)] of frames with the same
    columns. *)
Definition concat (dfs : list DataFrame) : DataFrame :=
  match dfs with
  | [] => empty_frame
  | df :: _ => mkDataFrame (columns df) (flat_map records dfs)
  end.

(** [fetch_records_by_tags] (lines 165-210) *)
Definition fetch_records_by_tags (tagc : string) (tags : list value)
    (batch_size : Z) : DB DataFrame := fun db =>
  if Z.eqb batch_size 0 then (Raise DatabaseQueryError, db)   (* range() step 0 *)
  else if Z.ltb batch_size 0 then (Return empty_frame, db)
  else
    match fetch_chunks tagc
            (chunks (List.length tags) (Z.to_nat batch_size) tags) [] db with
    | (Return [], db') => (Return empty_frame, db')
    | (Return result_dfs, db') => (Return (concat result_dfs), db')
    | (Raise _, db') => (Raise DatabaseQueryError, db')
    end.

Definition tag_matches (tagc : string) (tag : value) (row : Series) : bool :=
  match series_get tagc row with
  | Scalar c => elem_eq c tag
  | _ => false
  end.

(** [UPDATE table SET col = ?, ... WHERE [tag_column] = ?] on one row. *)
Definition set_fields (changes : dict value) (row : Series) : Series :=
  fold_left (fun r cv => map (map_cell (fst cv) (fun _ => snd cv)) r) changes row.

Definition update_rows (tagc : string) (tag : value) (changes : dict value)
    (df : DataFrame) : DataFrame :=
  mkDataFrame (columns df)
    (map (fun row => if tag_matches tagc tag row then set_fields changes row
                     else row)
         (records df)).

(** [cursor.rowcount] after the UPDATE. *)
Definition rowcount (tagc : string) (tag : value) (df : DataFrame) : nat :=
  List.length (filter (tag_matches tagc tag) (records df)).

(** [cursor.execute(query, values)]: refused by the server, or naming a
    column the table does not have, it raises and changes nothing. *)
Definition execute_update (tagc : string) (tag : value) (changes : dict value)
  : DB nat := fun db =>
  let db' := journalled (Update tag changes) db in
  if query_fails db (Update tag changes)
     || negb (forallb (fun c => mem_str c (columns (session db)))
                      (tagc :: keys changes))
  then (Raise PyodbcError, db')
  else (Return (rowcount tagc tag (session db)),
        mkDatabase (schema db') (table db')
                   (update_rows tagc tag changes (session db)) (journal db')).

(** The session's rows once every changeset has been executed, and the sum
    of the row counts the server reports on the way. *)
Fixpoint apply_updates (tagc : string) (updates : list update)
    (df : DataFrame) : DataFrame :=
  match updates with
  | [] => df
  | (tag, changes) :: rest =>
      apply_updates tagc rest
        (match changes with
         | [] => df
         | _ => update_rows tagc tag changes df
         end)
  end.

Fixpoint rows_affected (tagc : string) (updates : list update)
    (df : DataFrame) : nat :=
  match updates with
  | [] => 0
  | (tag, changes) :: rest =>
      match changes with
      | [] => rows_affected tagc rest df
      | _ => rowcount tagc tag df
             + rows_affected tagc rest (update_rows tagc tag changes df)
      end
  end.

(** The statements [batch_update_records] sends for a list of changesets. *)
Definition update_calls (updates : list update) : list db_call :=
  map (fun u => Update (fst u) (snd u))
      (filter (fun u => match snd u with [] => false | _ => true end) updates).

(** The loop of lines 234-258. *)
Fixpoint execute_updates (tagc : string) (updates : list update)
    (updated_count : nat) : DB nat := fun db =>
  match updates with
  | [] => (Return updated_count, db)
  | (tag, changes) :: rest =>
      match changes with
      | [] => execute_updates tagc rest updated_count db
      | _ =>
          match execute_update tagc tag changes db with
          | (Return n, db') => execute_updates tagc rest (updated_count + n) db'
          | (Raise e, db') => (Raise e, db')
          end
      end
  end.

(** The handler of lines 265-267: [conn.rollback()], then
    [raise DatabaseQueryError].  The rollback is not guarded: what it raises
    leaves the handler in place of DatabaseQueryError. *)
Definition rollback_and_raise : DB nat := fun db =>
  match rollback db with
  | (Return _, db') => (Raise DatabaseQueryError, db')
  | (Raise e, db') => (Raise e, db')
  end.

(** [batch_update_records] (lines 212-267) *)
Definition batch_update_records (tagc : string) (updates : list update)
  : DB nat := fun db =>
  match execute_updates tagc updates 0 db with
  | (Return updated_count, db') =>
      if query_fails db' Commit
      then rollback_and_raise (journalled Commit db')
      else (Return updated_count, commit db')
  | (Raise _, db') => rollback_and_raise db'
  end.

(* ================================================================== *)
(** * ImportService (Gui.py, lines 521-783)

    The service reports through two callbacks of its caller,
    [log_callback] and [progress_callback].  This part is the run under
    callbacks that return; [run_import_logged], further down, is the run
    with the calls to the callbacks, each of which may raise. *)

(** What the loop of [_process_excel_file] accumulates. *)
Record Totals : Type := mkTotals {
  acc_sheet_results : list SheetResult;
  acc_validation_errors : list ValidationError;
  total_detected : nat;
  total_committed : nat
}.

Definition set_status (s : string) (r : SheetResult) : SheetResult :=
  mkSheetResult (sr_sheet_name r) (result r) s (update_count r).

(** [total_detected += len(updates)] *)
Definition add_detected (n : nat) (acc : Totals) : Totals :=
  mkTotals (acc_sheet_results acc) (acc_validation_errors acc)
           (total_detected acc + n) (total_committed acc).

(** [total_committed += committed] *)
Definition add_committed (n : nat) (acc : Totals) : Totals :=
  mkTotals (acc_sheet_results acc) (acc_validation_errors acc)
           (total_detected acc) (total_committed acc + n).

(** [sheet_results.append(sheet_result)] and
    [all_validation_errors.extend(validation_errors)] *)
Definition add_sheet (r : SheetResult) (errors : list ValidationError)
    (acc : Totals) : Totals :=
  mkTotals (acc_sheet_results acc ++ [r]) (acc_validation_errors acc ++ errors)
           (total_detected acc) (total_committed acc).

(** The body of the [try] of lines 708-753.  The totals are local variables
    of [_process_excel_file]: what the body has added to them stays when it
    raises. *)
Definition try_sheet (self : ImportService) (sheet_processor : SheetProcessor)
    (xls : Workbook) (sheet : string) (existing_tags : list string)
    (dry_run : bool) (acc : Totals) (db : Database)
  : outcome unit * Totals * Database :=
  match process_sheet sheet_processor xls sheet existing_tags empty_frame with
  | Raise e => (Raise e, acc, db)
  | Return (sheet_result, updates, validation_errors) =>
      (* Fetch SQL data for tags in this sheet if there are potential updates *)
      let second :=
        match updates with
        | [] => (Return (sheet_result, updates, validation_errors), db)
        | _ =>
            let tags_in_sheet := map fst updates in
            match fetch_records_by_tags (db_tag_column self) tags_in_sheet
                    (batch_size (app_config self)) db with
            | (Raise e, db') => (Raise e, db')
            | (Return sql_data, db') =>
                (process_sheet sheet_processor xls sheet existing_tags sql_data,
                 db')
            end
        end in
      match second with
      | (Raise e, db') => (Raise e, acc, db')
      | (Return (sheet_result, updates, validation_errors), db') =>
          (* Handle updates *)
          match updates with
          | [] => (Return tt, add_sheet sheet_result validation_errors acc, db')
          | _ =>
              let acc := add_detected (List.length updates) acc in
              if dry_run then
                (Return tt, add_sheet sheet_result validation_errors acc, db')
              else
                match batch_update_records (db_tag_column self) updates db' with
                | (Return committed, db2) =>
                    (Return tt,
                     add_sheet (set_status "UPDATED" sheet_result)
                       validation_errors (add_committed committed acc),
                     db2)
                | (Raise DatabaseQueryError, db2) =>
                    (Return tt,
                     add_sheet (set_status "ERROR" sheet_result)
                       validation_errors acc,
                     db2)
                | (Raise e, db2) => (Raise e, acc, db2)
                end
          end
      end
  end.

(** One turn of the loop of lines 704-761: the [try] and its handler. *)
Definition process_one (self : ImportService) (sheet_processor : SheetProcessor)
    (xls : Workbook) (sheet : string) (existing_tags : list string)
    (dry_run : bool) (acc : Totals) (db : Database) : Totals * Database :=
  if negb (mem_str sheet (allowed_sheets (config sheet_processor))) then (acc, db)
  else
    match try_sheet self sheet_processor xls sheet existing_tags dry_run acc db with
    | (Return _, acc', db') => (acc', db')
    | (Raise _, acc', db') =>
        (add_sheet (mkSheetResult sheet "Processing Error" "ERROR" 0) [] acc', db')
    end.

Fixpoint process_sheets (self : ImportService) (sheet_processor : SheetProcessor)
    (xls : Workbook) (sheet_names : list string) (existing_tags : list string)
    (dry_run : bool) (acc : Totals) (db : Database) : Totals * Database :=
  match sheet_names with
  | [] => (acc, db)
  | sheet :: rest =>
      let '(acc', db') :=
        process_one self sheet_processor xls sheet existing_tags dry_run acc db in
      process_sheets self sheet_processor xls rest existing_tags dry_run acc' db'
  end.

(** The ImportResult of lines 776-783. *)
Definition import_result (report_path : string) (acc : Totals) : ImportResult :=
  mkImportResult true (acc_sheet_results acc) (total_detected acc)
    (total_committed acc) (acc_validation_errors acc)
    (match acc_validation_errors acc with
     | [] => None
     | _ => Some report_path
     end)
    None.

(** [_process_excel_file] (lines 684-783).  [excel_file] is what
    [pd.ExcelFile(excel_path)] gives; [report_path] is the name
    [generate_report_filename] builds from the path and the clock. *)
Definition _process_excel_file (self : ImportService)
    (excel_file : outcome Workbook) (report_path : string)
    (sheet_processor : SheetProcessor) (existing_tags : list string)
    (dry_run : bool) : DB ImportResult := fun db =>
  match excel_file with
  | Raise e => (Raise e, db)
  | Return xls =>
      let '(acc, db') :=
        process_sheets self sheet_processor xls (map fst xls) existing_tags
          dry_run (mkTotals [] [] 0 0) db in
      (Return (import_result report_path acc), db')
  end.

(** The [try] of [run_import], lines 591-645.  [config_file] is what
    [ConfigLoader.load_from_excel(config_path)] gives: a configuration, or
    [None] when it raises its ValueError. *)
Definition try_import (self : ImportService)
    (excel_file : outcome Workbook) (config_file : option ProcessingConfig)
    (report_path : string) (dry_run : bool) : DB ImportResult := fun db =>
  match config_file with
  | None => (Raise ValueError, db)
  | Some processing_config =>
      match connect db with
      | (Raise e, db1) => (Raise e, db1)
      | (Return _, db1) =>
          match get_table_metadata db1 with
          | (Raise e, db2) => (Raise e, db2)
          | (Return (sql_cols, numeric_cols), db2) =>
              match get_existing_tags (db_tag_column self) db2 with
              | (Raise e, db3) => (Raise e, db3)
              | (Return existing_tags, db3) =>
                  let validator :=
                    mkDataValidator numeric_cols
                      (float_comparison_threshold (app_config self)) in
                  let sheet_processor :=
                    mkSheetProcessor processing_config sql_cols validator
                      (db_tag_column self) in
                  _process_excel_file self excel_file report_path
                    sheet_processor existing_tags dry_run db3
              end
          end
      end
  end.

(** The text an [except] clause of [run_import] gives the failure. *)
Definition failure_message (e : exn) : string :=
  match e with
  | DatabaseConnectionError | DatabaseQueryError => "Database Error"
  | ValueError => "Configuration Error"
  | _ => "Unexpected Error"
  end.

(** [run_import] (lines 565-682) *)
Definition run_import (self : ImportService)
    (excel_file : outcome Workbook) (config_file : option ProcessingConfig)
    (report_path : string) (dry_run : bool) (db : Database)
  : ImportResult * Database :=
  match try_import self excel_file config_file report_path dry_run db with
  | (Return import_result, db') => (import_result, db')
  | (Raise DatabaseConnectionError, db')
  | (Raise DatabaseQueryError, db') => (failed_import "Database Error", db')
  | (Raise ValueError, db') => (failed_import "Configuration Error", db')
  | (Raise _, db') => (failed_import "Unexpected Error", db')
  end.

(* ------------------------------------------------------------------ *)
(** ** The run with its callbacks

    [self._log] calls [log_callback], and [process_sheet] calls
    [progress_callback] when one is given.  Either may raise.  What the
    callbacks will do is given in advance as the list of the calls that
    raise: [(n, e)] stands for [n] calls that return followed by one that
    raises [e]; the empty list is a pair of callbacks that never raise.
    Messages are not kept. *)

Definition Calls : Type := list (nat * exn).

Definition World : Type := (Database * Calls)%type.

(** A step of the run: on the store and on the callbacks. *)
Definition Run (A : Type) : Type := World -> outcome A * World.

Definition ret {A : Type} (a : A) : Run A := fun w => (Return a, w).

Definition raise {A : Type} (e : exn) : Run A := fun w => (Raise e, w).

Definition and_then {A B : Type} (m : Run A) (k : A -> Run B) : Run B :=
  fun w =>
    match m w with
    | (Return a, w') => k a w'
    | (Raise e, w') => (Raise e, w')
    end.

Notation "x <~ m ;; k" := (and_then m (fun x => k))
  (at level 61, m at next level, right associativity).
Notation "' p <~ m ;; k" := (and_then m (fun p => k))
  (at level 61, p pattern, m at next level, right associativity).

(** [try: m except Exception as e: handler e] *)
Definition catch {A : Type} (m : Run A) (handler : exn -> Run A) : Run A :=
  fun w =>
    match m w with
    | (Return a, w') => (Return a, w')
    | (Raise e, w') => handler e w'
    end.

(** A call of a store operation. *)
Definition on_store {A : Type} (m : DB A) : Run A := fun w =>
  let '(r, db') := m (fst w) in (r, (db', snd w)).

(** An expression that may raise. *)
Definition evaluate {A : Type} (m : outcome A) : Run A := fun w => (m, w).

(** One call of a callback. *)
Definition call_back : Run unit := fun w =>
  match snd w with
  | [] => (Return tt, w)
  | (O, e) :: rest => (Raise e, (fst w, rest))
  | (S n, e) :: rest => (Return tt, (fst w, (n, e) :: rest))
  end.

(** [self._log(message, tag)] *)
Definition _log : Run unit := call_back.

(** [if progress_callback: progress_callback(...)], the first statement of
    [process_sheet]. *)
Definition report_progress (progress_callback : bool) : Run unit :=
  if progress_callback then call_back else ret tt.

Fixpoint log_lines (n : nat) : Run unit :=
  match n with
  | O => ret tt
  | S n' => _ <~ _log ;; log_lines n'
  end.

(** The body of the [try] of lines 708-753, with its calls.  It gives the
    totals as it leaves them. *)
Definition try_sheet_logged (self : ImportService)
    (sheet_processor : SheetProcessor) (xls : Workbook) (sheet : string)
    (existing_tags : list string) (dry_run progress_callback : bool)
    (acc : Totals) : World -> outcome unit * Totals * World := fun w =>
  let leave (acc : Totals) (r : outcome unit * World) :=
    (fst r, acc, snd r) in
  match (_ <~ report_progress progress_callback ;;
         evaluate (process_sheet sheet_processor xls sheet existing_tags
                     empty_frame)) w with
  | (Raise e, w) => (Raise e, acc, w)
  | (Return (sheet_result, updates, validation_errors), w) =>
      let second :=
        match updates with
        | [] => (Return (sheet_result, updates, validation_errors), w)
        | _ =>
            (sql_data <~ on_store
                           (fetch_records_by_tags (db_tag_column self)
                              (map fst updates) (batch_size (app_config self))) ;;
             _ <~ report_progress progress_callback ;;
             evaluate (process_sheet sheet_processor xls sheet existing_tags
                         sql_data)) w
        end in
      match second with
      | (Raise e, w) => (Raise e, acc, w)
      | (Return (sheet_result, updates, validation_errors), w) =>
          match updates with
          | [] => (Return tt, add_sheet sheet_result validation_errors acc, w)
          | _ =>
              let acc := add_detected (List.length updates) acc in
              if dry_run then
                (* self._log("... changes detected (dry-run)") *)
                match _log w with
                | (Return _, w) =>
                    (Return tt, add_sheet sheet_result validation_errors acc, w)
                | (Raise e, w) => (Raise e, acc, w)
                end
              else
                (* the inner try: the update, the count, the status, the
                   line of the log; its handler catches DatabaseQueryError *)
                let failed (acc : Totals) (w : World) :=
                  match _log w with
                  | (Return _, w) =>
                      (Return tt,
                       add_sheet (set_status "ERROR" sheet_result)
                         validation_errors acc,
                       w)
                  | (Raise e, w) => (Raise e, acc, w)
                  end in
                match on_store (batch_update_records (db_tag_column self)
                                  updates) w with
                | (Return committed, w) =>
                    let acc := add_committed committed acc in
                    match _log w with
                    | (Return _, w) =>
                        (Return tt,
                         add_sheet (set_status "UPDATED" sheet_result)
                           validation_errors acc,
                         w)
                    | (Raise DatabaseQueryError, w) => failed acc w
                    | (Raise e, w) => (Raise e, acc, w)
                    end
                | (Raise DatabaseQueryError, w) => failed acc w
                | (Raise e, w) => (Raise e, acc, w)
                end
          end
      end
  end.

(** One turn of the loop with its handler, which logs the error before it
    records the sheet. *)
Definition process_one_logged (self : ImportService)
    (sheet_processor : SheetProcessor) (xls : Workbook) (sheet : string)
    (existing_tags : list string) (dry_run progress_callback : bool)
    (acc : Totals) : Run Totals := fun w =>
  if negb (mem_str sheet (allowed_sheets (config sheet_processor)))
  then (Return acc, w)
  else
    match try_sheet_logged self sheet_processor xls sheet existing_tags dry_run
            progress_callback acc w with
    | (Return _, acc', w') => (Return acc', w')
    | (Raise _, acc', w') =>
        (_ <~ _log ;;
         ret (add_sheet (mkSheetResult sheet "Processing Error" "ERROR" 0) []
                acc')) w'
    end.

Fixpoint process_sheets_logged (self : ImportService)
    (sheet_processor : SheetProcessor) (xls : Workbook)
    (sheet_names : list string) (existing_tags : list string)
    (dry_run progress_callback : bool) (acc : Totals) : Run Totals :=
  match sheet_names with
  | [] => ret acc
  | sheet :: rest =>
      acc' <~ process_one_logged self sheet_processor xls sheet existing_tags
                dry_run progress_callback acc ;;
      process_sheets_logged self sheet_processor xls rest existing_tags dry_run
        progress_callback acc'
  end.

(** [_process_excel_file] with its calls.  [report_written] is what
    [generate_error_report] returns, which catches what it raises. *)
Definition _process_excel_file_logged (self : ImportService)
    (excel_file : outcome Workbook) (report_path : string)
    (report_written : bool) (sheet_processor : SheetProcessor)
    (existing_tags : list string) (dry_run progress_callback : bool)
  : Run ImportResult :=
  xls <~ evaluate excel_file ;;
  acc <~ process_sheets_logged self sheet_processor xls (map fst xls)
           existing_tags dry_run progress_callback (mkTotals [] [] 0 0) ;;
  _ <~ match acc_validation_errors acc with
       | [] => _log                           (* "No data type errors found." *)
       | _ => _ <~ _log ;;                    (* "WARNING: ..." *)
              if report_written then _log else ret tt
       end ;;
  ret (import_result report_path acc).

(** [_generate_summary] (lines 785-816): three lines of heading, a line per
    sheet, the rule, the detected total and, when it is not 0, the committed
    total. *)
Definition _generate_summary (r : ImportResult) : Run unit :=
  _ <~ log_lines 3 ;;
  _ <~ log_lines (List.length (sheet_results r)) ;;
  _ <~ log_lines 2 ;;
  if (0 <? total_committed_updates r)%nat then _log else ret tt.

(** The [try] of [run_import] with its calls. *)
Definition try_import_logged (self : ImportService)
    (excel_file : outcome Workbook) (config_file : option ProcessingConfig)
    (report_path : string) (report_written dry_run progress_callback : bool)
  : Run ImportResult :=
  _ <~ _log ;;
  processing_config <~ evaluate (match config_file with
                                 | Some c => Return c
                                 | None => Raise ValueError
                                 end) ;;
  _ <~ log_lines 2 ;;
  _ <~ on_store connect ;;
  _ <~ log_lines 2 ;;
  ' (sql_cols, numeric_cols) <~ on_store get_table_metadata ;;
  _ <~ log_lines 2 ;;
  existing_tags <~ on_store (get_existing_tags (db_tag_column self)) ;;
  _ <~ _log ;;
  let validator :=
    mkDataValidator numeric_cols
      (float_comparison_threshold (app_config self)) in
  let sheet_processor :=
    mkSheetProcessor processing_config sql_cols validator
      (db_tag_column self) in
  _ <~ _log ;;
  r <~ _process_excel_file_logged self excel_file report_path report_written
         sheet_processor existing_tags dry_run progress_callback ;;
  _ <~ _generate_summary r ;;
  _ <~ _log ;;
  ret r.

(** [run_import] (lines 565-682) with its calls: four lines before the
    [try], the [try], and the line each [except] clause logs before it
    returns. *)
Definition run_import_logged (self : ImportService)
    (excel_file : outcome Workbook) (config_file : option ProcessingConfig)
    (report_path : string) (report_written dry_run progress_callback : bool)
  : Run ImportResult :=
  _ <~ log_lines 4 ;;
  catch (try_import_logged self excel_file config_file report_path
           report_written dry_run progress_callback)
        (fun e => _ <~ _log ;; ret (failed_import (failure_message e))).

(* ================================================================== *)
(** * Definitions used to state the properties *)

(** The body of the loop of lines 451-469 for one row: the changeset it
    appends, if any. *)
Definition row_update (thr : float) (tagc : string) (sql_df : DataFrame)
    (cols : list string) (excel_row : Series) : outcome (option update) :=
  tag_item <- getitem excel_row tagc ;;
  if negb (mem_str tagc (columns sql_df)) then Raise (KeyError tagc)
  else
    match tag_item with
    | Scalar tag =>
        match sql_match_rows tagc tag sql_df with
        | [] => Return None
        | sql_row :: _ =>
            changes <- check_columns thr excel_row sql_row cols [] ;;
            Return (match changes with
                    | [] => None
                    | _ => Some (tag, changes)
                    end)
        end
    | _ => Raise ValueError
    end.

Definition push (o : option update) (updates : list update) : list update :=
  match o with
  | None => updates
  | Some u => updates ++ [u]
  end.

(** The changesets the rows contribute, in order. *)
Definition updates_of (thr : float) (tagc : string) (sql_df : DataFrame)
    (cols : list string) (rows : list Series) : list update :=
  flat_map (fun r => match row_update thr tagc sql_df cols r with
                     | Return (Some u) => [u]
                     | _ => []
                     end) rows.

(** The frame [process_sheet] validates: the rows that passed key
    filtering, restricted to the valid columns and the key column. *)
Definition selected_frame (self : SheetProcessor) (existing_tags : list string)
    (df : DataFrame) : DataFrame :=
  let filtered := filter_tags self existing_tags (mapped_frame self df) in
  select_columns (valid_columns_of self filtered ++ [tag_column self]) filtered.

Definition processing_error (sheet : string) : SheetResult :=
  mkSheetResult sheet "Processing Error" "ERROR" 0.

(** What the run records for an allowed sheet. *)
Definition sheet_fate (sheet_processor : SheetProcessor) (xls : Workbook)
    (existing_tags : list string) (sheet : string) : SheetResult :=
  match process_sheet sheet_processor xls sheet existing_tags empty_frame with
  | Return (sheet_result, _, _) => sheet_result
  | Raise _ => processing_error sheet
  end.

Definition record_fate (r : SheetResult) (acc : Totals) : Totals :=
  mkTotals (acc_sheet_results acc ++ [r]) (acc_validation_errors acc)
           (total_detected acc) (total_committed acc).

(** The processor and the key set [run_import] builds from the store. *)
Definition built_processor (self : ImportService)
    (processing_config : ProcessingConfig) (db : Database) : SheetProcessor :=
  mkSheetProcessor processing_config (map fst (schema db))
    (mkDataValidator
       (map fst (filter (fun p => mem_str (snd p) numeric_types) (schema db)))
       (float_comparison_threshold (app_config self)))
    (db_tag_column self).

Definition stored_tags (self : ImportService) (db : Database) : list string :=
  map (fun v => strip (astype_str v))
      (column_values (db_tag_column self) (session db)).

(** Everything outside the loop over the sheets went well: the
    configuration loaded, the connection opened, both queries succeeded and
    the input workbook opened. *)
Definition run_ready (self : ImportService) (excel_file : outcome Workbook)
    (config_file : option ProcessingConfig) (db : Database) : bool :=
  match config_file with Some _ => true | None => false end
  && negb (query_fails db Connect)
  && negb (query_fails (journalled Connect db) Metadata)
  && negb (query_fails (journalled Metadata (journalled Connect db)) SelectTags
           || negb (mem_str (db_tag_column self) (columns (session db))))
  && negb (raised excel_file).

Definition opened (db : Database) : Database :=
  journalled SelectTags (journalled Metadata (journalled Connect db)).

(** The exceptions the callbacks may still raise. *)
Definition pending (w : World) : list exn := map snd (snd w).

(** A step that takes no exception from elsewhere into the callbacks. *)
Definition settles {A : Type} (m : Run A) : Prop :=
  forall w r w', m w = (r, w') -> incl (pending w') (pending w).

Definition item_map (f : value -> value) (i : item) : item :=
  match i with
  | Missing => Missing
  | Scalar v => Scalar (f v)
  | NonScalar vs => NonScalar (map f vs)
  end.

(** The key of a source row after key cleaning: a string. *)
Definition row_key (tagc : string) (row : Series) : option string :=
  match series_get tagc row with
  | Scalar (VStr s) => Some s
  | _ => None
  end.

(** What a list of changesets does to one row of the store. *)
Definition apply_row (tagc : string) (updates : list update) (row : Series)
  : Series :=
  fold_left (fun r u => if tag_matches tagc (fst u) r
                        then set_fields (snd u) r else r)
            updates row.

(** The value of column [c] once the fields of [changes] are set. *)
Definition final (c : string) (changes : dict value) (x : value) : value :=
  fold_left (fun x cv => if String.eqb (fst cv) c then snd cv else x) changes x.

(** A changeset of the diff of string-keyed rows: its key is a string and
    it does not touch the key column. *)
Definition good_update (tagc : string) (u : update) : Prop :=
  (exists s, fst u = VStr s) /\ ~ In tagc (keys (snd u)).

(** The changes a row contributes, none included. *)
Definition changes_of (o : option update) : dict value :=
  match o with
  | Some (_, changes) => changes
  | None => []
  end.

(* ------------------------------------------------------------------ *)
(** ** A small store and workbook for the examples *)

(** An environment in which the server refuses nothing. *)
Definition server_up (_ : Database) (_ : db_call) : bool := false.

(** Text of a float for the examples, in which no float is ever turned
    into text: only NaN is told apart. *)
Definition sample_float_repr (f : float) : string :=
  if is_nan f then "nan" else "0.0".

Fixpoint digits_value (s : string) (acc : Z) (seen : bool) : option Z :=
  match s with
  | EmptyString => if seen then Some acc else None
  | String c rest =>
      let n := nat_of_ascii c in
      if ((48 <=? n)%nat && (n <=? 57)%nat)
      then digits_value rest (10 * acc + Z.of_nat (n - 48))%Z true
      else None
  end.

(** A parser for the examples: decimal integer literals and nothing else. *)
Definition int_literal (s : string) : option num :=
  match s with
  | String "-" rest => option_map (fun z => NInt (- z)) (digits_value rest 0 false)
  | _ => option_map NInt (digits_value s 0 false)
  end.

Definition ex_config : ProcessingConfig :=
  mkProcessingConfig [("Temp (C)", "Temperature")] ["Sensors"] ["Tag Number"].

Definition ex_table : DataFrame :=
  mkDataFrame ["Tag Number"; "Temperature"; "Pressure"; "Notes"]
    [[("Tag Number", VStr "T-100"); ("Temperature", VFloat 3);
      ("Pressure", VFloat 1); ("Notes", VStr "old")];
     [("Tag Number", VStr "T-200"); ("Temperature", VFloat 10);
      ("Pressure", VFloat 2); ("Notes", VStr "ok")]].

Definition ex_db : Database :=
  mkDatabase [("Tag Number", "nvarchar"); ("Temperature", "float");
              ("Pressure", "float"); ("Notes", "nvarchar")]
             ex_table ex_table [].

Definition ex_service : ImportService :=
  mkImportService "Tag Number" (mkAppConfig 2000 default_float_threshold).

Definition ex_processor : SheetProcessor :=
  mkSheetProcessor ex_config ["Tag Number"; "Temperature"; "Pressure"; "Notes"]
    (mkDataValidator ["Temperature"; "Pressure"] default_float_threshold)
    "Tag Number".

Definition ex_tags : list string := ["T-100"; "T-200"].

(** A sheet with a header to map, a key to trim, a cell that is no number, a
    whitespace-only text cell, an unmapped store column and an unknown key. *)
Definition ex_sheet : DataFrame :=
  mkDataFrame ["Tag Number"; "Temp (C)"; "Pressure"; "Notes"]
    [[("Tag Number", VStr " T-100 "); ("Temp (C)", VFloat 3);
      ("Pressure", VStr "abc"); ("Notes", VStr "  ")];
     [("Tag Number", VStr "T-200"); ("Temp (C)", VFloat 10.5);
      ("Pressure", VFloat 2); ("Notes", VStr "ok")];
     [("Tag Number", VStr "T-999"); ("Temp (C)", VFloat 1);
      ("Pressure", VFloat 1); ("Notes", VStr "zz")]].

Definition ex_xls : Workbook :=
  [("Sensors", Return ex_sheet); ("Notes", Return ex_sheet)].

(** Two source rows with the same key and different values. *)
Definition ex_twice : DataFrame :=
  mkDataFrame ["Notes"; "Tag Number"]
    [[("Notes", VStr "a"); ("Tag Number", VStr "T-100")];
     [("Notes", VStr "b"); ("Tag Number", VStr "T-100")]].

(** Source rows with distinct keys, as they reach the diff. *)
Definition ex_clean : DataFrame :=
  mkDataFrame ["Temperature"; "Notes"; "Tag Number"]
    [[("Temperature", VFloat 3); ("Notes", VStr "new"); ("Tag Number", VStr "T-100")];
     [("Temperature", VFloat 10.5); ("Notes", VNone); ("Tag Number", VStr "T-200")]].

(** A store whose "Count" column holds integers, and a sheet in which the
    "Count" cell is blank in the first row (pandas reads it as NaN) and
    holds two spaces in the second. *)
Definition ex_count_table : DataFrame :=
  mkDataFrame ["Tag Number"; "Count"]
    [[("Tag Number", VStr "T-100"); ("Count", VInt 7)];
     [("Tag Number", VStr "T-200"); ("Count", VInt 5)];
     [("Tag Number", VStr "T-300"); ("Count", VInt 5)]].

Definition ex_count_sheet : DataFrame :=
  mkDataFrame ["Tag Number"; "Count"]
    [[("Tag Number", VStr "T-100"); ("Count", VFloat PrimFloat.nan)];
     [("Tag Number", VStr "T-200"); ("Count", VStr "  ")];
     [("Tag Number", VStr "T-300"); ("Count", VInt 5)]].

Definition ex_count_xls : Workbook := [("Counts", Return ex_count_sheet)].

Definition ex_count_tags : list string := ["T-100"; "T-200"; "T-300"].

Definition ex_count_processor : SheetProcessor :=
  mkSheetProcessor (mkProcessingConfig [] ["Counts"] ["Tag Number"])
    ["Tag Number"; "Count"]
    (mkDataValidator ["Count"] default_float_threshold) "Tag Number".

(** A server that refuses the statement for T-200 and takes every other
    call, and a server that loses the connection at that statement: it
    refuses it and every call after it, the rollback included. *)
Definition statement_refused (_ : Database) (c : db_call) : bool :=
  match c with
  | Update tag _ => py_eq tag (VStr "T-200")
  | _ => false
  end.

Definition connection_lost (_ : Database) (c : db_call) : bool :=
  match c with
  | Update tag _ => py_eq tag (VStr "T-200")
  | Commit | Rollback => true
  | _ => false
  end.

Definition ex_batch : list update :=
  [(VStr "T-100", [("Notes", VStr "new")]);
   (VStr "T-200", [("Temperature", VFloat 10.5)])].

(* ================================================================== *)
(** * More of the engine *)

(** The characters of a string. *)
Definition chars (s : string) : list ascii := list_ascii_of_string s.

(** [s] has no whitespace at either end. *)
Definition stripped (s : string) : Prop := lstrip s = s /\ rstrip s = s.

(** The characters the header cleaning deletes ([r'[\n\r\t]']) and the one
    it replaces by a space. *)
Definition is_control (c : ascii) : bool :=
  let n := nat_of_ascii c in (n =? 10)%nat || (n =? 13)%nat || (n =? 9)%nat.

Definition unbreak (c : ascii) : ascii :=
  if Ascii.eqb c nbsp then space else c.

(** What holds of every validation error of a sheet. *)
Definition sound_error (df : DataFrame) (sheet : string) (e : ValidationError)
  : Prop :=
  sheet_name e = sheet /\ error_reason e = type_mismatch /\
  In (invalid_value e) (column_values (excel_header e) df) /\
  notna (invalid_value e) = true /\
  strip (astype_str (invalid_value e)) <> EmptyString.

(** Every row of the frame carries exactly the frame's column labels. *)
Definition well_formed (df : DataFrame) : Prop :=
  Forall (fun row => map fst row = columns df) (records df).

(** [row'] has the labels of [row] and its cells outside [cols]. *)
Definition same_outside (cols : list string) (row row' : Series) : Prop :=
  map fst row' = map fst row /\
  forall c, ~ In c cols -> series_get c row' = series_get c row.

(* ------------------------------------------------------------------ *)
(** ** ConfigLoader.load_from_excel (Config.py, lines 173-232)

    The three sheets of the configuration workbook are frames as
    [pd.read_excel] gives them. *)

(** The cells of a row under a label. *)
Definition cells_of (label : string) (row : Series) : list value :=
  map snd (filter (has_label label) row).

(** [.dropna(subset=labels)]: a missing label is a [KeyError]; a row stays
    when none of its cells under the labels is null. *)
Fixpoint missing_label (labels cols : list string) : option string :=
  match labels with
  | [] => None
  | l :: rest => if mem_str l cols then missing_label rest cols else Some l
  end.

Definition dropna_subset (labels : list string) (df : DataFrame)
  : outcome DataFrame :=
  match missing_label labels (columns df) with
  | Some l => Raise (KeyError l)
  | None =>
      Return (filter_rows
                (fun row => forallb (fun l => forallb notna (cells_of l row))
                                    labels)
                df)
  end.

(** [.astype(str).str.strip()] on the cells of a column. *)
Definition text_of (cells : list value) : list string :=
  map (fun v => strip (astype_str v)) cells.

(** [df[label].astype(str).str.strip()]: a label the frame lacks is a
    [KeyError], and under a repeated label [df[label]] is a frame, which has
    no [.str]. *)
Definition text_column (label : string) (df : DataFrame)
  : outcome (list string) :=
  if negb (mem_str label (columns df)) then Raise (KeyError label)
  else if (1 <? label_count label df)%nat then Raise AttributeError
  else Return (text_of (column_values label df)).

(** [df[label].dropna().astype(str).str.strip().tolist()] *)
Definition text_list (label : string) (df : DataFrame)
  : outcome (list string) :=
  if negb (mem_str label (columns df)) then Raise (KeyError label)
  else if (1 <? label_count label df)%nat then Raise AttributeError
  else Return (text_of (filter notna (column_values label df))).

(** [dict(pairs)]: a key keeps the place of its first pair and the value of
    its last. *)
Definition dict_of_pairs {V : Type} (pairs : list (string * V)) : dict V :=
  fold_left (fun d p => dict_set (fst p) (snd p) d) pairs [].

(** [except Exception as e: raise ValueError(...)] *)
Definition or_value_error {A : Type} (m : outcome A) : outcome A :=
  match m with
  | Return a => Return a
  | Raise _ => Raise ValueError
  end.

Definition load_from_excel (file : outcome Workbook)
  : outcome ProcessingConfig :=
  or_value_error
    (xls <- file ;;
     sheet_map <- read_excel xls "Column_Mapping" ;;
     df_map <- dropna_subset ["Excel_Header"; "SQL_Column"] sheet_map ;;
     headers <- text_column "Excel_Header" df_map ;;
     sql_names <- text_column "SQL_Column" df_map ;;
     sheet_allowed <- read_excel xls "Allowed_Sheets" ;;
     allowed <- text_list "Sheet_Name" sheet_allowed ;;
     sheet_ignored <- read_excel xls "Ignored_Headers" ;;
     ignored <- text_list "Header_Name" sheet_ignored ;;
     Return (mkProcessingConfig (dict_of_pairs (combine headers sql_names))
                                allowed ignored)).

(** The value of the last pair with key [k]. *)
Definition last_for {V : Type} (k : string) (pairs : list (string * V))
  : option V :=
  fold_left (fun acc p => if String.eqb (fst p) k then Some (snd p) else acc)
            pairs None.

(** The mapping rows of the [Column_Mapping] sheet: header and column text
    of every row in which neither is null. *)
Definition mapping_pairs (sheet_map : DataFrame) : list (string * string) :=
  let kept := filter (fun row => forallb notna (cells_of "Excel_Header" row)
                                 && (forallb notna (cells_of "SQL_Column" row)
                                     && true))
                     (records sheet_map) in
  combine (text_of (flat_map (cells_of "Excel_Header") kept))
          (text_of (flat_map (cells_of "SQL_Column") kept)).

(** The mapping entries a header can reach: those whose key is a cleaned
    header already. *)
Definition live_mapping (m : dict string) : dict string :=
  filter (fun p => String.eqb (clean_column_name (fst p)) (fst p)) m.

Definition with_mapping (m : dict string) (self : SheetProcessor)
  : SheetProcessor :=
  mkSheetProcessor
    (mkProcessingConfig m (allowed_sheets (config self))
                        (ignored_headers (config self)))
    (sql_columns self) (validator self) (tag_column self).

(* ------------------------------------------------------------------ *)
(** ** DatabaseConfig.from_env (Config.py, lines 13-40)

    The environment is what [os.getenv] answers.  The four required
    variables are set where the settings are built, so that what stands for
    an unset one there is never used. *)

Record DatabaseConfig : Type := mkDatabaseConfig {
  server : string;
  database : string;
  uid : string;
  pwd : string;
  table_name : string;
  cfg_tag_column : string;        (* tag_column *)
  driver : string
}.

Definition required_vars : list string :=
  ["DB_SERVER"; "DB_NAME"; "DB_USER"; "DB_PASSWORD"].

(** [not os.getenv(var)]: unset, or set to the empty string. *)
Definition not_getenv (getenv : string -> option string) (var : string) : bool :=
  match getenv var with
  | None => true
  | Some v => String.eqb v EmptyString
  end.

(** [os.getenv(var, default)] *)
Definition getenv_or (getenv : string -> option string)
    (var default : string) : string :=
  match getenv var with
  | Some v => v
  | None => default
  end.

Definition from_env (getenv : string -> option string)
  : outcome DatabaseConfig :=
  match filter (not_getenv getenv) required_vars with
  | _ :: _ => Raise ValueError
  | [] =>
      Return (mkDatabaseConfig
                (getenv_or getenv "DB_SERVER" EmptyString)
                (getenv_or getenv "DB_NAME" EmptyString)
                (getenv_or getenv "DB_USER" EmptyString)
                (getenv_or getenv "DB_PASSWORD" EmptyString)
                (getenv_or getenv "DB_TABLE" "AllTagslist")
                (getenv_or getenv "TAG_COLUMN" "Tag Number")
                "ODBC Driver 17 for SQL Server")
  end.

(* ------------------------------------------------------------------ *)
(** ** The quoting of column names in [batch_update_records]
       (Database.py, lines 242-245) *)

Definition closing_bracket : ascii := ascii_of_nat 93.

(** [col_name.replace(']', ']]')] *)
Fixpoint safe_col (col_name : string) : string :=
  match col_name with
  | EmptyString => EmptyString
  | String c rest =>
      if Ascii.eqb c closing_bracket
      then String c (String c (safe_col rest))
      else String c (safe_col rest)
  end.

(** [f"[{safe_col}] = ?"] *)
Definition set_part (col_name : string) : string :=
  "[" ++ safe_col col_name ++ "] = ?".

(** The processor with other ignored headers. *)
Definition with_ignored (ignored : list string) (self : SheetProcessor)
  : SheetProcessor :=
  mkSheetProcessor
    (mkProcessingConfig (column_mapping (config self))
                        (allowed_sheets (config self)) ignored)
    (sql_columns self) (validator self) (tag_column self).

(* ================================================================== *)
(** * Properties *)

(** ** Facts about binary64 *)

Lemma SFsub_diag (x : spec_float) :
  SF64sub x x = S754_nan \/ exists s, SF64sub x x = S754_zero s.
Proof.
  destruct x as [s | s | | s m e]; cbn.
  - right. destruct s; eauto.
  - left. destruct s; reflexivity.
  - now left.
  - right. unfold SF64sub, SFsub.
    rewrite Z.sub_diag. cbn. eauto.
Qed.

Lemma ltb_abs_sub_diag (thr a : float) :
  PrimFloat.ltb thr 0%float = false ->
  PrimFloat.ltb thr (PrimFloat.abs (PrimFloat.sub a a)) = false.
Proof.
  rewrite !ltb_spec, abs_spec, sub_spec.
  change (Prim2SF 0%float) with (S754_zero false).
  intros H.
  destruct (SFsub_diag (Prim2SF a)) as [-> | [s ->]]; cbn.
  - unfold SFltb, SFcompare. now destruct (Prim2SF thr).
  - unfold SFltb, SFcompare in *.
    destruct (Prim2SF thr) as [s' | s' | | s' m e]; auto.
Qed.

Set Default Proof Using "Type".

(** Propositional reasoning that leaves the environment of the engine
    alone. *)
Ltac logic :=
  try clear float_repr; try clear str_to_num; try clear query_fails; tauto.

(** ** The value-difference test *)

Lemma py_ne_refl_false (v : value) :
  match v with VFloat _ => True | _ => py_ne v v = false end.
Proof.
  destruct v; cbn; auto.
  - unfold py_ne; cbn. now rewrite Z.eqb_refl.
  - unfold py_ne; cbn. now rewrite String.eqb_refl.
Qed.

(** With a threshold that is not negative, a value never differs from
    itself. *)
Lemma compare_values_diag (thr : float) (v : value) :
  PrimFloat.ltb thr 0%float = false -> compare_values thr v v = false.
Proof.
  intros Hthr. destruct v as [| z | f | s]; cbn; auto.
  - unfold py_ne; cbn. now rewrite Z.eqb_refl.
  - now apply ltb_abs_sub_diag.
  - unfold py_ne; cbn. now rewrite String.eqb_refl.
Qed.

(** ** The inner loop of the diff *)

Lemma dict_set_in {V : Type} (k : string) (x : V) (d : dict V) (c : string) (v : V) :
  In (c, v) (dict_set k x d) -> (c, v) = (k, x) \/ In (c, v) d.
Proof.
  induction d as [| [k' v'] d IH]; cbn.
  - intros [H | []]; auto.
  - destruct (String.eqb k' k) eqn:E; cbn.
    + apply String.eqb_eq in E; subst k'.
      intros [H | H]; auto.
    + intros [H | H]; auto. destruct (IH H); auto.
Qed.

Lemma dict_set_keys {V : Type} (k : string) (x : V) (d : dict V) (c : string) :
  In c (keys (dict_set k x d)) <-> c = k \/ In c (keys d).
Proof.
  unfold keys. induction d as [| [k' v'] d IH]; cbn.
  - split; intros [H | []]; auto.
  - destruct (String.eqb k' k) eqn:E; cbn.
    + apply String.eqb_eq in E; subst k'.
      split; [intros [H | H]; auto | intros [H | [H | H]]; auto].
    + rewrite IH. logic.
Qed.

Lemma dict_set_nonempty {V : Type} (k : string) (x : V) (d : dict V) :
  dict_set k x d <> [].
Proof.
  destruct d as [| [k' v'] d]; cbn; [discriminate |].
  destruct (String.eqb k' k); discriminate.
Qed.

Lemma getitem_Return (row : Series) (label : string) (i : item) :
  getitem row label = Return i -> series_get label row = i /\ i <> Missing.
Proof.
  unfold getitem. destruct (series_get label row); intros H; inversion H; subst;
    split; auto; discriminate.
Qed.

Lemma compare_truth_true (thr : float) (e s : item) :
  compare_truth thr e s = Return true ->
  exists a b, e = Scalar a /\ s = Scalar b /\ compare_values thr a b = true.
Proof.
  unfold compare_truth.
  destruct e as [| a | vs]; try discriminate.
  - destruct s as [| b | ws].
    + destruct a; discriminate.
    + intros H; inversion H. exists a, b. auto.
    + destruct a; discriminate.
Qed.

(** Every field the inner loop records is a compared column whose source
    cell differs from the reference cell. *)
Lemma check_columns_sound (thr : float) (excel_row sql_row : Series)
    (cols : list string) :
  forall (acc changes : dict value),
    check_columns thr excel_row sql_row cols acc = Return changes ->
    forall c v, In (c, v) changes ->
      In (c, v) acc \/
      (In c cols /\ series_get c excel_row = Scalar v /\
       exists sv, series_get c sql_row = Scalar sv /\
                  compare_values thr v sv = true).
Proof.
  induction cols as [| col rest IH]; cbn; intros acc changes H c v Hin.
  - inversion H; subst; auto.
  - destruct (getitem excel_row col) as [ei |] eqn:Ee; cbn in H; [| discriminate].
    destruct (getitem sql_row col) as [si |] eqn:Es; cbn in H; [| discriminate].
    destruct (compare_truth thr ei si) as [b |] eqn:Ec; cbn in H; [| discriminate].
    destruct (IH _ _ H c v Hin) as [Hacc | (Hc & Hv & sv & Hs & Hd)].
    + destruct b.
      * apply compare_truth_true in Ec as (a & b' & -> & -> & Hd).
        apply dict_set_in in Hacc as [Heq | Hacc]; auto.
        inversion Heq; subst. right.
        apply getitem_Return in Ee as [Ee _].
        apply getitem_Return in Es as [Es _].
        split; [now left |]. split; auto. eauto.
      * destruct ei; auto.
    + right. split; [now right |]. eauto.
Qed.

Lemma check_columns_acc_nonempty (thr : float) (excel_row sql_row : Series)
    (cols : list string) :
  forall (acc changes : dict value),
    check_columns thr excel_row sql_row cols acc = Return changes ->
    acc <> [] -> changes <> [].
Proof.
  induction cols as [| col rest IH]; cbn; intros acc changes H Hacc.
  - now inversion H; subst.
  - destruct (getitem excel_row col) as [ei |]; cbn in H; [| discriminate].
    destruct (getitem sql_row col) as [si |]; cbn in H; [| discriminate].
    destruct (compare_truth thr ei si) as [b |]; cbn in H; [| discriminate].
    apply (IH _ _ H).
    destruct b; auto. destruct ei; auto. apply dict_set_nonempty.
Qed.

(** ** The outer loop of the diff, one row at a time *)

Lemma identify_rows_cons (thr : float) (tagc : string) (sql_df : DataFrame)
    (cols : list string) (excel_row : Series) (rest : list Series)
    (updates : list update) :
  identify_rows thr tagc sql_df cols (excel_row :: rest) updates =
  (o <- row_update thr tagc sql_df cols excel_row ;;
   identify_rows thr tagc sql_df cols rest (push o updates)).
Proof.
  cbn. unfold row_update.
  destruct (getitem excel_row tagc) as [ti |]; cbn; auto.
  destruct (negb (mem_str tagc (columns sql_df))); auto.
  destruct ti as [| tag | vs]; auto.
  destruct (sql_match_rows tagc tag sql_df) as [| sql_row l]; auto.
  destruct (check_columns thr excel_row sql_row cols []) as [changes |]; cbn; auto.
  destruct changes; auto.
Qed.

Lemma identify_rows_Return (thr : float) (tagc : string) (sql_df : DataFrame)
    (cols : list string) (rows : list Series) :
  forall updates ups,
    identify_rows thr tagc sql_df cols rows updates = Return ups ->
    ups = (updates ++ updates_of thr tagc sql_df cols rows)%list /\
    Forall (fun r => raised (row_update thr tagc sql_df cols r) = false) rows.
Proof.
  induction rows as [| r rest IH]; intros updates ups H.
  - cbn in H. inversion H; subst. cbn. now rewrite app_nil_r.
  - rewrite identify_rows_cons in H.
    destruct (row_update thr tagc sql_df cols r) as [o |] eqn:Er; cbn in H;
      [| discriminate].
    destruct (IH _ _ H) as [-> Hall]. split.
    + cbn. rewrite Er. destruct o; cbn; auto. now rewrite <- app_assoc.
    + constructor; auto. now rewrite Er.
Qed.

Lemma identify_rows_total (thr : float) (tagc : string) (sql_df : DataFrame)
    (cols : list string) (rows : list Series) :
  Forall (fun r => raised (row_update thr tagc sql_df cols r) = false) rows ->
  forall updates,
    identify_rows thr tagc sql_df cols rows updates =
    Return (updates ++ updates_of thr tagc sql_df cols rows)%list.
Proof.
  induction 1 as [| r rest Hr _ IH]; intros updates.
  - cbn. now rewrite app_nil_r.
  - rewrite identify_rows_cons.
    destruct (row_update thr tagc sql_df cols r) as [o |] eqn:Er; [| discriminate].
    cbn. rewrite IH, Er. destruct o; cbn; auto. now rewrite <- app_assoc.
Qed.

Lemma row_update_Some (thr : float) (tagc : string) (sql_df : DataFrame)
    (cols : list string) (excel_row : Series) (tag : value) (changes : dict value) :
  row_update thr tagc sql_df cols excel_row = Return (Some (tag, changes)) ->
  series_get tagc excel_row = Scalar tag /\
  changes <> [] /\
  exists sql_row rest,
    sql_match_rows tagc tag sql_df = sql_row :: rest /\
    check_columns thr excel_row sql_row cols [] = Return changes.
Proof.
  unfold row_update.
  destruct (getitem excel_row tagc) as [ti |] eqn:Et; cbn; [| discriminate].
  destruct (negb (mem_str tagc (columns sql_df))); [discriminate |].
  apply getitem_Return in Et as [Et _].
  destruct ti as [| t | vs]; try discriminate.
  destruct (sql_match_rows tagc t sql_df) as [| sql_row l] eqn:Em; [discriminate |].
  destruct (check_columns thr excel_row sql_row cols []) as [ch |] eqn:Ec; cbn;
    [| discriminate].
  destruct ch as [| p ch]; [discriminate |].
  intros H; inversion H; subst. split; auto. split; [discriminate |]. eauto.
Qed.

Lemma in_updates_of (thr : float) (tagc : string) (sql_df : DataFrame)
    (cols : list string) (rows : list Series) (u : update) :
  In u (updates_of thr tagc sql_df cols rows) <->
  exists r, In r rows /\ row_update thr tagc sql_df cols r = Return (Some u).
Proof.
  unfold updates_of. rewrite in_flat_map. split.
  - intros (r & Hr & Hu). exists r. split; auto.
    destruct (row_update thr tagc sql_df cols r) as [[u' |] |]; cbn in Hu;
      try contradiction.
    destruct Hu as [-> | []]. reflexivity.
  - intros (r & Hr & Hu). exists r. split; auto. rewrite Hu. now left.
Qed.

(* ================================================================== *)
(** * The diff and its changesets *)


(** Every changeset of the diff is non-empty and made of differing
    fields. *)
Lemma identify_updates_fields (self : SheetProcessor)
    (excel_df sql_df : DataFrame) (cols : list string) (ups : list update) :
  _identify_updates self excel_df sql_df cols = Return ups ->
  forall tag changes,
    In (tag, changes) ups ->
    changes <> [] /\
    forall c v,
      In (c, v) changes ->
      In c cols /\
      exists excel_row sql_row sv,
        In excel_row (records excel_df) /\ In sql_row (records sql_df) /\
        series_get c excel_row = Scalar v /\
        series_get c sql_row = Scalar sv /\
        compare_values (float_threshold (validator self)) v sv = true.
Proof.
  unfold _identify_updates. intros H.
  apply identify_rows_Return in H as [-> _]. cbn.
  intros tag changes Hin.
  apply in_updates_of in Hin as (r & Hr & Hu).
  apply row_update_Some in Hu as (_ & Hne & sql_row & rest & Hm & Hc).
  split; auto.
  intros c v Hcv.
  destruct (check_columns_sound _ _ _ _ _ Hc c v Hcv) as [[] | (Hc' & He & sv & Hs & Hd)].
  split; auto.
  exists r, sql_row, sv. repeat split; auto.
  assert (Hin : In sql_row (sql_match_rows (tag_column self) tag sql_df))
    by (rewrite Hm; now left).
  unfold sql_match_rows in Hin. now apply filter_In in Hin.
Qed.

(** C10.  Every changeset [_identify_updates] returns has at least one
    field, and each of its fields is a compared column on which the source
    row's cell differs from the matched reference row's cell;
    [batch_update_records] moreover skips a changeset with no fields. *)
Theorem changeset_never_empty (self : SheetProcessor)
    (excel_df sql_df : DataFrame) (cols : list string) (ups : list update) :
  _identify_updates self excel_df sql_df cols = Return ups ->
  (forall tag changes,
      In (tag, changes) ups ->
      changes <> [] /\
      forall c v,
        In (c, v) changes ->
        In c cols /\
        exists excel_row sql_row sv,
          In excel_row (records excel_df) /\ In sql_row (records sql_df) /\
          series_get c excel_row = Scalar v /\
          series_get c sql_row = Scalar sv /\
          compare_values (float_threshold (validator self)) v sv = true)
  /\ (forall tagc tag rest n db,
         execute_updates tagc ((tag, []) :: rest) n db =
         execute_updates tagc rest n db).
Proof.
  intros H. split; [| reflexivity].
  now apply identify_updates_fields.
Qed.

(** ** The batched update *)

Lemma execute_updates_spec (tagc : string) (updates : list update) :
  forall (n : nat) (db : Database),
    match execute_updates tagc updates n db with
    | (Return m, db') =>
        schema db' = schema db /\ table db' = table db /\
        session db' = apply_updates tagc updates (session db) /\
        m = n + rows_affected tagc updates (session db) /\
        journal db' = (journal db ++ update_calls updates)%list
    | (Raise _, db') =>
        table db' = table db /\
        exists calls, journal db' = (journal db ++ calls)%list
    end.
Proof.
  induction updates as [| [tag changes] rest IH]; intros n db.
  - cbn. rewrite app_nil_r. repeat split; auto.
  - destruct changes as [| p ch].
    + exact (IH n db).
    + cbn [execute_updates]. unfold execute_update.
      destruct (query_fails db (Update tag (p :: ch))
                || negb (forallb (fun c => mem_str c (columns (session db)))
                                 (tagc :: keys (p :: ch)))).
      * cbn. split; eauto.
      * match goal with
        | |- context [execute_updates tagc rest ?k ?d] => specialize (IH k d)
        end.
        destruct (execute_updates tagc rest _ _) as [[m | e] db'].
        -- cbn in IH. destruct IH as (Hs & Ht & Hse & Hm & Hj).
           repeat split; auto.
           ++ rewrite Hm. cbn [rows_affected]. lia.
           ++ rewrite Hj. unfold update_calls. cbn. now rewrite <- app_assoc.
        -- cbn in IH. destruct IH as (Ht & calls & Hj). split; auto.
           exists (Update tag (p :: ch) :: calls). rewrite Hj. cbn.
           now rewrite <- app_assoc.
Qed.

Lemma update_rows_no_match (tagc : string) (tag : value) (changes : dict value)
    (df : DataFrame) :
  rowcount tagc tag df = 0 -> update_rows tagc tag changes df = df.
Proof.
  unfold rowcount, update_rows. destruct df as [cols rows]; cbn. intros H.
  f_equal. induction rows as [| r rows IH]; cbn in *; auto.
  destruct (tag_matches tagc tag r); [discriminate |].
  now rewrite IH.
Qed.

Lemma rollback_and_raise_raises (db db' : Database) (n : nat) :
  rollback_and_raise db <> (Return n, db').
Proof.
  unfold rollback_and_raise. now destruct (rollback db) as [[[] | e] db1].
Qed.

(** What [batch_update_records] does, whatever the server refuses.  When
    it returns, one statement per non-empty changeset was sent, then one
    commit, and the count is the sum of the row counts.  When an update or
    the commit is refused nothing is committed and the rollback is sent: if
    the server takes it, the session sees the table again and
    DatabaseQueryError is raised; if the server refuses the rollback too,
    the driver's error is what is raised. *)
Lemma batch_update_outcome (tagc : string) (updates : list update)
    (db : Database) :
  match batch_update_records tagc updates db with
  | (Raise e, db') =>
      table db' = table db /\
      exists calls db1,
        journal db1 = (journal db ++ calls)%list /\
        journal db' = (journal db ++ calls ++ [Rollback])%list /\
        if query_fails db1 Rollback
        then e = PyodbcError /\ session db' = session db1
        else e = DatabaseQueryError /\ session db' = table db
  | (Return n, db') =>
      table db' = apply_updates tagc updates (session db) /\
      session db' = table db' /\
      n = rows_affected tagc updates (session db) /\
      journal db' = (journal db ++ update_calls updates ++ [Commit])%list
  end.
Proof.
  unfold batch_update_records.
  pose proof (execute_updates_spec tagc updates 0 db) as H.
  destruct (execute_updates tagc updates 0 db) as [[m | e] db'].
  - destruct H as (Hs & Ht & Hse & Hm & Hj).
    destruct (query_fails db' Commit).
    + unfold rollback_and_raise, rollback.
      destruct (query_fails (journalled Commit db') Rollback) eqn:Hr; cbn;
        (split; [assumption |]);
        exists (update_calls updates ++ [Commit])%list, (journalled Commit db');
        cbn; rewrite Hj, <- !app_assoc, Hr; repeat split; auto.
    + cbn. repeat split; auto. rewrite Hj. now rewrite <- app_assoc.
  - destruct H as (Ht & calls & Hj).
    unfold rollback_and_raise, rollback.
    destruct (query_fails db' Rollback) eqn:Hr; cbn;
      (split; [assumption |]); exists calls, db';
      rewrite Hj, <- ?app_assoc, Hr; repeat split; auto.
Qed.

(** A changeset whose key matches no row is no error: its statement
    reports 0 rows and changes nothing. *)
Lemma execute_update_no_match (tagc : string) (tag : value)
    (changes : dict value) (db : Database) :
  rowcount tagc tag (session db) = 0 ->
  query_fails db (Update tag changes) = false ->
  forallb (fun c => mem_str c (columns (session db))) (tagc :: keys changes)
  = true ->
  fst (execute_update tagc tag changes db) = Return 0 /\
  session (snd (execute_update tagc tag changes db)) = session db /\
  table (snd (execute_update tagc tag changes db)) = table db.
Proof.
  intros H0 Hq Hc. unfold execute_update. rewrite Hq, Hc. cbn.
  rewrite H0. repeat split; auto. now apply update_rows_no_match.
Qed.

(** ** The first pass of a sheet, against [pd.DataFrame()] *)

Lemma identify_rows_empty_frame (thr : float) (tagc : string)
    (cols : list string) (rows : list Series) (updates : list update) :
  rows <> [] ->
  identify_rows thr tagc empty_frame cols rows updates = Raise (KeyError tagc).
Proof.
  destruct rows as [| r rest]; [congruence |]. intros _. cbn.
  unfold getitem. now destruct (series_get tagc r).
Qed.

Lemma assign_rows_length (col : string) (values : list value) (rows : list Series) :
  List.length (assign_rows col values rows) = List.length rows.
Proof.
  revert values. induction rows as [| r rows IH]; intros [| v values]; cbn; auto.
Qed.

Lemma validate_columns_length (df : DataFrame) (sheet tagc : string)
    (cols : list string) :
  forall validated_df errors vdf errs,
    validate_columns df sheet tagc cols validated_df errors = Return (vdf, errs) ->
    List.length (records vdf) = List.length (records validated_df).
Proof.
  induction cols as [| col rest IH]; cbn [validate_columns];
    intros validated_df errors vdf errs H.
  - now inversion H.
  - destruct (negb (mem_str col (columns df))); [eauto |].
    destruct (1 <? label_count col df)%nat; [discriminate |].
    destruct (log_errors sheet tagc col (records df) (column_values col df)
                (to_numeric (column_values col df))); cbn [bind] in H;
      [| discriminate].
    apply IH in H. rewrite H. cbn. apply assign_rows_length.
Qed.

Lemma selected_frame_length (self : SheetProcessor) (existing_tags : list string)
    (df : DataFrame) :
  List.length (records (selected_frame self existing_tags df)) =
  List.length (records (filter_tags self existing_tags (mapped_frame self df))).
Proof. unfold selected_frame. cbn. now rewrite !length_map. Qed.

Lemma mapped_has_columns (self : SheetProcessor) (df : DataFrame) (c : string) :
  mem_str c (columns (mapped_frame self df)) = true ->
  has_no_columns df = false.
Proof.
  unfold has_no_columns, mapped_frame, rename_columns, mem_str. cbn.
  now destruct (columns df).
Qed.

(** What the first pass does once rows survive key filtering. *)
Lemma process_sheet_first_pass (self : SheetProcessor) (xls : Workbook)
    (sheet : string) (existing_tags : list string) (df : DataFrame) :
  read_excel xls sheet = Return df ->
  mem_str (tag_column self) (columns (mapped_frame self df)) = true ->
  (1 <? label_count (tag_column self) (mapped_frame self df))%nat = false ->
  records (filter_tags self existing_tags (mapped_frame self df)) <> [] ->
  process_sheet self xls sheet existing_tags empty_frame =
  match validate_numeric_columns (validator self)
          (selected_frame self existing_tags df) sheet (tag_column self) with
  | Return _ => Raise (KeyError (tag_column self))
  | Raise e => Raise e
  end.
Proof.
  intros Hread Hmem Hcount Hrows. unfold process_sheet.
  rewrite Hread. cbn [bind]. rewrite (mapped_has_columns _ _ _ Hmem).
  rewrite Hmem, Hcount. cbn [negb].
  assert (Hne : frame_empty (filter_tags self existing_tags (mapped_frame self df))
                = false).
  { unfold frame_empty.
    destruct (records (filter_tags self existing_tags (mapped_frame self df)))
      as [| r l] eqn:Er; [congruence |].
    destruct (columns (filter_tags self existing_tags (mapped_frame self df)))
      as [| c l'] eqn:Ec; auto.
    cbn in Ec. unfold mem_str in Hmem. cbn in Hmem. rewrite Ec in Hmem.
    discriminate. }
  rewrite Hne. fold (selected_frame self existing_tags df).
  destruct (validate_numeric_columns (validator self)
              (selected_frame self existing_tags df) sheet (tag_column self))
    as [[vdf errs] |] eqn:Ev; cbn [bind]; auto.
  unfold _identify_updates. rewrite identify_rows_empty_frame; auto.
  unfold validate_numeric_columns in Ev. apply validate_columns_length in Ev.
  rewrite selected_frame_length in Ev.
  cbn. intros Hnil. apply map_eq_nil in Hnil. apply map_eq_nil in Hnil.
  rewrite Hnil in Ev.
  symmetry in Ev. apply length_zero_iff_nil in Ev. congruence.
Qed.

(** The first pass never returns a changeset or a validation error: it
    returns only for a sheet it skips. *)
Lemma process_sheet_first_pass_Return (self : SheetProcessor) (xls : Workbook)
    (sheet : string) (existing_tags : list string)
    (r : SheetResult) (ups : list update) (errs : list ValidationError) :
  process_sheet self xls sheet existing_tags empty_frame = Return (r, ups, errs) ->
  ups = [] /\ errs = [] /\ status r = "SKIP" /\ sr_sheet_name r = sheet.
Proof.
  intros H.
  destruct (read_excel xls sheet) as [df |] eqn:Hread;
    [| unfold process_sheet in H; rewrite Hread in H; discriminate].
  destruct (has_no_columns df) eqn:Hcols;
    [unfold process_sheet in H; rewrite Hread in H; cbn [bind] in H;
     rewrite Hcols in H; discriminate |].
  destruct (mem_str (tag_column self) (columns (mapped_frame self df))) eqn:Hmem;
    [| unfold process_sheet in H; rewrite Hread in H; cbn [bind] in H;
       rewrite Hcols, Hmem in H; cbn in H; inversion H; subst; auto].
  destruct (1 <? label_count (tag_column self) (mapped_frame self df))%nat eqn:Hc;
    [unfold process_sheet in H; rewrite Hread in H; cbn [bind] in H;
     rewrite Hcols, Hmem, Hc in H; discriminate |].
  destruct (records (filter_tags self existing_tags (mapped_frame self df)))
    as [| row rows] eqn:Hrows.
  - unfold process_sheet in H. rewrite Hread in H. cbn [bind] in H.
    rewrite Hcols, Hmem, Hc in H. cbn [negb] in H.
    assert (Hemp : frame_empty (filter_tags self existing_tags (mapped_frame self df))
                   = true).
    { unfold frame_empty. rewrite Hrows. now destruct (columns _). }
    rewrite Hemp in H. inversion H; subst; auto.
  - rewrite (process_sheet_first_pass self xls sheet existing_tags Hread Hmem Hc)
      in H by (rewrite Hrows; discriminate).
    destruct (validate_numeric_columns _ _ _ _); discriminate.
Qed.

(** ** The loop over the sheets *)

Lemma add_sheet_no_errors (r : SheetResult) (acc : Totals) :
  add_sheet r [] acc = record_fate r acc.
Proof. unfold add_sheet, record_fate. now rewrite app_nil_r. Qed.

Lemma try_sheet_first_pass (self : ImportService) (sp : SheetProcessor)
    (xls : Workbook) (sheet : string) (existing_tags : list string)
    (dry_run : bool) (acc : Totals) (db : Database) :
  try_sheet self sp xls sheet existing_tags dry_run acc db =
  match process_sheet sp xls sheet existing_tags empty_frame with
  | Return (sheet_result, _, _) => (Return tt, record_fate sheet_result acc, db)
  | Raise e => (Raise e, acc, db)
  end.
Proof.
  unfold try_sheet.
  destruct (process_sheet sp xls sheet existing_tags empty_frame)
    as [[[r ups] errs] |] eqn:E; auto.
  apply process_sheet_first_pass_Return in E as (-> & -> & _).
  now rewrite add_sheet_no_errors.
Qed.

Lemma process_one_eq (self : ImportService) (sp : SheetProcessor)
    (xls : Workbook) (sheet : string) (existing_tags : list string)
    (dry_run : bool) (acc : Totals) (db : Database) :
  process_one self sp xls sheet existing_tags dry_run acc db =
  (if mem_str sheet (allowed_sheets (config sp))
   then record_fate (sheet_fate sp xls existing_tags sheet) acc
   else acc,
   db).
Proof.
  unfold process_one. destruct (mem_str sheet (allowed_sheets (config sp))); auto.
  cbn [negb]. rewrite try_sheet_first_pass. unfold sheet_fate.
  destruct (process_sheet sp xls sheet existing_tags empty_frame)
    as [[[r ups] errs] |]; auto.
  now rewrite add_sheet_no_errors.
Qed.

Lemma process_sheets_eq (self : ImportService) (sp : SheetProcessor)
    (xls : Workbook) (existing_tags : list string) (dry_run : bool)
    (sheet_names : list string) :
  forall (acc : Totals) (db : Database),
    process_sheets self sp xls sheet_names existing_tags dry_run acc db =
    (mkTotals
       (acc_sheet_results acc ++
        map (sheet_fate sp xls existing_tags)
            (filter (fun s => mem_str s (allowed_sheets (config sp))) sheet_names))
       (acc_validation_errors acc) (total_detected acc) (total_committed acc),
     db).
Proof.
  induction sheet_names as [| sheet rest IH]; intros acc db.
  - cbn. rewrite app_nil_r. now destruct acc.
  - cbn [process_sheets]. rewrite process_one_eq. cbn [filter].
    destruct (mem_str sheet (allowed_sheets (config sp))).
    + rewrite IH. cbn. now rewrite <- app_assoc.
    + now rewrite IH.
Qed.

Lemma run_import_ready (self : ImportService) (xls : Workbook)
    (processing_config : ProcessingConfig) (report_path : string)
    (dry_run : bool) (db : Database) :
  run_ready self (Return xls) (Some processing_config) db = true ->
  run_import self (Return xls) (Some processing_config) report_path dry_run db =
  (mkImportResult true
     (map (sheet_fate (built_processor self processing_config db) xls
             (stored_tags self db))
          (filter (fun s => mem_str s (allowed_sheets processing_config))
                  (map fst xls)))
     0 0 [] None None,
   opened db).
Proof.
  unfold run_ready, run_import, try_import, connect, get_table_metadata,
    get_existing_tags. cbn [andb raised negb].
  destruct (query_fails db Connect); [discriminate |].
  destruct (query_fails (journalled Connect db) Metadata); [discriminate |].
  cbn [negb andb journalled session schema].
  intros H. rewrite andb_true_r in H. apply negb_true_iff in H.
  unfold journalled in H. cbn [session schema table journal] in H.
  unfold journalled. cbn [session schema table journal]. rewrite H.
  unfold _process_excel_file. rewrite process_sheets_eq. reflexivity.
Qed.

Lemma run_import_not_ready (self : ImportService)
    (excel_file : outcome Workbook) (config_file : option ProcessingConfig)
    (report_path : string) (db : Database) :
  run_ready self excel_file config_file db = false ->
  exists message db',
    (forall dry_run,
        run_import self excel_file config_file report_path dry_run db =
        (failed_import message, db')) /\
    table db' = table db /\ session db' = session db /\
    exists calls, journal db' = (journal db ++ calls)%list /\
                  incl calls [Connect; Metadata; SelectTags].
Proof.
  unfold run_ready, run_import, try_import, connect, get_table_metadata,
    get_existing_tags.
  destruct config_file as [cfg |]; cbn [andb].
  2:{ intros _. exists "Configuration Error", db. repeat split; auto.
      exists []. rewrite app_nil_r. split; auto. intros c []. }
  destruct (query_fails db Connect); cbn [andb negb].
  { intros _. exists "Database Error", (journalled Connect db). repeat split; auto.
    exists [Connect]. split; auto. intros c [<- | []]; cbn; auto. }
  destruct (query_fails (journalled Connect db) Metadata); cbn [andb negb].
  { intros _. exists "Database Error", (journalled Metadata (journalled Connect db)).
    repeat split; auto.
    exists [Connect; Metadata]. cbn. rewrite <- app_assoc. split; auto.
    intros c [<- | [<- | []]]; cbn; auto. }
  unfold journalled. cbn [session schema table journal].
  destruct (query_fails _ SelectTags
            || negb (mem_str (db_tag_column self) (columns (session db))));
    cbn [andb negb].
  { intros _. eexists "Database Error", _. repeat split; auto.
    exists [Connect; Metadata; SelectTags]. cbn. rewrite <- !app_assoc.
    split; auto. apply incl_refl. }
  destruct excel_file as [xls | e]; cbn [raised negb]; [discriminate |].
  intros _. unfold _process_excel_file.
  assert (Hj : exists calls,
             ((journal db ++ [Connect]) ++ [Metadata]) ++ [SelectTags] =
             (journal db ++ calls)%list /\
             incl calls [Connect; Metadata; SelectTags]).
  { exists [Connect; Metadata; SelectTags]. rewrite <- !app_assoc.
    split; auto. apply incl_refl. }
  destruct e; eexists _, _; (split; [intros dry_run; reflexivity |]);
    repeat split; auto.
Qed.



(** C3.  A dry run and a real run from the same inputs and the same store
    return the same ImportResult (sheet results, counts of detected
    changesets, validation errors) and leave the same store behind; the
    table and the session's view are unchanged, and the only calls made
    are the connection and the two reads before the loop: no update, no
    commit. *)
Theorem dry_run_matches_real_run (self : ImportService)
    (excel_file : outcome Workbook) (config_file : option ProcessingConfig)
    (report_path : string) (db : Database) :
  run_import self excel_file config_file report_path true db =
  run_import self excel_file config_file report_path false db
  /\ table (snd (run_import self excel_file config_file report_path true db))
     = table db
  /\ session (snd (run_import self excel_file config_file report_path true db))
     = session db
  /\ exists calls,
       journal (snd (run_import self excel_file config_file report_path true db))
       = journal db ++ calls /\
       incl calls [Connect; Metadata; SelectTags].
Proof.
  destruct (run_ready self excel_file config_file db) eqn:Hready.
  - assert (exists cfg xls, config_file = Some cfg /\ excel_file = Return xls)
      as (cfg & xls & -> & ->).
    { unfold run_ready in Hready.
      destruct config_file; [| discriminate].
      destruct excel_file; [eauto |].
      cbn in Hready. now rewrite !andb_false_r in Hready. }
    rewrite !run_import_ready by assumption. cbn.
    repeat split; auto.
    exists [Connect; Metadata; SelectTags]. rewrite <- !app_assoc.
    split; auto. apply incl_refl.
  - destruct (run_import_not_ready self excel_file config_file report_path db Hready)
      as (message & db' & Hrun & Ht & Hs & Hj).
    rewrite !Hrun. cbn. auto.
Qed.

(** ** The run with its callbacks *)

Lemma call_back_quiet (db : Database) :
  call_back (db, []) = (Return tt, (db, [])).
Proof. reflexivity. Qed.

Lemma log_lines_quiet (n : nat) (db : Database) :
  log_lines n (db, []) = (Return tt, (db, [])).
Proof. induction n as [| n IH]; cbn; auto. Qed.

(** In the first pass the body of the loop calls the progress callback and
    [process_sheet], and nothing else: a first pass that returns has no
    changeset. *)
Lemma try_sheet_logged_first_pass (self : ImportService) (sp : SheetProcessor)
    (xls : Workbook) (sheet : string) (existing_tags : list string)
    (dry_run progress_callback : bool) (acc : Totals) (w : World) :
  try_sheet_logged self sp xls sheet existing_tags dry_run progress_callback
    acc w =
  match report_progress progress_callback w with
  | (Raise e, w') => (Raise e, acc, w')
  | (Return _, w') =>
      match process_sheet sp xls sheet existing_tags empty_frame with
      | Return (sheet_result, _, _) =>
          (Return tt, record_fate sheet_result acc, w')
      | Raise e => (Raise e, acc, w')
      end
  end.
Proof.
  unfold try_sheet_logged, and_then, evaluate.
  destruct (report_progress progress_callback w) as [[[] | e] w']; auto.
  destruct (process_sheet sp xls sheet existing_tags empty_frame)
    as [[[r ups] errs] |] eqn:E; auto.
  apply process_sheet_first_pass_Return in E as (-> & -> & _).
  now rewrite add_sheet_no_errors.
Qed.

Lemma try_sheet_logged_quiet (self : ImportService) (sp : SheetProcessor)
    (xls : Workbook) (sheet : string) (existing_tags : list string)
    (dry_run progress_callback : bool) (acc : Totals) (db : Database) :
  try_sheet_logged self sp xls sheet existing_tags dry_run progress_callback
    acc (db, []) =
  (fst (fst (try_sheet self sp xls sheet existing_tags dry_run acc db)),
   snd (fst (try_sheet self sp xls sheet existing_tags dry_run acc db)),
   (snd (try_sheet self sp xls sheet existing_tags dry_run acc db), [])).
Proof.
  rewrite try_sheet_logged_first_pass, try_sheet_first_pass.
  assert (report_progress progress_callback (db, []) = (Return tt, (db, [])))
    as -> by now destruct progress_callback.
  now destruct (process_sheet sp xls sheet existing_tags empty_frame)
    as [[[r ups] errs] |].
Qed.

Lemma process_one_logged_quiet (self : ImportService) (sp : SheetProcessor)
    (xls : Workbook) (sheet : string) (existing_tags : list string)
    (dry_run progress_callback : bool) (acc : Totals) (db : Database) :
  process_one_logged self sp xls sheet existing_tags dry_run progress_callback
    acc (db, []) =
  (Return (fst (process_one self sp xls sheet existing_tags dry_run acc db)),
   (snd (process_one self sp xls sheet existing_tags dry_run acc db), [])).
Proof.
  unfold process_one_logged, process_one.
  destruct (negb (mem_str sheet (allowed_sheets (config sp)))); auto.
  rewrite try_sheet_logged_quiet.
  now destruct (try_sheet self sp xls sheet existing_tags dry_run acc db)
    as [[[[] | e] acc'] db'].
Qed.

Lemma process_sheets_logged_quiet (self : ImportService) (sp : SheetProcessor)
    (xls : Workbook) (existing_tags : list string)
    (dry_run progress_callback : bool) (sheet_names : list string) :
  forall (acc : Totals) (db : Database),
    process_sheets_logged self sp xls sheet_names existing_tags dry_run
      progress_callback acc (db, []) =
    (Return (fst (process_sheets self sp xls sheet_names existing_tags dry_run
                    acc db)),
     (snd (process_sheets self sp xls sheet_names existing_tags dry_run acc db),
      [])).
Proof.
  induction sheet_names as [| sheet rest IH]; intros acc db; auto.
  cbn [process_sheets_logged process_sheets]. unfold and_then.
  rewrite process_one_logged_quiet.
  destruct (process_one self sp xls sheet existing_tags dry_run acc db)
    as [acc' db'].
  cbn [fst snd]. apply IH.
Qed.

Lemma process_excel_file_logged_quiet (self : ImportService)
    (excel_file : outcome Workbook) (report_path : string)
    (report_written : bool) (sp : SheetProcessor) (existing_tags : list string)
    (dry_run progress_callback : bool) (db : Database) :
  _process_excel_file_logged self excel_file report_path report_written sp
    existing_tags dry_run progress_callback (db, []) =
  (fst (_process_excel_file self excel_file report_path sp existing_tags
          dry_run db),
   (snd (_process_excel_file self excel_file report_path sp existing_tags
           dry_run db), [])).
Proof.
  unfold _process_excel_file_logged, _process_excel_file, and_then, evaluate.
  destruct excel_file as [xls | e]; auto.
  rewrite process_sheets_logged_quiet.
  destruct (process_sheets self sp xls (map fst xls) existing_tags dry_run
              (mkTotals [] [] 0 0) db) as [acc db'].
  cbn [fst snd].
  destruct (acc_validation_errors acc); [reflexivity |].
  unfold _log. rewrite call_back_quiet. now destruct report_written.
Qed.

Lemma generate_summary_quiet (r : ImportResult) (db : Database) :
  _generate_summary r (db, []) = (Return tt, (db, [])).
Proof.
  unfold _generate_summary, and_then. rewrite !log_lines_quiet.
  now destruct (0 <? total_committed_updates r)%nat.
Qed.

Lemma try_import_logged_quiet (self : ImportService)
    (excel_file : outcome Workbook) (config_file : option ProcessingConfig)
    (report_path : string) (report_written dry_run progress_callback : bool)
    (db : Database) :
  try_import_logged self excel_file config_file report_path report_written
    dry_run progress_callback (db, []) =
  (fst (try_import self excel_file config_file report_path dry_run db),
   (snd (try_import self excel_file config_file report_path dry_run db), [])).
Proof.
  unfold try_import_logged, try_import, and_then, evaluate, on_store, _log.
  rewrite call_back_quiet.
  destruct config_file as [cfg |]; auto.
  rewrite log_lines_quiet. cbn [fst snd].
  destruct (connect db) as [[[] | e] db1]; auto.
  rewrite log_lines_quiet. cbn [fst snd].
  destruct (get_table_metadata db1) as [[[sql_cols numeric_cols] | e] db2]; auto.
  rewrite log_lines_quiet. cbn [fst snd].
  destruct (get_existing_tags (db_tag_column self) db2)
    as [[existing_tags | e] db3]; auto.
  rewrite !call_back_quiet.
  rewrite process_excel_file_logged_quiet.
  destruct (_process_excel_file self excel_file report_path _ existing_tags
              dry_run db3) as [[r | e] db4]; auto.
  cbn [fst snd]. rewrite generate_summary_quiet. now rewrite call_back_quiet.
Qed.

(** Under callbacks that never raise the run returns, and it returns what
    [run_import] gives. *)
Lemma run_import_logged_quiet (self : ImportService)
    (excel_file : outcome Workbook) (config_file : option ProcessingConfig)
    (report_path : string) (report_written dry_run progress_callback : bool)
    (db : Database) :
  run_import_logged self excel_file config_file report_path report_written
    dry_run progress_callback (db, []) =
  (Return (fst (run_import self excel_file config_file report_path dry_run db)),
   (snd (run_import self excel_file config_file report_path dry_run db), [])).
Proof.
  unfold run_import_logged, run_import, and_then, catch.
  rewrite log_lines_quiet, try_import_logged_quiet.
  destruct (try_import self excel_file config_file report_path dry_run db)
    as [[r | e] db']; auto.
  cbn [fst snd]. unfold _log. rewrite call_back_quiet.
  now destruct e.
Qed.

(** *** What leaves the run was raised by a callback *)

Lemma settles_ret {A : Type} (a : A) : settles (ret a).
Proof. intros w r w' H. inversion H. apply incl_refl. Qed.

Lemma settles_evaluate {A : Type} (m : outcome A) : settles (evaluate m).
Proof. intros w r w' H. inversion H. apply incl_refl. Qed.

Lemma settles_on_store {A : Type} (m : DB A) : settles (on_store m).
Proof.
  intros w r w' H. unfold on_store in H. destruct (m (fst w)) as [r0 db'].
  inversion H. apply incl_refl.
Qed.

Lemma call_back_cases (w : World) (r : outcome unit) (w' : World) :
  call_back w = (r, w') ->
  incl (pending w') (pending w) /\
  forall e, r = Raise e -> In e (pending w).
Proof.
  unfold call_back, pending. destruct w as [db calls]. cbn [fst snd].
  destruct calls as [| [[| n] e0] rest]; intros H; inversion H; subst;
    cbn [fst snd map].
  - split; [apply incl_refl | discriminate].
  - split; [apply incl_tl, incl_refl |].
    intros e He. inversion He. now left.
  - split; [apply incl_refl | discriminate].
Qed.

Lemma settles_call_back : settles call_back.
Proof. intros w r w' H. now apply call_back_cases in H. Qed.

Lemma settles_and_then {A B : Type} (m : Run A) (k : A -> Run B) :
  settles m -> (forall a, settles (k a)) -> settles (and_then m k).
Proof.
  intros Hm Hk w r w' H. unfold and_then in H.
  destruct (m w) as [[a | e] w1] eqn:E.
  - eapply incl_tran; [eapply Hk; exact H | eapply Hm; exact E].
  - inversion H; subst. eapply Hm; exact E.
Qed.

Lemma settles_catch {A : Type} (m : Run A) (h : exn -> Run A) :
  settles m -> (forall e, settles (h e)) -> settles (catch m h).
Proof.
  intros Hm Hh w r w' H. unfold catch in H.
  destruct (m w) as [[a | e] w1] eqn:E.
  - inversion H; subst. eapply Hm; exact E.
  - eapply incl_tran; [eapply Hh; exact H | eapply Hm; exact E].
Qed.

Lemma settles_log_lines (n : nat) : settles (log_lines n).
Proof.
  induction n as [| n IH]; cbn [log_lines].
  - apply settles_ret.
  - apply settles_and_then; [apply settles_call_back | auto].
Qed.

Lemma settles_report_progress (b : bool) : settles (report_progress b).
Proof. destruct b; [apply settles_call_back | apply settles_ret]. Qed.

Lemma settles_log_then_ret {A : Type} (a : A) (w : World)
    (r : outcome A) (w' : World) :
  (_ <~ _log ;; ret a) w = (r, w') -> incl (pending w') (pending w).
Proof.
  apply settles_and_then; [apply settles_call_back | intros; apply settles_ret].
Qed.

Lemma settles_process_one (self : ImportService) (sp : SheetProcessor)
    (xls : Workbook) (sheet : string) (existing_tags : list string)
    (dry_run progress_callback : bool) (acc : Totals) :
  settles (process_one_logged self sp xls sheet existing_tags dry_run
             progress_callback acc).
Proof.
  intros w r w' H. unfold process_one_logged in H.
  destruct (negb (mem_str sheet (allowed_sheets (config sp))));
    [inversion H; apply incl_refl |].
  rewrite try_sheet_logged_first_pass in H.
  destruct (report_progress progress_callback w) as [[[] | e] w1] eqn:Ep.
  - apply settles_report_progress in Ep.
    destruct (process_sheet sp xls sheet existing_tags empty_frame)
      as [[[r0 ups] errs] |].
    + inversion H; subst. exact Ep.
    + eapply incl_tran; [| exact Ep].
      eapply settles_log_then_ret; exact H.
  - apply settles_report_progress in Ep.
    eapply incl_tran; [| exact Ep].
    eapply settles_log_then_ret; exact H.
Qed.

Lemma settles_process_sheets (self : ImportService) (sp : SheetProcessor)
    (xls : Workbook) (existing_tags : list string)
    (dry_run progress_callback : bool) (sheet_names : list string) :
  forall acc,
    settles (process_sheets_logged self sp xls sheet_names existing_tags
               dry_run progress_callback acc).
Proof.
  induction sheet_names as [| sheet rest IH]; intros acc;
    cbn [process_sheets_logged].
  - apply settles_ret.
  - apply settles_and_then; [apply settles_process_one | auto].
Qed.

Lemma settles_try_import (self : ImportService)
    (excel_file : outcome Workbook) (config_file : option ProcessingConfig)
    (report_path : string) (report_written dry_run progress_callback : bool) :
  settles (try_import_logged self excel_file config_file report_path
             report_written dry_run progress_callback).
Proof.
  unfold try_import_logged, _process_excel_file_logged, _generate_summary, _log.
  repeat first
    [ apply settles_and_then; [| intros ]
    | apply settles_call_back
    | apply settles_log_lines
    | apply settles_evaluate
    | apply settles_on_store
    | apply settles_process_sheets
    | apply settles_ret
    | match goal with
      | |- settles (let '(_, _) := ?p in _) => destruct p
      | |- settles (match ?x with _ => _ end) => destruct x
      | |- settles (if ?x then _ else _) => destruct x
      end ].
Qed.

(** An exception that leaves the run is one the callbacks raise. *)
Lemma run_import_logged_raises (self : ImportService)
    (excel_file : outcome Workbook) (config_file : option ProcessingConfig)
    (report_path : string) (report_written dry_run progress_callback : bool)
    (w w' : World) (e : exn) :
  run_import_logged self excel_file config_file report_path report_written
    dry_run progress_callback w = (Raise e, w') ->
  In e (pending w).
Proof.
  unfold run_import_logged, and_then, catch. intros H.
  destruct (log_lines 4 w) as [[[] | e0] w1] eqn:E4.
  - pose proof (@settles_log_lines 4 _ _ _ E4) as H4.
    destruct (try_import_logged self excel_file config_file report_path
                report_written dry_run progress_callback w1)
      as [[r | e1] w2] eqn:Et; [discriminate |].
    pose proof (@settles_try_import self excel_file config_file report_path
                  report_written dry_run progress_callback _ _ _ Et) as Ht.
    unfold _log in H.
    destruct (call_back w2) as [[[] | e2] w3] eqn:Ec; [discriminate |].
    inversion H; subst. apply call_back_cases in Ec as [_ Hc].
    apply H4, Ht, Hc. reflexivity.
  - inversion H; subst. clear H.
    cbn [log_lines] in E4. unfold and_then, _log in E4.
    repeat match type of E4 with
           | context [call_back ?x] =>
               let E := fresh "Ec" in
               destruct (call_back x) as [[[] | ?] ?] eqn:E;
               [ apply call_back_cases in E as [? _]
               | inversion E4; subst;
                 apply call_back_cases in E as [_ E];
                 specialize (E _ eq_refl) ]
           end; try discriminate; auto.
Qed.

(** C7 (as amended).  Under callbacks that do not raise, [run_import]
    always returns an ImportResult; whatever the callbacks do, an exception
    that leaves [run_import] is one a callback raised.  The [success] of the
    result is true exactly when the configuration loaded, the connection
    opened, the metadata and key queries succeeded and the input workbook
    opened.  Then every allowed sheet of the workbook has its result, in
    order, and a sheet whose processing raised has "Processing Error" with
    status ERROR.  In the loop, an exception in one sheet is recorded so and
    the loop goes on with the remaining sheets. *)
Theorem run_import_isolates_sheets (self : ImportService)
    (excel_file : outcome Workbook) (config_file : option ProcessingConfig)
    (report_path : string) (report_written dry_run progress_callback : bool)
    (db : Database) :
  run_import_logged self excel_file config_file report_path report_written
    dry_run progress_callback (db, []) =
  (Return (fst (run_import self excel_file config_file report_path dry_run db)),
   (snd (run_import self excel_file config_file report_path dry_run db), []))
  /\ (forall calls e w',
         run_import_logged self excel_file config_file report_path
           report_written dry_run progress_callback (db, calls) = (Raise e, w') ->
         In e (map snd calls))
  /\ success (fst (run_import self excel_file config_file report_path dry_run db))
     = run_ready self excel_file config_file db
  /\ (forall xls cfg,
         excel_file = Return xls -> config_file = Some cfg ->
         run_ready self excel_file config_file db = true ->
         sheet_results
           (fst (run_import self excel_file config_file report_path dry_run db))
         = map (fun sheet =>
                  match process_sheet (built_processor self cfg db) xls sheet
                          (stored_tags self db) empty_frame with
                  | Return (sheet_result, _, _) => sheet_result
                  | Raise _ => mkSheetResult sheet "Processing Error" "ERROR" 0
                  end)
               (filter (fun s => mem_str s (allowed_sheets cfg)) (map fst xls)))
  /\ (forall sp xls sheet rest existing_tags acc db0 e acc1 db1,
         mem_str sheet (allowed_sheets (config sp)) = true ->
         try_sheet self sp xls sheet existing_tags dry_run acc db0
         = (Raise e, acc1, db1) ->
         process_sheets self sp xls (sheet :: rest) existing_tags dry_run acc db0 =
         process_sheets self sp xls rest existing_tags dry_run
           (add_sheet (mkSheetResult sheet "Processing Error" "ERROR" 0) [] acc1)
           db1).
Proof.
  split; [apply run_import_logged_quiet |].
  split; [intros calls e w' H;
          exact (@run_import_logged_raises self excel_file config_file
                   report_path report_written dry_run progress_callback
                   (db, calls) w' e H) |].
  split; [| split].
  - destruct (run_ready self excel_file config_file db) eqn:Hready.
    + assert (exists cfg xls, config_file = Some cfg /\ excel_file = Return xls)
        as (cfg & xls & -> & ->).
      { unfold run_ready in Hready.
        destruct config_file; [| discriminate].
        destruct excel_file; [eauto |].
        cbn in Hready. now rewrite !andb_false_r in Hready. }
      now rewrite run_import_ready.
    + destruct (run_import_not_ready self excel_file config_file report_path db
                  Hready) as (message & db' & Hrun & _).
      now rewrite Hrun.
  - intros xls cfg -> -> Hready. now rewrite run_import_ready.
  - intros sp xls sheet rest existing_tags acc db0 e acc1 db1 Hallowed Htry.
    cbn [process_sheets]. unfold process_one. rewrite Hallowed. cbn [negb].
    now rewrite Htry.
Qed.

(** ** Cleaning and the null-source rule *)

Lemma series_get_map (f : value -> value) (label : string) (row : Series) :
  series_get label (map (fun p => (fst p, f (snd p))) row) =
  item_map f (series_get label row).
Proof.
  unfold series_get.
  assert (E : filter (has_label label) (map (fun p => (fst p, f (snd p))) row) =
              map (fun p => (fst p, f (snd p))) (filter (has_label label) row)).
  { induction row as [| p row IH]; cbn [map filter]; auto.
    change (has_label label (fst p, f (snd p))) with (has_label label p).
    destruct (has_label label p); cbn [map]; now rewrite IH. }
  rewrite E.
  destruct (filter (has_label label) row) as [| p [| q l]]; cbn; auto.
  now rewrite !map_map.
Qed.

Lemma clean_cell_None (v : value) :
  clean_cell v = VNone <-> isna v = true \/ v = VStr EmptyString.
Proof.
  unfold clean_cell. destruct v as [| z | f | s]; cbn.
  - logic.
  - split; [discriminate | intros [H | H]; discriminate].
  - destruct (is_nan f); cbn; [logic |].
    split; [discriminate | intros [H | H]; discriminate].
  - unfold py_ne; cbn. destruct (String.eqb s EmptyString) eqn:E; cbn.
    + apply String.eqb_eq in E. subst. logic.
    + apply String.eqb_neq in E. split; [discriminate |].
      intros [H | H]; [discriminate | congruence].
Qed.

Lemma clean_cell_keeps (v : value) :
  clean_cell v <> VNone -> clean_cell v = v.
Proof.
  unfold clean_cell. destruct v as [| z | f | s]; cbn; auto.
  - destruct (is_nan f); cbn; congruence.
  - unfold py_ne; cbn. destruct (String.eqb s EmptyString); cbn; congruence.
Qed.

Lemma compare_values_present (thr : float) (a b : value) :
  compare_values thr a b = true -> a <> VNone.
Proof. destruct a; cbn; congruence. Qed.

(** *** What [df.map] makes of the cleaned cells *)

Lemma infer_row_labels (floats : nat -> bool) (row : Series) :
  forall j, map fst (infer_row floats j row) = map fst row.
Proof.
  induction row as [| p row IH]; intros j; cbn; auto. now rewrite IH.
Qed.

Lemma infer_row_length (floats : nat -> bool) (row : Series) :
  forall j, List.length (infer_row floats j row) = List.length row.
Proof.
  induction row as [| p row IH]; intros j; cbn; auto.
Qed.

(** Cleaning keeps the columns of the frame and the labels of its rows. *)
Lemma clean_dataframe_labels (df : DataFrame) :
  columns (_clean_dataframe df) = columns df /\
  map (map fst) (records (_clean_dataframe df)) = map (map fst) (records df).
Proof.
  split; [reflexivity |].
  unfold _clean_dataframe, map_frame. cbn [records].
  rewrite !map_map. apply map_ext. intros row.
  rewrite infer_row_labels, map_map. reflexivity.
Qed.

(** A cell of the cleaned frame is the cleaned source cell, or that cell in
    the float array of its column. *)
Lemma infer_row_cells (floats : nat -> bool) (row : Series) :
  forall j,
    Forall2 (fun p q => fst q = fst p /\
                        (snd q = snd p \/ snd q = as_float (snd p)))
            row (infer_row floats j row).
Proof.
  induction row as [| p row IH]; intros j; cbn; constructor; auto.
  cbn. split; auto. destruct (floats j); auto.
Qed.

Lemma as_float_present (v : value) : as_float v <> VNone.
Proof. destruct v; discriminate. Qed.

(** In the float array only a None has become another cell: NaN. *)
Lemma as_float_cases (v : value) :
  (v = VNone /\ as_float v = VFloat PrimFloat.nan)
  \/ (exists z, v = VInt z /\ as_float v = VFloat (float_of_Z z))
  \/ as_float v = v.
Proof. destruct v; cbn; eauto. Qed.

(** ** A NaN in place of a None *)

Lemma Prim2SF_nan : Prim2SF PrimFloat.nan = S754_nan.
Proof. vm_compute. reflexivity. Qed.

Lemma int_eq_float_nan (z : Z) : int_eq_float z PrimFloat.nan = false.
Proof. unfold int_eq_float. now rewrite Prim2SF_nan. Qed.

Lemma ltb_abs_sub_nan (thr b : float) :
  PrimFloat.ltb thr (PrimFloat.abs (PrimFloat.sub PrimFloat.nan b)) = false.
Proof.
  rewrite ltb_spec, abs_spec, sub_spec, Prim2SF_nan.
  unfold SF64sub, SFsub, SFabs, SFltb, SFcompare.
  now destruct (Prim2SF thr).
Qed.

(** A NaN source value differs from every reference value that is not a
    float, and from no float. *)
Lemma compare_values_nan_source (thr : float) (sql_val : value) :
  compare_values thr (VFloat PrimFloat.nan) sql_val = negb (is_float sql_val).
Proof.
  destruct sql_val as [| z | b | s]; unfold compare_values, is_float.
  - reflexivity.
  - unfold py_ne, py_eq. now rewrite int_eq_float_nan.
  - now rewrite ltb_abs_sub_nan.
  - reflexivity.
Qed.

(** ** Column scoping *)

Lemma log_errors_header (sheet tagc col : string) (rows : list Series) :
  forall raws converted errs,
    log_errors sheet tagc col rows raws converted = Return errs ->
    forall e, In e errs -> excel_header e = col /\ sheet_name e = sheet.
Proof.
  induction rows as [| row rows IH]; intros raws converted errs H e He.
  - cbn in H. inversion H; subst. contradiction.
  - destruct raws as [| raw raws]; [cbn in H; inversion H; subst; contradiction |].
    destruct converted as [| conv converted];
      [cbn in H; inversion H; subst; contradiction |].
    cbn [log_errors] in H.
    destruct (conversion_failed raw conv); [| eauto].
    destruct (getitem row tagc) as [tag |]; cbn [bind] in H; [| discriminate].
    destruct (log_errors sheet tagc col rows raws converted) as [rest |] eqn:E;
      cbn [bind] in H; [| discriminate].
    inversion H; subst. destruct He as [<- | He]; cbn; eauto.
Qed.

Lemma validate_columns_errors (df : DataFrame) (sheet tagc : string)
    (cols : list string) :
  forall validated_df errors vdf errs,
    validate_columns df sheet tagc cols validated_df errors = Return (vdf, errs) ->
    forall e, In e errs ->
      In e errors \/
      (In (excel_header e) cols /\ In (excel_header e) (columns df)).
Proof.
  induction cols as [| col rest IH]; cbn [validate_columns];
    intros validated_df errors vdf errs H e He.
  - inversion H; subst; auto.
  - destruct (negb (mem_str col (columns df))) eqn:Hmem.
    + destruct (IH _ _ _ _ H e He) as [| [? ?]]; auto. right. split; auto.
      now right.
    + destruct (1 <? label_count col df)%nat; [discriminate |].
      destruct (log_errors sheet tagc col (records df) (column_values col df)
                  (to_numeric (column_values col df))) as [found |] eqn:El;
        cbn [bind] in H; [| discriminate].
      destruct (IH _ _ _ _ H e He) as [Hin | [? ?]].
      * apply in_app_or in Hin as [Hin | Hin]; auto.
        destruct (log_errors_header _ _ _ _ _ _ El e Hin) as [-> _].
        right. split; [now left |].
        apply negb_false_iff in Hmem. unfold mem_str in Hmem.
        apply existsb_exists in Hmem as (x & Hx & Heq).
        apply String.eqb_eq in Heq. now subst.
      * right. split; auto. now right.
Qed.

Lemma in_selected_columns (labels cols : list string) (c : string) :
  In c (flat_map (fun l => filter (String.eqb l) cols) labels) <->
  In c labels /\ In c cols.
Proof.
  rewrite in_flat_map. split.
  - intros (l & Hl & Hc). apply filter_In in Hc as [Hc Heq].
    apply String.eqb_eq in Heq. subst. auto.
  - intros [Hl Hc]. exists c. split; auto. apply filter_In. split; auto.
    apply String.eqb_refl.
Qed.

Lemma mem_str_In (x : string) (l : list string) :
  mem_str x l = true <-> In x l.
Proof.
  unfold mem_str. rewrite existsb_exists. split.
  - intros (y & Hy & Heq). apply String.eqb_eq in Heq. now subst.
  - intros H. exists x. split; auto. apply String.eqb_refl.
Qed.

(** The two ways [process_sheet] returns: a skipped sheet, or the diff of
    the cleaned, validated selection. *)
Lemma process_sheet_Return (self : SheetProcessor) (xls : Workbook)
    (sheet : string) (existing_tags : list string) (sql_data df : DataFrame)
    (r : SheetResult) (ups : list update) (errs : list ValidationError) :
  read_excel xls sheet = Return df ->
  process_sheet self xls sheet existing_tags sql_data = Return (r, ups, errs) ->
  (ups = [] /\ errs = []) \/
  (In (tag_column self) (columns (mapped_frame self df)) /\
   exists vdf,
     validate_numeric_columns (validator self)
       (selected_frame self existing_tags df) sheet (tag_column self)
     = Return (vdf, errs) /\
     _identify_updates self (_clean_dataframe vdf) sql_data
       (valid_columns_of self (mapped_frame self df)) = Return ups).
Proof.
  intros Hread H. unfold process_sheet in H. rewrite Hread in H. cbn [bind] in H.
  destruct (has_no_columns df); [discriminate |].
  destruct (mem_str (tag_column self) (columns (mapped_frame self df))) eqn:Hmem;
    cbn [negb] in H; [| inversion H; auto].
  destruct (1 <? label_count (tag_column self) (mapped_frame self df))%nat;
    [discriminate |].
  destruct (frame_empty (filter_tags self existing_tags (mapped_frame self df)));
    [inversion H; auto |].
  fold (selected_frame self existing_tags df) in H.
  destruct (validate_numeric_columns (validator self)
              (selected_frame self existing_tags df) sheet (tag_column self))
    as [[vdf errs'] |] eqn:Ev; cbn [bind] in H; [| discriminate].
  change (valid_columns_of self
            (filter_tags self existing_tags (mapped_frame self df)))
    with (valid_columns_of self (mapped_frame self df)) in H.
  destruct (_identify_updates self (_clean_dataframe vdf) sql_data
              (valid_columns_of self (mapped_frame self df))) as [ups' |] eqn:Eu;
    cbn [bind] in H; [| discriminate].
  inversion H; subst. right. split; [now apply mem_str_In |]. eauto.
Qed.

(** C9 (as amended).  The columns [process_sheet] compares are exactly the
    cleaned, mapped header names (a header without a mapping keeps its own
    name) that are store columns and are not ignored; the frame it keeps
    has these and the key column.  A changeset names only compared columns,
    so never an ignored column and never one that is not a store column; a
    validation error names a numeric column that is compared or is the key
    column. *)
Theorem column_scoping (self : SheetProcessor) (xls : Workbook)
    (sheet : string) (existing_tags : list string) (sql_data df : DataFrame)
    (r : SheetResult) (ups : list update) (errs : list ValidationError) :
  read_excel xls sheet = Return df ->
  process_sheet self xls sheet existing_tags sql_data = Return (r, ups, errs) ->
  let compared := valid_columns_of self (mapped_frame self df) in
  (forall c, In c compared <->
             In c (map (fun h => map_header self (clean_column_name h)) (columns df))
             /\ In c (sql_columns self)
             /\ ~ In c (ignored_headers (config self)))
  /\ (forall c, In c (columns (selected_frame self existing_tags df)) <->
                In c compared
                \/ (c = tag_column self /\ In c (columns (mapped_frame self df))))
  /\ (forall tag changes c,
         In (tag, changes) ups -> In c (keys changes) -> In c compared)
  /\ (forall e, In e errs ->
                In (excel_header e) (numeric_columns (validator self)) /\
                (In (excel_header e) compared \/ excel_header e = tag_column self)).
Proof.
  intros Hread H compared.
  assert (Hcompared : forall c, In c compared <->
             In c (map (fun h => map_header self (clean_column_name h)) (columns df))
             /\ In c (sql_columns self)
             /\ ~ In c (ignored_headers (config self))).
  { intros c. unfold compared, valid_columns_of. rewrite filter_In.
    cbn [mapped_frame rename_columns columns]. rewrite map_map.
    rewrite andb_true_iff, negb_true_iff, mem_str_In.
    rewrite <- (mem_str_In c (ignored_headers (config self))).
    destruct (mem_str c (ignored_headers (config self)));
      split; intros (H1 & H2 & H3); repeat split; auto; congruence. }
  assert (Hselected : forall c,
             In c (columns (selected_frame self existing_tags df)) <->
             In c compared
             \/ (c = tag_column self /\ In c (columns (mapped_frame self df)))).
  { intros c. unfold selected_frame. cbn [select_columns columns].
    rewrite in_selected_columns, in_app_iff.
    change (columns (filter_tags self existing_tags (mapped_frame self df)))
      with (columns (mapped_frame self df)).
    change (valid_columns_of self
              (filter_tags self existing_tags (mapped_frame self df)))
      with compared.
    split.
    - intros [[Hc | [<- | []]] Hin]; auto.
    - intros [Hc | [-> Hin]].
      + split; auto. unfold compared, valid_columns_of in Hc.
        now apply filter_In in Hc.
      + split; auto. right. now left. }
  split; auto. split; auto.
  destruct (process_sheet_Return _ _ _ _ _ Hread H)
    as [[-> ->] | (Htag & vdf & Hv & Hu)].
  - split; [intros ? ? ? [] | intros ? []].
  - split.
    + intros tag changes c Hin Hc.
      unfold keys in Hc. apply in_map_iff in Hc as ([c' v] & <- & Hcv).
      destruct (identify_updates_fields self _ _ _ Hu tag changes Hin) as [_ Hf].
      now destruct (Hf c' v Hcv).
    + intros e He. unfold validate_numeric_columns in Hv.
      destruct (validate_columns_errors _ _ _ _ _ _ Hv e He) as [[] | [Hn Hc]].
      split; auto. apply Hselected in Hc as [Hc | [Hc _]]; auto.
Qed.

(** ** Applying the changesets and diffing again *)

Lemma series_get_mapped (g : value -> value) (label : string) (row row' : Series) :
  filter (has_label label) row' =
  map (fun p => (fst p, g (snd p))) (filter (has_label label) row) ->
  series_get label row' = item_map g (series_get label row).
Proof.
  unfold series_get. intros ->.
  destruct (filter (has_label label) row) as [| p [| q l]]; cbn; auto.
  now rewrite !map_map.
Qed.

Lemma has_label_map_cell (c k : string) (f : value -> value) (p : string * value) :
  has_label c (map_cell k f p) = has_label c p.
Proof. unfold map_cell. now destruct (has_label k p). Qed.

Lemma map_cell_at (c k : string) (v : value) (p : string * value) :
  has_label c p = true ->
  map_cell k (fun _ => v) p = (fst p, if String.eqb k c then v else snd p).
Proof.
  unfold map_cell, has_label. intros H. apply String.eqb_eq in H.
  destruct p as [l x]; cbn in *. subst l. rewrite String.eqb_sym.
  now destruct (String.eqb k c).
Qed.

Lemma filter_map_cell (c k : string) (v : value) (row : Series) :
  filter (has_label c) (map (map_cell k (fun _ => v)) row) =
  map (fun p => (fst p, if String.eqb k c then v else snd p))
      (filter (has_label c) row).
Proof.
  induction row as [| p row IH]; cbn [map filter]; auto.
  rewrite has_label_map_cell.
  destruct (has_label c p) eqn:E; auto.
  cbn [map]. rewrite IH. f_equal. now apply map_cell_at.
Qed.

Lemma filter_set_fields (c : string) (changes : dict value) :
  forall row,
    filter (has_label c) (set_fields changes row) =
    map (fun p => (fst p, final c changes (snd p))) (filter (has_label c) row).
Proof.
  unfold set_fields, final.
  induction changes as [| [k v] changes IH]; intros row; cbn [fold_left].
  - rewrite <- (map_id (filter (has_label c) row)) at 1.
    apply map_ext. now intros [? ?].
  - rewrite IH, filter_map_cell, map_map. cbn [fst snd]. reflexivity.
Qed.

Lemma series_get_set_fields (c : string) (changes : dict value) (row : Series) :
  series_get c (set_fields changes row) =
  item_map (final c changes) (series_get c row).
Proof. apply series_get_mapped, filter_set_fields. Qed.

Lemma final_absent (c : string) (changes : dict value) :
  ~ In c (keys changes) -> forall x, final c changes x = x.
Proof.
  unfold final, keys.
  induction changes as [| [k v] changes IH]; cbn; intros Hn x; auto.
  destruct (String.eqb k c) eqn:E.
  - apply String.eqb_eq in E. logic.
  - apply IH. logic.
Qed.

Lemma final_present (c : string) (e : value) (changes : dict value) :
  In c (keys changes) ->
  (forall v, In (c, v) changes -> v = e) ->
  forall x, final c changes x = e.
Proof.
  unfold final, keys.
  induction changes as [| [k v] changes IH]; cbn; intros Hin Hall x;
    [contradiction |].
  destruct (String.eqb k c) eqn:E.
  - apply String.eqb_eq in E. subst k.
    assert (v = e) as -> by (apply Hall; now left).
    destruct (in_dec string_dec c (map fst changes)) as [Hc | Hc].
    + apply IH; auto.
    + now apply (@final_absent c changes Hc).
  - apply String.eqb_neq in E. apply IH; [| now auto].
    destruct Hin as [Hin | Hin]; [contradiction | auto].
Qed.

Lemma item_map_id (g : value -> value) (i : item) :
  (forall x, g x = x) -> item_map g i = i.
Proof.
  intros Hg. destruct i as [| v | vs]; cbn; auto.
  - now rewrite Hg.
  - f_equal. rewrite <- (map_id vs) at 2. now apply map_ext.
Qed.

Lemma elem_eq_str (c : value) (s : string) :
  elem_eq c (VStr s) = true -> c = VStr s.
Proof.
  unfold elem_eq. destruct c as [| z | f | x]; cbn; try discriminate.
  - now destruct (is_nan f).
  - intros H. apply String.eqb_eq in H. now subst.
Qed.

Lemma tag_matches_str (tagc s : string) (row : Series) :
  tag_matches tagc (VStr s) row = true <-> series_get tagc row = Scalar (VStr s).
Proof.
  unfold tag_matches. destruct (series_get tagc row) as [| c | vs].
  - split; discriminate.
  - split.
    + intros H. now rewrite (elem_eq_str _ _ H).
    + intros H. inversion H. unfold elem_eq. cbn. apply String.eqb_refl.
  - split; discriminate.
Qed.

(** ** What the first pass over a row says about each compared column *)

Lemma check_columns_complete (thr : float) (excel_row sql_row : Series)
    (cols : list string) :
  forall (acc changes : dict value),
    check_columns thr excel_row sql_row cols acc = Return changes ->
    (forall c, In c (keys acc) -> In c (keys changes)) /\
    Forall (fun c => exists ei si b,
                getitem excel_row c = Return ei /\
                getitem sql_row c = Return si /\
                compare_truth thr ei si = Return b /\
                (b = true -> In c (keys changes))) cols.
Proof.
  induction cols as [| col rest IH]; cbn [check_columns]; intros acc changes H.
  - inversion H; subst. split; auto.
  - destruct (getitem excel_row col) as [ei |] eqn:Ee; cbn [bind] in H;
      [| discriminate].
    destruct (getitem sql_row col) as [si |] eqn:Es; cbn [bind] in H;
      [| discriminate].
    destruct (compare_truth thr ei si) as [b |] eqn:Ec; cbn [bind] in H;
      [| discriminate].
    destruct (IH _ _ H) as [Hkeys Hall]. split.
    + intros c Hc. apply Hkeys.
      destruct b; auto. destruct ei; auto. apply dict_set_keys. now right.
    + constructor; auto.
      exists ei, si, b. repeat split; auto.
      intros ->. apply Hkeys.
      apply compare_truth_true in Ec as (a & b' & -> & _).
      apply dict_set_keys. now left.
Qed.

Lemma check_columns_no_change (thr : float) (excel_row sql_row : Series)
    (cols : list string) :
  Forall (fun c => exists ei si,
              getitem excel_row c = Return ei /\
              getitem sql_row c = Return si /\
              compare_truth thr ei si = Return false) cols ->
  forall acc, check_columns thr excel_row sql_row cols acc = Return acc.
Proof.
  induction 1 as [| col rest (ei & si & He & Hs & Hc) _ IH]; intros acc; cbn; auto.
  rewrite He, Hs. cbn. rewrite Hc. cbn. apply IH.
Qed.

(** One row of the store, updated with the changes a source row produced
    against it, shows no difference to that source row any more. *)
Lemma check_columns_fixed (thr : float) (excel_row sql_row : Series)
    (cols : list string) (changes : dict value) :
  PrimFloat.ltb thr 0%float = false ->
  check_columns thr excel_row sql_row cols [] = Return changes ->
  check_columns thr excel_row (set_fields changes sql_row) cols [] = Return [].
Proof.
  intros Hthr H. apply check_columns_no_change.
  destruct (check_columns_complete _ _ _ _ _ H) as [_ Hall].
  pose proof (check_columns_sound _ _ _ _ _ H) as Hsound.
  eapply Forall_impl; [| exact Hall]. cbn.
  intros c (ei & si & b & He & Hs & Hc & Hb).
  exists ei, (item_map (final c changes) si). split; auto.
  apply getitem_Return in Hs as [Hs Hsi].
  split.
  { unfold getitem. rewrite series_get_set_fields, Hs.
    destruct si; cbn; congruence. }
  apply getitem_Return in He as [He _].
  unfold compare_truth in *.
  destruct ei as [| a | vs]; try discriminate.
  destruct si as [| sv | ws]; cbn [item_map].
  - congruence.
  - inversion Hc as [Hcmp]. f_equal.
    destruct (in_dec string_dec c (keys changes)) as [Hin | Hout].
    + rewrite (@final_present c a changes Hin).
      * now apply compare_values_diag.
      * intros v Hv. destruct (Hsound c v Hv) as [[] | (_ & Hg & _)]. congruence.
    + rewrite (@final_absent c changes Hout).
      destruct (compare_values thr a sv) eqn:E; auto.
      subst b. exfalso. auto.
  - destruct a; congruence.
Qed.

(** ** The store after the changesets, row by row *)

Lemma apply_updates_frame (tagc : string) (updates : list update) :
  forall df,
    columns (apply_updates tagc updates df) = columns df /\
    records (apply_updates tagc updates df) =
    map (apply_row tagc updates) (records df).
Proof.
  induction updates as [| [tag changes] rest IH]; intros df; cbn [apply_updates].
  - split; auto. unfold apply_row. cbn. now rewrite map_id.
  - destruct (IH (match changes with
                  | [] => df
                  | _ => update_rows tagc tag changes df
                  end)) as [Hc Hr].
    rewrite Hc, Hr. split.
    + now destruct changes.
    + assert (E : records (match changes with
                           | [] => df
                           | _ => update_rows tagc tag changes df
                           end) =
                  map (fun row => if tag_matches tagc tag row
                                  then set_fields changes row else row)
                      (records df)).
      { destruct changes; auto. cbn.
        rewrite <- (map_id (records df)) at 1. apply map_ext.
        intros row. now destruct (tag_matches tagc tag row). }
      rewrite E, map_map. reflexivity.
Qed.

Lemma row_update_good (thr : float) (tagc : string) (sql_df : DataFrame)
    (cols : list string) (excel_row : Series) (s : string) (u : update) :
  row_key tagc excel_row = Some s ->
  row_update thr tagc sql_df cols excel_row = Return (Some u) ->
  fst u = VStr s /\ ~ In tagc (keys (snd u)).
Proof.
  intros Hkey Hu. destruct u as [tag changes].
  apply row_update_Some in Hu as (Htag & _ & sql_row & rest & Hm & Hc).
  unfold row_key in Hkey. rewrite Htag in Hkey.
  destruct tag as [| | | s']; try discriminate. inversion Hkey; subst s'.
  split; auto. cbn. intros Hin.
  unfold keys in Hin. apply in_map_iff in Hin as ([c v] & Hc' & Hcv).
  cbn in Hc'. subst c.
  destruct (check_columns_sound _ _ _ _ _ Hc tagc v Hcv)
    as [[] | (_ & He & sv & Hs & Hd)].
  assert (Hrow : In sql_row (sql_match_rows tagc (VStr s) sql_df))
    by (rewrite Hm; now left).
  unfold sql_match_rows in Hrow. apply filter_In in Hrow as [_ Hrow].
  rewrite Hs in Hrow. apply elem_eq_str in Hrow. subst sv.
  rewrite Htag in He. inversion He; subst v.
  cbn in Hd. unfold py_ne in Hd. cbn in Hd. now rewrite String.eqb_refl in Hd.
Qed.

Lemma updates_of_good (thr : float) (tagc : string) (sql_df : DataFrame)
    (cols : list string) (rows : list Series) :
  Forall (fun r => row_key tagc r <> None) rows ->
  forall u, In u (updates_of thr tagc sql_df cols rows) ->
    good_update tagc u /\
    exists r s, In r rows /\ row_key tagc r = Some s /\ fst u = VStr s.
Proof.
  intros Hkeys u Hu. apply in_updates_of in Hu as (r & Hr & Hu).
  rewrite Forall_forall in Hkeys. specialize (Hkeys r Hr).
  destruct (row_key tagc r) as [s |] eqn:Ek; [| congruence].
  destruct (@row_update_good _ _ _ _ _ _ _ Ek Hu) as [Hf Hn].
  split; [split; eauto | eauto].
Qed.

Lemma set_fields_keeps_tag (tagc : string) (changes : dict value) (row : Series) :
  ~ In tagc (keys changes) ->
  series_get tagc (set_fields changes row) = series_get tagc row.
Proof.
  intros Hn. rewrite series_get_set_fields.
  apply item_map_id. now apply final_absent.
Qed.

Lemma apply_row_keeps_tag (tagc : string) (updates : list update) :
  Forall (good_update tagc) updates ->
  forall row, series_get tagc (apply_row tagc updates row) = series_get tagc row.
Proof.
  unfold apply_row.
  induction 1 as [| u rest [_ Hu] _ IH]; intros row; cbn [fold_left]; auto.
  rewrite IH. destruct (tag_matches tagc (fst u) row); auto.
  now apply set_fields_keeps_tag.
Qed.

Lemma apply_row_other (tagc s : string) (updates : list update) (row : Series) :
  Forall (fun u => exists s', fst u = VStr s' /\ s' <> s) updates ->
  series_get tagc row = Scalar (VStr s) ->
  apply_row tagc updates row = row.
Proof.
  unfold apply_row. intros Hall Hrow.
  induction Hall as [| u rest (s' & Hs' & Hne) _ IH]; cbn [fold_left]; auto.
  destruct (tag_matches tagc (fst u) row) eqn:E; auto.
  rewrite Hs' in E. apply tag_matches_str in E. congruence.
Qed.

Lemma apply_row_app (tagc : string) (u1 u2 : list update) (row : Series) :
  apply_row tagc (u1 ++ u2) row = apply_row tagc u2 (apply_row tagc u1 row).
Proof. unfold apply_row. apply fold_left_app. Qed.

Lemma updates_of_app (thr : float) (tagc : string) (sql_df : DataFrame)
    (cols : list string) (r1 r2 : list Series) :
  updates_of thr tagc sql_df cols (r1 ++ r2) =
  updates_of thr tagc sql_df cols r1 ++ updates_of thr tagc sql_df cols r2.
Proof. unfold updates_of. apply flat_map_app. Qed.

Lemma updates_of_other (thr : float) (tagc : string) (sql_df : DataFrame)
    (cols : list string) (rows : list Series) (s : string) :
  Forall (fun r => row_key tagc r <> None) rows ->
  ~ In (Some s) (map (row_key tagc) rows) ->
  Forall (fun u => exists s', fst u = VStr s' /\ s' <> s)
         (updates_of thr tagc sql_df cols rows).
Proof.
  intros Hkeys Hn. apply Forall_forall. intros u Hu.
  destruct (@updates_of_good thr tagc sql_df cols rows Hkeys u Hu)
    as [_ (r & s' & Hr & Hk & Hf)].
  exists s'. split; auto. intros ->. apply Hn.
  apply in_map_iff. eauto.
Qed.

(** With distinct string keys, the store rows of one source row's key are
    changed by that row's changeset alone. *)
Lemma apply_row_own (thr : float) (tagc : string) (sql_df : DataFrame)
    (cols : list string) (rows : list Series) (excel_row : Series)
    (s : string) (o : option update) (row : Series) :
  Forall (fun r => row_key tagc r <> None) rows ->
  NoDup (map (row_key tagc) rows) ->
  In excel_row rows ->
  row_key tagc excel_row = Some s ->
  row_update thr tagc sql_df cols excel_row = Return o ->
  series_get tagc row = Scalar (VStr s) ->
  apply_row tagc (updates_of thr tagc sql_df cols rows) row =
  set_fields (changes_of o) row.
Proof.
  intros Hkeys Hnodup Hin Hkey Hupd Hrow.
  apply in_split in Hin as (r1 & r2 & ->).
  rewrite map_app in Hnodup. cbn [map] in Hnodup. rewrite Hkey in Hnodup.
  pose proof (NoDup_remove_2 _ _ _ Hnodup) as Hout.
  rewrite in_app_iff in Hout.
  apply Forall_app in Hkeys as [Hk1 Hk2]. inversion Hk2 as [| ? ? _ Hk2']; subst.
  rewrite updates_of_app, apply_row_app.
  rewrite (@apply_row_other tagc s (updates_of thr tagc sql_df cols r1) row);
    auto.
  2:{ apply updates_of_other; auto. }
  change (excel_row :: r2) with ([excel_row] ++ r2).
  rewrite updates_of_app, apply_row_app.
  assert (Hown : apply_row tagc (updates_of thr tagc sql_df cols [excel_row]) row
                 = set_fields (changes_of o) row).
  { unfold updates_of. cbn. rewrite Hupd. destruct o as [[tag changes] |]; auto.
    cbn. unfold apply_row. cbn.
    destruct (@row_update_good _ _ _ _ _ _ _ Hkey Hupd) as [Htag _]. cbn in Htag.
    subst tag. apply tag_matches_str in Hrow. now rewrite Hrow. }
  rewrite Hown.
  apply (@apply_row_other tagc s).
  - apply updates_of_other; auto.
  - rewrite set_fields_keeps_tag; auto.
    destruct o as [u |]; cbn; auto.
    destruct (@row_update_good _ _ _ _ _ _ _ Hkey Hupd) as [_ Hn].
    now destruct u.
Qed.

Lemma filter_map_commute {A : Type} (p : A -> bool) (g : A -> A) (l : list A) :
  (forall x, p (g x) = p x) ->
  filter p (map g l) = map g (filter p l).
Proof.
  intros H. induction l as [| x l IH]; cbn; auto.
  rewrite H. destruct (p x); cbn; now rewrite IH.
Qed.

(** After its own changeset is applied, a source row yields no changeset. *)
Lemma row_update_settled (thr : float) (tagc : string) (sql_df sql_df' : DataFrame)
    (cols : list string) (updates : list update) (excel_row : Series)
    (s : string) (o : option update) :
  PrimFloat.ltb thr 0%float = false ->
  columns sql_df' = columns sql_df ->
  records sql_df' = map (apply_row tagc updates) (records sql_df) ->
  Forall (good_update tagc) updates ->
  (forall row, series_get tagc row = Scalar (VStr s) ->
               apply_row tagc updates row = set_fields (changes_of o) row) ->
  row_key tagc excel_row = Some s ->
  row_update thr tagc sql_df cols excel_row = Return o ->
  row_update thr tagc sql_df' cols excel_row = Return None.
Proof.
  intros Hthr Hcols Hrecs Hgood Hown Hkey Hupd.
  assert (Htag : series_get tagc excel_row = Scalar (VStr s)).
  { unfold row_key in Hkey. destruct (series_get tagc excel_row) as [| [] |];
      congruence. }
  unfold row_update in *. unfold getitem in *. rewrite Htag in *.
  cbn [bind] in *. rewrite Hcols.
  destruct (negb (mem_str tagc (columns sql_df))); [discriminate |].
  assert (Hm : sql_match_rows tagc (VStr s) sql_df' =
               map (set_fields (changes_of o))
                   (sql_match_rows tagc (VStr s) sql_df)).
  { unfold sql_match_rows. rewrite Hrecs.
    rewrite filter_map_commute
      by (intros row; now rewrite apply_row_keeps_tag).
    apply map_ext_in. intros row Hrow. apply filter_In in Hrow as [_ Hrow].
    apply Hown. now apply tag_matches_str. }
  rewrite Hm.
  destruct (sql_match_rows tagc (VStr s) sql_df) as [| sql_row rest]; cbn [map];
    auto.
  destruct (check_columns thr excel_row sql_row cols []) as [changes |] eqn:Ec;
    cbn [bind] in Hupd; [| discriminate].
  assert (changes_of o = changes) as ->.
  { inversion Hupd. now destruct changes. }
  now rewrite (@check_columns_fixed _ _ _ _ _ Hthr Ec).
Qed.

Lemma updates_of_none (thr : float) (tagc : string) (sql_df : DataFrame)
    (cols : list string) (rows : list Series) :
  Forall (fun r => row_update thr tagc sql_df cols r = Return None) rows ->
  updates_of thr tagc sql_df cols rows = [] /\
  Forall (fun r => raised (row_update thr tagc sql_df cols r) = false) rows.
Proof.
  induction 1 as [| r rest Hr _ [IH1 IH2]]; [split; auto |].
  split.
  - unfold updates_of in *. cbn [flat_map]. now rewrite Hr.
  - constructor; auto. now rewrite Hr.
Qed.

(** C8 (as amended).  When the keys of the source rows are distinct strings
    and the threshold is not negative, setting the fields of every
    changeset of the diff in the reference rows of its key and diffing the
    same source rows against the result yields no changeset. *)
Theorem round_trip (self : SheetProcessor) (excel_df sql_df : DataFrame)
    (cols : list string) (ups : list update) :
  Forall (fun r => row_key (tag_column self) r <> None) (records excel_df) ->
  NoDup (map (row_key (tag_column self)) (records excel_df)) ->
  PrimFloat.ltb (float_threshold (validator self)) 0%float = false ->
  _identify_updates self excel_df sql_df cols = Return ups ->
  _identify_updates self excel_df
    (apply_updates (tag_column self) ups sql_df) cols = Return [].
Proof.
  unfold _identify_updates. intros Hkeys Hnodup Hthr H.
  apply identify_rows_Return in H as [-> Hok]. cbn [app].
  set (thr := float_threshold (validator self)) in *.
  set (tagc := tag_column self) in *.
  set (ups := updates_of thr tagc sql_df cols (records excel_df)).
  destruct (apply_updates_frame tagc ups sql_df) as [Hcols Hrecs].
  assert (Hgood : Forall (good_update tagc) ups).
  { apply Forall_forall. intros u Hu.
    now destruct (@updates_of_good thr tagc sql_df cols _ Hkeys u Hu). }
  assert (Hsettled :
            Forall (fun r => row_update thr tagc (apply_updates tagc ups sql_df)
                               cols r = Return None) (records excel_df)).
  { apply Forall_forall. intros r Hr.
    pose proof (proj1 (Forall_forall _ _) Hkeys r Hr) as Hk.
    rewrite Forall_forall in Hok. specialize (Hok r Hr). cbn in Hk.
    destruct (row_key tagc r) as [s |] eqn:Ek; [| congruence].
    destruct (row_update thr tagc sql_df cols r) as [o |] eqn:Eu;
      [| discriminate].
    apply (@row_update_settled thr tagc sql_df _ cols ups r s o); auto.
    intros row Hrow.
    apply (@apply_row_own thr tagc sql_df cols (records excel_df) r s o row);
      auto. }
  apply updates_of_none in Hsettled as [Hnil Hraised].
  rewrite (@identify_rows_total _ _ _ _ _ Hraised). now rewrite Hnil.
Qed.

(* ================================================================== *)
(** * Further properties *)

Unset Implicit Arguments.

(** ** Stripping and header cleaning *)

Lemma lstrip_fixed (c : ascii) (r : string) :
  is_space c = false -> lstrip (String c r) = String c r.
Proof. intros H. cbn. now rewrite H. Qed.

Lemma lstrip_head (s : string) :
  lstrip s = EmptyString \/
  exists c r, lstrip s = String c r /\ is_space c = false.
Proof.
  induction s as [| c r IH]; cbn; auto.
  destruct (is_space c) eqn:E; auto. right. eauto.
Qed.

Lemma rstrip_cons (c : ascii) (r : string) :
  is_space c = false -> rstrip (String c r) = String c (rstrip r).
Proof. intros H. cbn. destruct (rstrip r); auto. now rewrite H. Qed.

Lemma rstrip_idem (s : string) : rstrip (rstrip s) = rstrip s.
Proof.
  induction s as [| c r IH]; cbn; auto.
  destruct (rstrip r) as [| c' r'] eqn:E.
  - destruct (is_space c) eqn:Ec; cbn; auto. now rewrite Ec.
  - cbn [rstrip]. fold rstrip. cbn [rstrip] in IH. fold rstrip in IH.
    change (rstrip (String c (String c' r')) = String c (String c' r')).
    cbn [rstrip]. fold rstrip. now rewrite IH.
Qed.

Lemma strip_stripped (s : string) : stripped (strip s).
Proof.
  unfold stripped, strip. split; [| apply rstrip_idem].
  destruct (lstrip_head s) as [-> | (c & r & -> & Hc)]; auto.
  rewrite (rstrip_cons c r Hc). now apply lstrip_fixed.
Qed.

Lemma stripped_strip (s : string) : stripped s -> strip s = s.
Proof. unfold stripped, strip. now intros [-> ->]. Qed.

Lemma strip_idem (s : string) : strip (strip s) = strip s.
Proof. apply stripped_strip, strip_stripped. Qed.

Lemma lstrip_length (s : string) : String.length (lstrip s) <= String.length s.
Proof.
  induction s as [| c r IH]; cbn; auto.
  destruct (is_space c); cbn; lia.
Qed.

Lemma lstrip_fixed_inv (c : ascii) (r : string) :
  lstrip (String c r) = String c r -> is_space c = false.
Proof.
  cbn. destruct (is_space c); auto. intros H.
  pose proof (lstrip_length r) as Hl. rewrite H in Hl. cbn in Hl. lia.
Qed.

Lemma rstrip_fixed_inv (c : ascii) (r : string) :
  rstrip (String c r) = String c r ->
  (r = EmptyString /\ is_space c = false) \/ (r <> EmptyString /\ rstrip r = r).
Proof.
  cbn. destruct (rstrip r) as [| c' r'] eqn:E.
  - destruct (is_space c); [discriminate |]. intros H. left. split; congruence.
  - intros H. right. split; congruence.
Qed.

Lemma rstrip_fixed_cons (c : ascii) (r : string) :
  r <> EmptyString -> rstrip r = r -> rstrip (String c r) = String c r.
Proof. intros Hne H. cbn. rewrite H. destruct r; congruence. Qed.

Lemma rstrip_single (c : ascii) :
  is_space c = false -> rstrip (String c EmptyString) = String c EmptyString.
Proof. intros H. cbn. now rewrite H. Qed.

Lemma stripped_map_chars (f : ascii -> ascii) (s : string) :
  (forall c, is_space c = false -> is_space (f c) = false) ->
  stripped s -> stripped (map_chars f s).
Proof.
  intros Hf [Hl Hr]. split.
  - destruct s as [| c r]; auto. apply lstrip_fixed_inv in Hl.
    cbn [map_chars]. apply lstrip_fixed. auto.
  - clear Hl. induction s as [| c r IH]; auto.
    destruct (rstrip_fixed_inv c r Hr) as [[-> Hc] | [Hne Hr']].
    + cbn [map_chars]. apply rstrip_single. auto.
    + cbn [map_chars]. apply rstrip_fixed_cons; auto;
        try (destruct r; [congruence | discriminate]).
Qed.

Lemma remove_chars_nonempty (d : ascii -> bool) (s : string) :
  (forall c, d c = true -> is_space c = true) ->
  s <> EmptyString -> rstrip s = s -> remove_chars d s <> EmptyString.
Proof.
  intros Hd. induction s as [| c r IH]; [congruence |]. intros _ Hr.
  destruct (rstrip_fixed_inv c r Hr) as [[-> Hc] | [Hne Hr']].
  - cbn. destruct (d c) eqn:E; [| discriminate].
    apply Hd in E. congruence.
  - cbn. destruct (d c); [auto | discriminate].
Qed.

Lemma stripped_remove_chars (d : ascii -> bool) (s : string) :
  (forall c, d c = true -> is_space c = true) ->
  stripped s -> stripped (remove_chars d s).
Proof.
  intros Hd [Hl Hr]. split.
  - destruct s as [| c r]; auto. apply lstrip_fixed_inv in Hl.
    cbn [remove_chars]. destruct (d c) eqn:E.
    + apply Hd in E. congruence.
    + now apply lstrip_fixed.
  - clear Hl. induction s as [| c r IH]; auto.
    destruct (rstrip_fixed_inv c r Hr) as [[-> Hc] | [Hne Hr']].
    + cbn [remove_chars]. destruct (d c) eqn:E; auto.
    + cbn [remove_chars]. destruct (d c); auto.
      apply rstrip_fixed_cons; auto.
      now apply remove_chars_nonempty.
Qed.

Lemma in_chars_remove (d : ascii -> bool) (s : string) (c : ascii) :
  In c (chars (remove_chars d s)) -> d c = false /\ In c (chars s).
Proof.
  induction s as [| a r IH]; cbn; [contradiction |].
  destruct (d a) eqn:E; cbn.
  - intros H. destruct (IH H). auto.
  - intros [<- | H]; auto. destruct (IH H). auto.
Qed.

Lemma in_chars_map (f : ascii -> ascii) (s : string) (c : ascii) :
  In c (chars (map_chars f s)) -> exists a, In a (chars s) /\ c = f a.
Proof.
  induction s as [| a r IH]; cbn; [contradiction |].
  intros [<- | H]; eauto. destruct (IH H) as (b & Hb & ->). eauto.
Qed.

Lemma map_chars_id (f : ascii -> ascii) (s : string) :
  (forall c, In c (chars s) -> f c = c) -> map_chars f s = s.
Proof.
  induction s as [| a r IH]; cbn; auto. intros H.
  rewrite H by now left. rewrite IH; auto.
Qed.

Lemma remove_chars_id (d : ascii -> bool) (s : string) :
  (forall c, In c (chars s) -> d c = false) -> remove_chars d s = s.
Proof.
  induction s as [| a r IH]; cbn; auto. intros H.
  rewrite H by now left. rewrite IH; auto.
Qed.

Lemma control_is_space (c : ascii) :
  is_control c = true -> is_space c = true.
Proof.
  unfold is_control, is_space. intros H.
  apply orb_true_iff in H as [H | H]; [apply orb_true_iff in H as [H | H] |];
    apply Nat.eqb_eq in H; rewrite H; reflexivity.
Qed.

Lemma unbreak_keeps (c : ascii) :
  is_space c = false -> unbreak c = c.
Proof.
  unfold unbreak. destruct (Ascii.eqb c nbsp) eqn:E; auto.
  apply Ascii.eqb_eq in E. subst. discriminate.
Qed.

Lemma clean_column_name_facts (h : string) :
  stripped (clean_column_name h)
  /\ (forall c, In c (chars (clean_column_name h)) ->
                c <> nbsp /\ is_control c = false)
  /\ clean_column_name (clean_column_name h) = clean_column_name h.
Proof.
  assert (Hs : stripped (clean_column_name h)).
  { apply stripped_remove_chars; [exact control_is_space |].
    apply stripped_map_chars; [| apply strip_stripped].
    intros c Hc. fold (unbreak c). now rewrite unbreak_keeps. }
  assert (Hc : forall c, In c (chars (clean_column_name h)) ->
                         c <> nbsp /\ is_control c = false).
  { intros c Hin. apply in_chars_remove in Hin as [Hd Hin]. split; auto.
    apply in_chars_map in Hin as (a & _ & ->).
    destruct (Ascii.eqb a nbsp) eqn:E; [discriminate |].
    now apply Ascii.eqb_neq in E. }
  split; auto. split; auto.
  unfold clean_column_name at 1.
  rewrite (stripped_strip _ Hs).
  rewrite map_chars_id.
  - apply remove_chars_id. intros c Hin. now apply Hc.
  - intros c Hin. apply Hc in Hin as [Hn _].
    destruct (Ascii.eqb c nbsp) eqn:E; auto.
    apply Ascii.eqb_eq in E. contradiction.
Qed.

(** X1.  A cleaned header has no whitespace at either end, holds no
    newline, carriage return, tab or non-breaking space, and cleaning it
    again changes nothing. *)
Theorem clean_column_name_normal (h : string) :
  stripped (clean_column_name h)
  /\ (forall c, In c (chars (clean_column_name h)) ->
                c <> nbsp /\ is_control c = false)
  /\ clean_column_name (clean_column_name h) = clean_column_name h.
Proof. apply clean_column_name_facts. Qed.

(** ** Known keys and key filtering *)

Lemma series_get_map_cell (label : string) (f : value -> value) (row : Series) :
  series_get label (map (map_cell label f) row) =
  item_map f (series_get label row).
Proof.
  apply series_get_mapped.
  induction row as [| p row IH]; cbn [map filter]; auto.
  rewrite has_label_map_cell.
  destruct (has_label label p) eqn:E; auto.
  cbn [map]. rewrite IH. f_equal. unfold map_cell. now rewrite E.
Qed.

(** X2.  [get_existing_tags] only reads, and every key it returns is
    stripped.  With these keys, key filtering keeps exactly the rows whose
    key cell, turned into text and stripped, equals the stripped text of
    some key cell of the store; the kept row carries that text as its
    key. *)
Theorem key_filtering (tagc : string) (db db' : Database) (tags : list string) :
  get_existing_tags tagc db = (Return tags, db') ->
  table db' = table db /\ session db' = session db
  /\ Forall stripped tags
  /\ forall sp df row,
       tag_column sp = tagc ->
       (In row (records (filter_tags sp tags df)) <->
        exists row0 v w,
          In row0 (records df) /\
          row = map (map_cell tagc (fun x => VStr (strip (astype_str x)))) row0 /\
          series_get tagc row0 = Scalar v /\
          In w (column_values tagc (session db)) /\
          strip (astype_str v) = strip (astype_str w)).
Proof.
  unfold get_existing_tags.
  destruct (query_fails db SelectTags
            || negb (mem_str tagc (columns (session db)))); [discriminate |].
  intros H. inversion H; subst; clear H. cbn [table session journalled].
  split; auto. split; auto. split.
  { apply Forall_forall. intros t Ht. apply in_map_iff in Ht as (w & <- & _).
    apply strip_stripped. }
  intros sp df row <-.
  unfold filter_tags, filter_rows, map_column. cbn [records].
  rewrite filter_In, in_map_iff. split.
  - intros [(row0 & <- & Hrow0) Hin].
    unfold tag_isin in Hin. rewrite series_get_map_cell in Hin.
    destruct (series_get (tag_column sp) row0) as [| v | vs] eqn:Eg;
      cbn in Hin; try discriminate.
    apply mem_str_In in Hin. apply in_map_iff in Hin as (w & Hw & Hin).
    exists row0, v, w. auto.
  - intros (row0 & v & w & Hrow0 & -> & Hg & Hw & Heq). split; [eauto |].
    unfold tag_isin. rewrite series_get_map_cell, Hg. cbn.
    apply mem_str_In. apply in_map_iff. exists w. split; auto.
Qed.

(** ** Fetching records by key *)

Lemma chunks_spec (size : nat) :
  0 < size ->
  forall (fuel : nat) (tags : list value),
    List.length tags <= fuel ->
    List.concat (chunks fuel size tags) = tags /\
    Forall (fun c => c <> [] /\ List.length c <= size) (chunks fuel size tags).
Proof.
  intros Hsize. induction fuel as [| fuel IH]; intros tags Hlen.
  - destruct tags; [cbn; auto | cbn in Hlen; lia].
  - destruct tags as [| a l]; [cbn; auto |].
    cbn [chunks].
    assert (Hskip : List.length (skipn size (a :: l)) <= fuel).
    { rewrite length_skipn. cbn [List.length] in *. lia. }
    destruct (IH _ Hskip) as [Hc Hall]. split.
    + cbn [List.concat]. rewrite Hc. apply firstn_skipn.
    + constructor; auto. split.
      * destruct size; [lia | discriminate].
      * rewrite length_firstn. lia.
Qed.

Lemma fetch_chunks_spec (tagc : string) (todo : list (list value)) :
  forall (result_dfs : list DataFrame) (db : Database),
    match fetch_chunks tagc todo result_dfs db with
    | (Return dfs, db') =>
        dfs = result_dfs ++
              map (fun chunk => filter_rows (tag_in tagc chunk) (session db)) todo
        /\ table db' = table db /\ session db' = session db
        /\ journal db' = journal db ++ map SelectByTags todo
    | (Raise _, db') => table db' = table db /\ session db' = session db
    end.
Proof.
  induction todo as [| chunk rest IH]; intros result_dfs db; cbn [fetch_chunks].
  - cbn. rewrite !app_nil_r. auto.
  - destruct (query_fails db (SelectByTags chunk)
              || negb (mem_str tagc (columns (session db)))); [cbn; auto |].
    specialize (IH (result_dfs ++ [filter_rows (tag_in tagc chunk) (session db)])
                   (journalled (SelectByTags chunk) db)).
    destruct (fetch_chunks tagc rest _ _) as [[dfs | e] db']; auto.
    destruct IH as (-> & Ht & Hs & Hj). cbn in *.
    rewrite <- !app_assoc. repeat split; auto.
    rewrite Hj, <- app_assoc. reflexivity.
Qed.

Lemma tag_in_concat (tagc : string) (ls : list (list value)) (row : Series) :
  tag_in tagc (List.concat ls) row = existsb (fun chunk => tag_in tagc chunk row) ls.
Proof.
  unfold tag_in. destruct (series_get tagc row) as [| c | vs].
  - induction ls; cbn; auto.
  - induction ls as [| l ls IH]; cbn; auto.
    now rewrite existsb_app, IH.
  - induction ls; cbn; auto.
Qed.

Lemma concat_records (dfs : list DataFrame) :
  records (concat dfs) = flat_map records dfs.
Proof. destruct dfs; reflexivity. Qed.

(** X3.  With a positive batch size, a fetch that returns has only read:
    it sent one query per chunk of at most [batch_size] keys, the chunks
    making up the key list in order, and the frame it returns holds exactly
    the rows of the table whose key is among the requested keys. *)
Theorem fetch_records_by_tags_rows (tagc : string) (tags : list value)
    (batch_size : Z) (db db' : Database) (df : DataFrame) :
  (0 < batch_size)%Z ->
  fetch_records_by_tags tagc tags batch_size db = (Return df, db') ->
  table db' = table db /\ session db' = session db
  /\ (exists queries,
         journal db' = journal db ++ map SelectByTags queries /\
         List.concat queries = tags /\
         Forall (fun c => c <> [] /\ Z.of_nat (List.length c) <= batch_size)%Z
                queries)
  /\ (forall row, In row (records df) <->
                  In row (records (session db)) /\ tag_in tagc tags row = true).
Proof.
  intros Hpos. unfold fetch_records_by_tags.
  destruct (Z.eqb_spec batch_size 0) as [-> | _]; [lia |].
  destruct (Z.ltb_spec batch_size 0) as [? | _]; [lia |].
  set (todo := chunks (List.length tags) (Z.to_nat batch_size) tags).
  destruct (chunks_spec (Z.to_nat batch_size) ltac:(lia) (List.length tags) tags
              (le_n _)) as [Hconcat Hbound].
  fold todo in Hconcat, Hbound.
  pose proof (fetch_chunks_spec tagc todo [] db) as Hspec.
  destruct (fetch_chunks tagc todo [] db) as [[dfs | e] db1].
  2:{ intros H. discriminate. }
  destruct Hspec as (Hdfs & Ht & Hs & Hj). cbn [app] in Hdfs.
  intros H.
  assert (Hres : df = concat dfs /\ db' = db1).
  { destruct dfs; inversion H; auto. }
  destruct Hres as [-> ->]. clear H.
  split; auto. split; auto. split.
  { exists todo. split; auto. split; auto.
    eapply Forall_impl; [| exact Hbound]. cbn. intros c [Hne Hle].
    split; auto. lia. }
  intros row. rewrite concat_records, Hdfs, in_flat_map.
  rewrite <- Hconcat, tag_in_concat, existsb_exists. split.
  - intros (f & Hf & Hrow). apply in_map_iff in Hf as (chunk & <- & Hchunk).
    cbn in Hrow. apply filter_In in Hrow as [Hrow Hin]. eauto.
  - intros (Hrow & chunk & Hchunk & Hin).
    exists (filter_rows (tag_in tagc chunk) (session db)). split.
    + apply in_map_iff. eauto.
    + cbn. apply filter_In. auto.
Qed.

(** X4.  The edges of [fetch_records_by_tags]: a batch size of zero raises
    DatabaseQueryError before any query; a negative batch size, or an empty
    key list with a positive one, gives the empty frame without a query;
    the only exception it raises is DatabaseQueryError, and a failed fetch
    has changed neither the table nor the session. *)
Theorem fetch_records_by_tags_edges (tagc : string) (tags : list value)
    (batch_size : Z) (db : Database) :
  (batch_size = 0%Z ->
   fetch_records_by_tags tagc tags batch_size db = (Raise DatabaseQueryError, db))
  /\ ((batch_size < 0)%Z ->
      fetch_records_by_tags tagc tags batch_size db = (Return empty_frame, db))
  /\ ((0 < batch_size)%Z ->
      fetch_records_by_tags tagc [] batch_size db = (Return empty_frame, db))
  /\ (forall e db',
         fetch_records_by_tags tagc tags batch_size db = (Raise e, db') ->
         e = DatabaseQueryError /\ table db' = table db /\ session db' = session db).
Proof.
  unfold fetch_records_by_tags. split; [| split; [| split]].
  - intros ->. reflexivity.
  - intros H. destruct (Z.eqb_spec batch_size 0); [lia |].
    destruct (Z.ltb_spec batch_size 0); [auto | lia].
  - intros H. destruct (Z.eqb_spec batch_size 0); [lia |].
    destruct (Z.ltb_spec batch_size 0); [lia | reflexivity].
  - intros e db'.
    destruct (Z.eqb batch_size 0); [intros H; now inversion H |].
    destruct (Z.ltb batch_size 0); [discriminate |].
    pose proof (fetch_chunks_spec tagc
                  (chunks (List.length tags) (Z.to_nat batch_size) tags) [] db) as Hs.
    destruct (fetch_chunks tagc _ [] db) as [[[| d dfs] | e0] db1];
      try discriminate.
    intros H. inversion H; subst. destruct Hs. auto.
Qed.

(** ** What the batched update touches *)

Lemma map_cell_label (k : string) (f : value -> value) (p : string * value) :
  fst (map_cell k f p) = fst p.
Proof. unfold map_cell. now destruct (has_label k p). Qed.

Lemma set_fields_labels (changes : dict value) :
  forall row, map fst (set_fields changes row) = map fst row.
Proof.
  unfold set_fields. induction changes as [| cv changes IH]; intros row; cbn; auto.
  rewrite IH, map_map. apply map_ext. intros p. apply map_cell_label.
Qed.

Lemma apply_row_labels (tagc : string) (updates : list update) :
  forall row, map fst (apply_row tagc updates row) = map fst row.
Proof.
  unfold apply_row. induction updates as [| u updates IH]; intros row; cbn; auto.
  rewrite IH. destruct (tag_matches tagc (fst u) row); auto.
  apply set_fields_labels.
Qed.

Lemma apply_row_no_match (tagc : string) (updates : list update) (row : Series) :
  (forall u, In u updates -> tag_matches tagc (fst u) row = false) ->
  apply_row tagc updates row = row.
Proof.
  unfold apply_row. induction updates as [| u updates IH]; cbn; auto.
  intros H. rewrite (H u) by now left. apply IH. intros u' Hu'. apply H. now right.
Qed.

Lemma apply_row_other_column (tagc c : string) (updates : list update) :
  (forall u, In u updates -> ~ In c (keys (snd u))) ->
  forall row, series_get c (apply_row tagc updates row) = series_get c row.
Proof.
  unfold apply_row. induction updates as [| u updates IH]; intros H row; cbn; auto.
  rewrite IH by (intros u' Hu'; apply H; now right).
  destruct (tag_matches tagc (fst u) row); auto.
  rewrite series_get_set_fields. apply item_map_id.
  apply final_absent. apply H. now left.
Qed.

(** X5.  A batched update that succeeds neither adds nor removes rows or
    columns and keeps the labels of every row: the table afterwards is the
    session's view before, row by row, where a row whose key matches no
    changeset is unchanged and a column that no changeset names keeps its
    value in every row. *)
Theorem batch_update_touches_only_matches (tagc : string)
    (updates : list update) (db db' : Database) (n : nat) :
  batch_update_records tagc updates db = (Return n, db') ->
  columns (table db') = columns (session db)
  /\ exists g,
       records (table db') = map g (records (session db)) /\
       forall row,
         map fst (g row) = map fst row /\
         ((forall u, In u updates -> tag_matches tagc (fst u) row = false) ->
          g row = row) /\
         (forall c, (forall u, In u updates -> ~ In c (keys (snd u))) ->
                    series_get c (g row) = series_get c row).
Proof.
  unfold batch_update_records.
  pose proof (execute_updates_spec tagc updates 0 db) as Hspec.
  destruct (execute_updates tagc updates 0 db) as [[m | e] db1];
    [| intros H; now apply rollback_and_raise_raises in H].
  destruct Hspec as (_ & _ & Hs & _ & _).
  destruct (query_fails db1 Commit);
    [intros H; now apply rollback_and_raise_raises in H |].
  intros H. inversion H; subst; clear H. cbn [table commit]. rewrite Hs.
  destruct (apply_updates_frame tagc updates (session db)) as [Hc Hr].
  split; auto. exists (apply_row tagc updates). split; auto.
  intros row. split; [apply apply_row_labels |]. split.
  - apply apply_row_no_match.
  - intros c Hc'. now apply apply_row_other_column.
Qed.

(** ** The shape of the diff *)

Lemma dict_set_NoDup (k : string) (v : value) (d : dict value) :
  NoDup (keys d) -> NoDup (keys (dict_set k v d)).
Proof.
  induction d as [| [k' v'] d IH]; cbn.
  - intros _. constructor; [intros [] | constructor].
  - intros H. inversion H as [| ? ? Hnot Hd]; subst.
    destruct (String.eqb k' k) eqn:E; cbn.
    + constructor; auto.
    + constructor; [| now apply IH].
      change (~ In k' (keys (dict_set k v d))). rewrite dict_set_keys.
      apply String.eqb_neq in E. intros [-> | Hin]; [congruence | auto].
Qed.

Lemma check_columns_NoDup (thr : float) (excel_row sql_row : Series)
    (cols : list string) :
  forall acc changes,
    NoDup (keys acc) ->
    check_columns thr excel_row sql_row cols acc = Return changes ->
    NoDup (keys changes).
Proof.
  induction cols as [| col rest IH]; cbn [check_columns]; intros acc changes Hacc H.
  - now inversion H; subst.
  - destruct (getitem excel_row col) as [ei |]; cbn [bind] in H; [| discriminate].
    destruct (getitem sql_row col) as [si |]; cbn [bind] in H; [| discriminate].
    destruct (compare_truth thr ei si) as [b |]; cbn [bind] in H; [| discriminate].
    eapply IH; [| exact H].
    destruct b; auto. destruct ei; auto. now apply dict_set_NoDup.
Qed.

Lemma updates_of_length (thr : float) (tagc : string) (sql_df : DataFrame)
    (cols : list string) (rows : list Series) :
  List.length (updates_of thr tagc sql_df cols rows) <= List.length rows.
Proof.
  unfold updates_of. induction rows as [| r rows IH]; cbn; auto.
  rewrite length_app.
  destruct (row_update thr tagc sql_df cols r) as [[u |] |]; cbn; lia.
Qed.

(** X6.  The diff returns at most one changeset per source row.  Each
    changeset carries the key of a source row that has a matching row in
    the reference frame, and names every column at most once. *)
Theorem changeset_structure (self : SheetProcessor)
    (excel_df sql_df : DataFrame) (cols : list string) (ups : list update) :
  _identify_updates self excel_df sql_df cols = Return ups ->
  List.length ups <= List.length (records excel_df)
  /\ forall tag changes,
       In (tag, changes) ups ->
       NoDup (keys changes)
       /\ (exists excel_row,
              In excel_row (records excel_df) /\
              series_get (tag_column self) excel_row = Scalar tag)
       /\ (exists sql_row,
              In sql_row (records sql_df) /\
              tag_matches (tag_column self) tag sql_row = true).
Proof.
  unfold _identify_updates. intros H.
  apply identify_rows_Return in H as [-> _]. cbn [app].
  split; [apply updates_of_length |].
  intros tag changes Hin.
  apply in_updates_of in Hin as (r & Hr & Hu).
  apply row_update_Some in Hu as (Htag & _ & sql_row & rest & Hm & Hc).
  split; [| split].
  - eapply check_columns_NoDup; [| exact Hc]. constructor.
  - eauto.
  - assert (Hin : In sql_row (sql_match_rows (tag_column self) tag sql_df))
      by (rewrite Hm; now left).
    unfold sql_match_rows in Hin. apply filter_In in Hin as [Hin Hmatch].
    exists sql_row. split; auto.
Qed.

(** ** A key column that is itself compared *)

Lemma filter_label_length (l : string) (row : Series) :
  forall row', map fst row = map fst row' ->
    List.length (filter (has_label l) row) =
    List.length (filter (has_label l) row').
Proof.
  induction row as [| p row IH]; intros [| p' row'] H; try discriminate; auto.
  cbn in H. inversion H as [[Hp Hrow]]. cbn [filter].
  replace (has_label l p) with (has_label l p')
    by (unfold has_label; now rewrite Hp).
  destruct (has_label l p'); cbn; auto.
Qed.

Lemma series_get_repeated (l : string) (row : Series) :
  2 <= List.length (filter (has_label l) row) ->
  exists vs, series_get l row = NonScalar vs.
Proof.
  unfold series_get. destruct (filter (has_label l) row) as [| p [| q rest]];
    cbn; try lia. eauto.
Qed.

Lemma filter_flat_map {A B : Type} (p : B -> bool) (f : A -> list B) (l : list A) :
  filter p (flat_map f l) = flat_map (fun x => filter p (f x)) l.
Proof.
  induction l as [| x l IH]; cbn; auto. now rewrite filter_app, IH.
Qed.

Lemma filter_filter_same {A : Type} (p : A -> bool) (l : list A) :
  filter p (filter p l) = filter p l.
Proof.
  induction l as [| x l IH]; cbn; auto.
  destruct (p x) eqn:E; cbn; rewrite ?E, IH; auto.
Qed.

(** Selecting the key column twice repeats the key cell. *)
Lemma selected_key_repeated (tagc : string) (valid : list string)
    (row : Series) (v : value) :
  In tagc valid ->
  series_get tagc row = Scalar v ->
  2 <= List.length
         (filter (has_label tagc)
            (flat_map (fun l => filter (has_label l) row) (valid ++ [tagc]))).
Proof.
  intros Hin Hget.
  assert (Hone : List.length (filter (has_label tagc) row) = 1).
  { unfold series_get in Hget.
    destruct (filter (has_label tagc) row) as [| p [| q rest]]; auto;
      discriminate. }
  apply in_split in Hin as (v1 & v2 & ->).
  rewrite filter_flat_map, <- !app_assoc, !flat_map_app. cbn [flat_map app].
  rewrite app_nil_r, !length_app, !filter_filter_same. lia.
Qed.

Lemma assign_rows_labels (col : string) (values : list value) (rows : list Series) :
  map (map fst) (assign_rows col values rows) = map (map fst) rows.
Proof.
  revert values. induction rows as [| r rows IH]; intros [| v values]; cbn; auto.
  rewrite IH, map_map. f_equal. apply map_ext. intros p. apply map_cell_label.
Qed.

Lemma validate_columns_labels (df : DataFrame) (sheet tagc : string)
    (cols : list string) :
  forall validated_df errors vdf errs,
    validate_columns df sheet tagc cols validated_df errors = Return (vdf, errs) ->
    columns vdf = columns validated_df /\
    map (map fst) (records vdf) = map (map fst) (records validated_df).
Proof.
  induction cols as [| col rest IH]; cbn [validate_columns];
    intros validated_df errors vdf errs H.
  - now inversion H.
  - destruct (negb (mem_str col (columns df))); [eauto |].
    destruct (1 <? label_count col df)%nat; [discriminate |].
    destruct (log_errors sheet tagc col (records df) (column_values col df)
                (to_numeric (column_values col df))); cbn [bind] in H;
      [| discriminate].
    apply IH in H as [Hc Hr]. rewrite Hc, Hr. cbn. split; auto.
    apply assign_rows_labels.
Qed.

Lemma identify_rows_repeated_key (thr : float) (tagc : string)
    (sql_df : DataFrame) (cols : list string) (row : Series)
    (rest : list Series) (updates : list update) (vs : list value) :
  series_get tagc row = NonScalar vs ->
  raised (identify_rows thr tagc sql_df cols (row :: rest) updates) = true.
Proof.
  intros H. cbn. unfold getitem. rewrite H. cbn.
  now destruct (negb (mem_str tagc (columns sql_df))).
Qed.

(** X7.  When the key column is a store column and is not ignored,
    [process_sheet] never returns a diff, whatever reference frame it is
    given: it returns only for a sheet it skips, and raises as soon as a
    row survives key filtering, because the selection then holds the key
    column twice. *)
Theorem key_column_in_scope_never_diffs (self : SheetProcessor)
    (xls : Workbook) (sheet : string) (existing_tags : list string)
    (sql_data : DataFrame) (r : SheetResult) (ups : list update)
    (errs : list ValidationError) :
  In (tag_column self) (sql_columns self) ->
  ~ In (tag_column self) (ignored_headers (config self)) ->
  process_sheet self xls sheet existing_tags sql_data = Return (r, ups, errs) ->
  status r = "SKIP" /\ ups = [] /\ errs = [].
Proof.
  intros Hsql Hign H. unfold process_sheet in H.
  destruct (read_excel xls sheet) as [df |]; cbn [bind] in H; [| discriminate].
  destruct (has_no_columns df); [discriminate |].
  destruct (mem_str (tag_column self) (columns (mapped_frame self df))) eqn:Hmem;
    cbn [negb] in H; [| inversion H; subst; auto].
  destruct (1 <? label_count (tag_column self) (mapped_frame self df))%nat;
    [discriminate |].
  set (filtered := filter_tags self existing_tags (mapped_frame self df)) in *.
  destruct (frame_empty filtered) eqn:Hemp; [inversion H; subst; auto |].
  exfalso.
  set (valid := valid_columns_of self filtered) in *.
  destruct (validate_numeric_columns (validator self)
              (select_columns (valid ++ [tag_column self]) filtered) sheet
              (tag_column self)) as [[vdf errs'] |] eqn:Ev; cbn [bind] in H;
    [| discriminate].
  assert (Hvalid : In (tag_column self) valid).
  { unfold valid, valid_columns_of. apply filter_In. split.
    - apply mem_str_In. exact Hmem.
    - apply andb_true_iff. split; [now apply mem_str_In |].
      apply negb_true_iff.
      destruct (mem_str (tag_column self) (ignored_headers (config self))) eqn:E;
        auto. apply mem_str_In in E. contradiction. }
  destruct (records filtered) as [| row0 rows0] eqn:Hrows.
  { unfold frame_empty in Hemp. rewrite Hrows in Hemp.
    destruct (columns filtered); discriminate. }
  assert (Hrow0 : exists v, series_get (tag_column self) row0 = Scalar v).
  { assert (Hin : In row0 (records filtered)) by (rewrite Hrows; now left).
    unfold filtered, filter_tags, filter_rows in Hin. cbn [records] in Hin.
    apply filter_In in Hin as [_ Hin]. unfold tag_isin in Hin.
    destruct (series_get (tag_column self) row0) as [| v | vs]; try discriminate.
    eauto. }
  destruct Hrow0 as [v Hv].
  unfold validate_numeric_columns in Ev.
  apply validate_columns_labels in Ev as [_ Hlabels].
  unfold select_columns in Hlabels. cbn [records] in Hlabels.
  rewrite Hrows in Hlabels. cbn [map] in Hlabels.
  destruct (records vdf) as [| r1 rows1] eqn:Hvdf; [discriminate |].
  cbn [map] in Hlabels. injection Hlabels as Hr1 _.
  pose proof (selected_key_repeated (tag_column self) valid row0 v Hvalid Hv)
    as Htwice.
  rewrite <- (filter_label_length (tag_column self) _ _ Hr1) in Htwice.
  pose proof (proj2 (clean_dataframe_labels vdf)) as Hclean.
  rewrite Hvdf in Hclean.
  destruct (records (_clean_dataframe vdf)) as [| c1 crows] eqn:Hc;
    [discriminate |].
  cbn [map] in Hclean. injection Hclean as Hc1 _.
  rewrite <- (filter_label_length (tag_column self) _ _ Hc1) in Htwice.
  apply series_get_repeated in Htwice as [vs Hvs].
  unfold _identify_updates in H. rewrite Hc in H.
  pose proof (identify_rows_repeated_key
                (float_threshold (validator self)) (tag_column self) sql_data
                valid _ crows [] vs Hvs) as Hraise.
  destruct (identify_rows _ _ _ _ _ _); [discriminate | discriminate].
Qed.

(** ** What a sheet result says *)

Lemma conversion_failed_raw (raw converted : value) :
  conversion_failed raw converted = true ->
  isna converted = true /\ notna raw = true /\
  strip (astype_str raw) <> EmptyString.
Proof.
  unfold conversion_failed. intros H.
  apply andb_true_iff in H as [H H3]. apply andb_true_iff in H as [H1 H2].
  repeat split; auto. apply negb_true_iff in H3. now apply String.eqb_neq.
Qed.

Lemma log_errors_values (sheet tagc col : string) (rows : list Series) :
  forall raws converted errs,
    log_errors sheet tagc col rows raws converted = Return errs ->
    forall e, In e errs ->
      error_reason e = type_mismatch /\ In (invalid_value e) raws /\
      notna (invalid_value e) = true /\
      strip (astype_str (invalid_value e)) <> EmptyString.
Proof.
  induction rows as [| row rows IH]; intros raws converted errs H e He.
  - cbn in H. inversion H; subst. contradiction.
  - destruct raws as [| raw raws]; [cbn in H; inversion H; subst; contradiction |].
    destruct converted as [| conv converted];
      [cbn in H; inversion H; subst; contradiction |].
    cbn [log_errors] in H.
    destruct (conversion_failed raw conv) eqn:Ef.
    + destruct (getitem row tagc) as [tag |]; cbn [bind] in H; [| discriminate].
      destruct (log_errors sheet tagc col rows raws converted) as [rest |] eqn:E;
        cbn [bind] in H; [| discriminate].
      inversion H; subst. destruct He as [<- | He].
      * cbn. apply conversion_failed_raw in Ef as (_ & Hn & Hs). auto.
      * destruct (IH _ _ _ E e He) as (? & ? & ? & ?). repeat split; auto.
        now right.
    + destruct (IH _ _ _ H e He) as (? & ? & ? & ?). repeat split; auto.
      now right.
Qed.

Lemma validate_columns_sound (df : DataFrame) (sheet tagc : string)
    (cols : list string) :
  forall validated_df errors vdf errs,
    validate_columns df sheet tagc cols validated_df errors = Return (vdf, errs) ->
    Forall (sound_error df sheet) errors ->
    Forall (sound_error df sheet) errs.
Proof.
  induction cols as [| col rest IH]; cbn [validate_columns];
    intros validated_df errors vdf errs H Hacc.
  - now inversion H; subst.
  - destruct (negb (mem_str col (columns df))); [eauto |].
    destruct (1 <? label_count col df)%nat; [discriminate |].
    destruct (log_errors sheet tagc col (records df) (column_values col df)
                (to_numeric (column_values col df))) as [found |] eqn:El;
      cbn [bind] in H; [| discriminate].
    apply (IH _ _ _ _ H). apply Forall_app. split; auto.
    apply Forall_forall. intros e He.
    destruct (log_errors_header _ _ _ _ _ _ El e He) as [Hh Hsheet].
    destruct (log_errors_values _ _ _ _ _ _ _ El e He) as (Hr & Hin & Hn & Hs).
    unfold sound_error. rewrite Hh. auto.
Qed.

Lemma process_sheet_result_shape (self : SheetProcessor) (xls : Workbook)
    (sheet : string) (existing_tags : list string) (sql_data : DataFrame)
    (r : SheetResult) (ups : list update) (errs : list ValidationError) :
  process_sheet self xls sheet existing_tags sql_data = Return (r, ups, errs) ->
  sr_sheet_name r = sheet /\ update_count r = List.length ups
  /\ ((status r = "SKIP" /\ ups = [] /\ errs = [] /\
       (result r = "Tag Column Missing" \/ result r = "No Valid Tags"))
      \/ (status r = "DRY-RUN" /\
          result r = match ups with
                     | [] => "No changes"
                     | _ => changes_detected (List.length ups)
                     end))
  /\ forall e, In e errs ->
       sheet_name e = sheet /\ error_reason e = type_mismatch /\
       notna (invalid_value e) = true /\
       strip (astype_str (invalid_value e)) <> EmptyString.
Proof.
  intros H. unfold process_sheet in H.
  destruct (read_excel xls sheet) as [df |]; cbn [bind] in H; [| discriminate].
  destruct (has_no_columns df); [discriminate |].
  destruct (mem_str (tag_column self) (columns (mapped_frame self df)));
    cbn [negb] in H.
  2:{ inversion H; subst. cbn.
      split; [reflexivity | split; [reflexivity | split; [| intros e []]]].
      left. auto. }
  destruct (1 <? label_count (tag_column self) (mapped_frame self df))%nat;
    [discriminate |].
  destruct (frame_empty (filter_tags self existing_tags (mapped_frame self df))).
  { inversion H; subst. cbn.
    split; [reflexivity | split; [reflexivity | split; [| intros e []]]].
    left. auto. }
  fold (selected_frame self existing_tags df) in H.
  destruct (validate_numeric_columns (validator self)
              (selected_frame self existing_tags df) sheet (tag_column self))
    as [[vdf errs'] |] eqn:Ev; cbn [bind] in H; [| discriminate].
  destruct (_identify_updates self (_clean_dataframe vdf) sql_data _)
    as [ups' |]; cbn [bind] in H; [| discriminate].
  inversion H; subst. cbn.
  split; [reflexivity | split; [reflexivity | split; [right; auto |]]].
  intros e He. unfold validate_numeric_columns in Ev.
  apply validate_columns_sound in Ev; [| constructor].
  rewrite Forall_forall in Ev.
  destruct (Ev e He) as (H1 & H2 & _ & H3 & H4). auto.
Qed.

(** X8.  Whenever [process_sheet] returns, the result carries the sheet's
    name and the number of changesets as its count; it is either a skip
    ("Tag Column Missing" or "No Valid Tags", with no changeset and no
    validation error) or a DRY-RUN result whose text is "No changes"
    exactly when there is no changeset.  Every validation error carries the
    sheet's name and the type-mismatch reason, and reports a cell that is
    not null and whose text is not blank. *)
Theorem process_sheet_result (self : SheetProcessor) (xls : Workbook)
    (sheet : string) (existing_tags : list string) (sql_data : DataFrame)
    (r : SheetResult) (ups : list update) (errs : list ValidationError) :
  process_sheet self xls sheet existing_tags sql_data = Return (r, ups, errs) ->
  sr_sheet_name r = sheet /\ update_count r = List.length ups
  /\ ((status r = "SKIP" /\ ups = [] /\ errs = [] /\
       (result r = "Tag Column Missing" \/ result r = "No Valid Tags"))
      \/ (status r = "DRY-RUN" /\
          result r = match ups with
                     | [] => "No changes"
                     | _ => changes_detected (List.length ups)
                     end))
  /\ forall e, In e errs ->
       sheet_name e = sheet /\ error_reason e = type_mismatch /\
       notna (invalid_value e) = true /\
       strip (astype_str (invalid_value e)) <> EmptyString.
Proof. apply process_sheet_result_shape. Qed.

(** X9.  No run ever reports a detected or committed update, a validation
    error or an error report: every sheet result of a run is a skip or an
    error with count 0, and the totals are 0, in a dry run as in a real
    run. *)
Theorem run_import_reports_nothing (self : ImportService)
    (excel_file : outcome Workbook) (config_file : option ProcessingConfig)
    (report_path : string) (dry_run : bool) (db : Database) :
  let r := fst (run_import self excel_file config_file report_path dry_run db) in
  total_detected_updates r = 0 /\ total_committed_updates r = 0
  /\ validation_errors r = [] /\ error_report_path r = None
  /\ Forall (fun sr => update_count sr = 0 /\
                       (status sr = "SKIP" \/ status sr = "ERROR"))
            (sheet_results r).
Proof.
  destruct (run_ready self excel_file config_file db) eqn:Hready.
  - assert (exists cfg xls, config_file = Some cfg /\ excel_file = Return xls)
      as (cfg & xls & -> & ->).
    { unfold run_ready in Hready.
      destruct config_file; [| discriminate].
      destruct excel_file; [eauto |].
      cbn in Hready. now rewrite !andb_false_r in Hready. }
    rewrite run_import_ready by assumption. cbn. repeat split; auto.
    apply Forall_forall. intros sr Hsr. apply in_map_iff in Hsr as (sheet & <- & _).
    unfold sheet_fate.
    destruct (process_sheet _ xls sheet _ empty_frame) as [[[r ups] errs] |] eqn:E;
      [| cbn; auto].
    destruct (process_sheet_first_pass_Return _ _ _ _ E) as (Hu & _ & Hs & _).
    apply process_sheet_result_shape in E as (_ & Hc & _). subst ups. auto.
  - destruct (run_import_not_ready self excel_file config_file report_path db
                Hready) as (message & db' & Hrun & _).
    rewrite Hrun. cbn. repeat split; auto.
Qed.

(** ** What numeric validation changes *)

Lemma Forall2_refl_on {A : Type} (R : A -> A -> Prop) (l : list A) :
  (forall x, R x x) -> Forall2 R l l.
Proof. intros H. induction l; constructor; auto. Qed.

Lemma Forall2_trans_on {A : Type} (R S T : A -> A -> Prop) :
  (forall x y z, R x y -> S y z -> T x z) ->
  forall l1 l2 l3, Forall2 R l1 l2 -> Forall2 S l2 l3 -> Forall2 T l1 l3.
Proof.
  intros H l1 l2 l3 H12. revert l3.
  induction H12 as [| x y l1 l2 Hxy _ IH]; intros l3 H23;
    inversion H23; subst; constructor; eauto.
Qed.

Lemma filter_assigned_other (c col : string) (v : value) (row : Series) :
  c <> col ->
  filter (has_label c) (map (map_cell col (fun _ => v)) row) =
  filter (has_label c) row.
Proof.
  intros Hne. rewrite filter_map_cell.
  assert (String.eqb col c = false) as -> by (apply String.eqb_neq; congruence).
  rewrite <- (map_id (filter (has_label c) row)) at 2.
  apply map_ext. now intros [l x].
Qed.

Lemma assign_rows_outside (col : string) (rows : list Series) :
  forall values,
    Forall2 (fun r r' => map fst r' = map fst r /\
                         forall c, c <> col ->
                           filter (has_label c) r' = filter (has_label c) r)
            rows (assign_rows col values rows).
Proof.
  induction rows as [| row rows IH]; intros values.
  - destruct values; constructor.
  - destruct values as [| v values].
    + cbn. apply Forall2_refl_on. auto.
    + cbn [assign_rows]. constructor; [| apply IH]. split.
      * rewrite map_map. apply map_ext. intros p. apply map_cell_label.
      * intros c Hc. now apply filter_assigned_other.
Qed.

Lemma validate_columns_outside (df : DataFrame) (sheet tagc : string)
    (cols : list string) :
  forall validated_df errors vdf errs,
    validate_columns df sheet tagc cols validated_df errors = Return (vdf, errs) ->
    Forall2 (fun r r' => map fst r' = map fst r /\
                         forall c, ~ In c cols ->
                           filter (has_label c) r' = filter (has_label c) r)
            (records validated_df) (records vdf).
Proof.
  induction cols as [| col rest IH]; cbn [validate_columns];
    intros validated_df errors vdf errs H.
  - inversion H; subst. apply Forall2_refl_on. auto.
  - destruct (negb (mem_str col (columns df))).
    { eapply Forall2_impl; [| apply (IH _ _ _ _ H)].
      cbn. intros r r' [Hl Hc]. split; auto. }
    destruct (1 <? label_count col df)%nat; [discriminate |].
    destruct (log_errors sheet tagc col (records df) (column_values col df)
                (to_numeric (column_values col df))); cbn [bind] in H;
      [| discriminate].
    apply IH in H. cbn [assign_column records] in H.
    eapply Forall2_trans_on;
      [| apply (assign_rows_outside col (records validated_df)
                  (to_numeric (column_values col df))) | exact H].
    cbn. intros x y z [Hl1 Hc1] [Hl2 Hc2]. split; [congruence |].
    intros c Hc. rewrite Hc2, Hc1; auto.
Qed.

Lemma column_values_outside (c : string) (cols : list string)
    (rows rows' : list Series) :
  ~ In c cols ->
  Forall2 (fun r r' => map fst r' = map fst r /\
                       forall c, ~ In c cols ->
                         filter (has_label c) r' = filter (has_label c) r)
          rows rows' ->
  flat_map (fun row => map snd (filter (has_label c) row)) rows' =
  flat_map (fun row => map snd (filter (has_label c) row)) rows.
Proof.
  intros Hc H. induction H as [| r r' rows rows' [_ Hr] _ IH]; cbn; auto.
  now rewrite IH, Hr.
Qed.

Lemma label_cells (c : string) (row : Series) :
  List.length (filter (has_label c) row) =
  List.length (filter (String.eqb c) (map fst row)).
Proof.
  induction row as [| p row IH]; cbn; auto.
  unfold has_label at 1. rewrite String.eqb_sym.
  destruct (String.eqb c (fst p)); cbn; auto.
Qed.

Lemma label_count_present (c : string) (labels : list string) :
  In c labels -> 1 <= List.length (filter (String.eqb c) labels).
Proof.
  induction labels as [| l labels IH]; cbn; [contradiction |].
  intros [-> | H].
  - rewrite String.eqb_refl. cbn. lia.
  - apply IH in H. destruct (String.eqb c l); cbn; lia.
Qed.

(** In a well-formed frame a column whose label is not repeated has one
    cell in every row. *)
Lemma one_cell_per_row (df : DataFrame) (col : string) :
  well_formed df ->
  mem_str col (columns df) = true ->
  (1 <? label_count col df)%nat = false ->
  Forall (fun row => List.length (filter (has_label col) row) = 1) (records df).
Proof.
  intros Hwf Hin Hone. apply Nat.ltb_ge in Hone. unfold label_count in Hone.
  apply mem_str_In in Hin. apply label_count_present in Hin.
  eapply Forall_impl; [| exact Hwf]. cbn. intros row Hrow.
  rewrite label_cells, Hrow. lia.
Qed.

Lemma one_cell_length (col : string) (rows : list Series) :
  Forall (fun row => List.length (filter (has_label col) row) = 1) rows ->
  List.length (flat_map (fun row => map snd (filter (has_label col) row)) rows)
  = List.length rows.
Proof.
  induction 1 as [| row rows Hrow _ IH]; cbn; auto.
  rewrite length_app, length_map, Hrow, IH. reflexivity.
Qed.

Lemma assign_rows_column (col : string) (rows : list Series) :
  forall values,
    List.length values = List.length rows ->
    Forall (fun row => List.length (filter (has_label col) row) = 1) rows ->
    flat_map (fun row => map snd (filter (has_label col) row))
             (assign_rows col values rows) = values.
Proof.
  induction rows as [| row rows IH]; intros [| v values] Hlen Hone;
    try discriminate; auto.
  inversion Hone as [| ? ? Hrow Hrows]; subst.
  cbn [assign_rows flat_map]. rewrite IH by (cbn in Hlen; auto; lia).
  rewrite filter_map_cell, String.eqb_refl.
  destruct (filter (has_label col) row) as [| p [| q rest]]; try discriminate.
  reflexivity.
Qed.

Lemma to_numeric_length (cells : list value) :
  List.length (to_numeric cells) = List.length cells.
Proof.
  unfold to_numeric.
  destruct (forallb is_int (map cell_to_num cells)
            && ints_fit (num_ints (map cell_to_num cells)));
    now rewrite !length_map.
Qed.

Lemma one_cell_labels (col : string) (rows rows' : list Series) :
  map (map fst) rows' = map (map fst) rows ->
  Forall (fun row => List.length (filter (has_label col) row) = 1) rows ->
  Forall (fun row => List.length (filter (has_label col) row) = 1) rows'.
Proof.
  revert rows'. induction rows as [| row rows IH]; intros [| row' rows'] Hl H;
    try discriminate; constructor; inversion H; subst; cbn in Hl;
    injection Hl as Hrow Hrows.
  - now rewrite label_cells, Hrow, <- label_cells.
  - auto.
Qed.

Lemma validate_columns_numeric (df : DataFrame) (sheet tagc : string)
    (cols : list string) :
  well_formed df ->
  forall validated_df errors vdf errs,
    map (map fst) (records validated_df) = map (map fst) (records df) ->
    validate_columns df sheet tagc cols validated_df errors = Return (vdf, errs) ->
    forall c, In c cols -> In c (columns df) ->
      column_values c vdf = to_numeric (column_values c df).
Proof.
  intros Hwf.
  induction cols as [| col rest IH]; cbn [validate_columns];
    intros validated_df errors vdf errs Hlab H c Hc Hin; [contradiction |].
  destruct (mem_str col (columns df)) eqn:Hmem; cbn [negb] in H.
  2:{ destruct Hc as [-> | Hc]; [| eauto].
      apply (proj2 (mem_str_In _ _)) in Hin. congruence. }
  destruct (1 <? label_count col df)%nat eqn:Hone; [discriminate |].
  destruct (log_errors sheet tagc col (records df) (column_values col df)
              (to_numeric (column_values col df))); cbn [bind] in H;
    [| discriminate].
  destruct (in_dec string_dec c rest) as [Hrest | Hrest].
  - refine (IH _ _ _ _ _ H c Hrest Hin). cbn [assign_column records].
    now rewrite assign_rows_labels.
  - destruct Hc as [-> | Hc]; [| contradiction].
    pose proof (one_cell_per_row df c Hwf Hmem Hone) as Hcells.
    unfold column_values at 1.
    rewrite (column_values_outside c rest _ _ Hrest
               (validate_columns_outside _ _ _ _ _ _ _ _ H)).
    cbn [assign_column records]. apply assign_rows_column.
    + rewrite to_numeric_length. unfold column_values.
      rewrite (one_cell_length c _ Hcells).
      apply (f_equal (@List.length _)) in Hlab.
      rewrite !length_map in Hlab. now symmetry.
    + apply (one_cell_labels c (records df)); auto.
Qed.

(** X10.  Numeric validation keeps the shape of the frame and every cell
    outside the numeric-declared columns: the validated frame has the same
    column labels, its rows carry the same labels in the same order, and a
    column that is not numeric-declared has the same cells.  In a frame whose
    rows all carry the frame's labels, every numeric-declared column that is
    present becomes the numeric coercion of the raw column.  Every error
    names a numeric-declared column of the frame and reports one of its raw
    cells. *)
Theorem validation_changes_numeric_columns_only (self : DataValidator)
    (df : DataFrame) (sheet tagc : string) (vdf : DataFrame)
    (errs : list ValidationError) :
  validate_numeric_columns self df sheet tagc = Return (vdf, errs) ->
  columns vdf = columns df
  /\ Forall2 (same_outside (numeric_columns self)) (records df) (records vdf)
  /\ (forall c, ~ In c (numeric_columns self) ->
        column_values c vdf = column_values c df)
  /\ (well_formed df ->
      forall c, In c (numeric_columns self) -> In c (columns df) ->
        column_values c vdf = to_numeric (column_values c df))
  /\ (forall e, In e errs ->
        In (excel_header e) (numeric_columns self) /\
        In (excel_header e) (columns df) /\
        In (invalid_value e) (column_values (excel_header e) df)).
Proof.
  unfold validate_numeric_columns. intros H.
  pose proof (validate_columns_outside _ _ _ _ _ _ _ _ H) as Hout.
  split; [apply (validate_columns_labels _ _ _ _ _ _ _ _ H) |].
  split; [| split; [| split]].
  - eapply Forall2_impl; [| exact Hout]. cbn. intros r r' [Hl Hc].
    split; auto. intros c Hn. unfold series_get. now rewrite Hc.
  - intros c Hn. now apply (column_values_outside c (numeric_columns self)).
  - intros Hwf c Hc Hin.
    now apply (validate_columns_numeric df sheet tagc (numeric_columns self)
                 Hwf df [] vdf errs).
  - intros e He.
    destruct (@validate_columns_errors _ _ _ _ _ _ _ _ H e He) as [[] | [H1 H2]].
    apply validate_columns_sound in H; [| constructor].
    rewrite Forall_forall in H. destruct (H e He) as (_ & _ & H3 & _). auto.
Qed.

(** ** Writing the changesets of a diff and diffing again *)

Lemma rediff_settled (thr : float) (tagc : string) (sql_df : DataFrame)
    (cols : list string) (rows : list Series) :
  Forall (fun r => row_key tagc r <> None) rows ->
  NoDup (map (row_key tagc) rows) ->
  PrimFloat.ltb thr 0%float = false ->
  Forall (fun r => raised (row_update thr tagc sql_df cols r) = false) rows ->
  identify_rows thr tagc
    (apply_updates tagc (updates_of thr tagc sql_df cols rows) sql_df)
    cols rows [] = Return [].
Proof.
  intros Hkeys Hnodup Hthr Hok.
  set (ups := updates_of thr tagc sql_df cols rows).
  destruct (apply_updates_frame tagc ups sql_df) as [Hcols Hrecs].
  assert (Hgood : Forall (good_update tagc) ups).
  { apply Forall_forall. intros u Hu.
    now destruct (@updates_of_good thr tagc sql_df cols _ Hkeys u Hu). }
  assert (Hsettled :
            Forall (fun r => row_update thr tagc (apply_updates tagc ups sql_df)
                               cols r = Return None) rows).
  { apply Forall_forall. intros r Hr.
    pose proof (proj1 (Forall_forall _ _) Hkeys r Hr) as Hk.
    rewrite Forall_forall in Hok. specialize (Hok r Hr). cbn in Hk.
    destruct (row_key tagc r) as [s |] eqn:Ek; [| congruence].
    destruct (row_update thr tagc sql_df cols r) as [o |] eqn:Eu;
      [| discriminate].
    apply (@row_update_settled thr tagc sql_df _ cols ups r s o); auto.
    intros row Hrow.
    apply (@apply_row_own thr tagc sql_df cols rows r s o row); auto. }
  apply updates_of_none in Hsettled as [Hnil Hraised].
  rewrite (@identify_rows_total _ _ _ _ _ Hraised). now rewrite Hnil.
Qed.

Lemma tag_matches_set_fields (tagc : string) (tag : value)
    (changes : dict value) (row : Series) :
  ~ In tagc (keys changes) ->
  tag_matches tagc tag (set_fields changes row) = tag_matches tagc tag row.
Proof.
  intros Hn. unfold tag_matches. now rewrite set_fields_keeps_tag.
Qed.

Lemma update_rows_keeps_match (tagc : string) (tag tag' : value)
    (changes : dict value) (df : DataFrame) :
  ~ In tagc (keys changes) ->
  (exists row, In row (records df) /\ tag_matches tagc tag' row = true) ->
  exists row, In row (records (update_rows tagc tag changes df)) /\
              tag_matches tagc tag' row = true.
Proof.
  intros Hn (row & Hin & Hm). cbn [update_rows records].
  exists (if tag_matches tagc tag row then set_fields changes row else row).
  split.
  - apply in_map_iff. exists row. auto.
  - destruct (tag_matches tagc tag row); auto.
    now rewrite tag_matches_set_fields.
Qed.

(** Every changeset that has fields, does not write the key column and has
    a matching row counts for at least one row. *)
Lemma rows_affected_lower (tagc : string) (updates : list update) :
  forall df,
    Forall (fun u => snd u <> [] /\ ~ In tagc (keys (snd u)) /\
                     exists row, In row (records df) /\
                                 tag_matches tagc (fst u) row = true) updates ->
    List.length updates <= rows_affected tagc updates df.
Proof.
  induction updates as [| [tag changes] rest IH]; intros df H; cbn; auto.
  inversion H as [| ? ? (Hne & Hn & row & Hin & Hm) Hrest]; subst. cbn in *.
  destruct changes as [| p ch]; [congruence |].
  assert (1 <= rowcount tagc tag df).
  { unfold rowcount.
    assert (Hf : In row (filter (tag_matches tagc tag) (records df)))
      by (apply filter_In; auto).
    destruct (filter (tag_matches tagc tag) (records df)); [contradiction |].
    cbn. lia. }
  specialize (IH (update_rows tagc tag (p :: ch) df)).
  assert (List.length rest
          <= rows_affected tagc rest (update_rows tagc tag (p :: ch) df)).
  { apply IH. eapply Forall_impl; [| exact Hrest]. cbn.
    intros u (Hu1 & Hu2 & Hu3). repeat split; auto.
    exact (update_rows_keeps_match tagc tag (fst u) (p :: ch) df Hn Hu3). }
  lia.
Qed.

Lemma update_calls_all (updates : list update) :
  Forall (fun u => snd u <> []) updates ->
  update_calls updates = map (fun u => Update (fst u) (snd u)) updates.
Proof.
  unfold update_calls. induction 1 as [| [tag changes] rest Hne _ IH]; cbn; auto.
  cbn in Hne. destruct changes; [congruence |]. cbn. now rewrite IH.
Qed.

(** X11.  The changesets of a diff against the store's rows, written by
    [batch_update_records]: when the source keys are distinct strings, the
    threshold is not negative and the batch returns, the store has received
    one UPDATE per changeset, in order, followed by one commit; the returned
    count is at least the number of changesets; and diffing the same source
    rows against the committed table yields no changeset. *)
Theorem committed_changes_settle (self : SheetProcessor)
    (excel_df : DataFrame) (cols : list string) (ups : list update)
    (db db' : Database) (n : nat) :
  Forall (fun r => row_key (tag_column self) r <> None) (records excel_df) ->
  NoDup (map (row_key (tag_column self)) (records excel_df)) ->
  PrimFloat.ltb (float_threshold (validator self)) 0%float = false ->
  _identify_updates self excel_df (session db) cols = Return ups ->
  batch_update_records (tag_column self) ups db = (Return n, db') ->
  journal db' =
    (journal db ++ map (fun u => Update (fst u) (snd u)) ups ++ [Commit])%list
  /\ List.length ups <= n
  /\ session db' = table db'
  /\ _identify_updates self excel_df (table db') cols = Return [].
Proof.
  intros Hkeys Hnodup Hthr Hdiff Hbatch.
  assert (Hfields : Forall (fun u => snd u <> []) ups).
  { apply Forall_forall. intros [tag changes] Hu.
    now destruct (@identify_updates_fields _ _ _ _ _ Hdiff tag changes Hu). }
  unfold _identify_updates in *.
  apply identify_rows_Return in Hdiff as [-> Hok]. cbn [app] in *.
  set (thr := float_threshold (validator self)) in *.
  set (tagc := tag_column self) in *.
  set (rows := records excel_df) in *.
  unfold batch_update_records in Hbatch.
  pose proof (execute_updates_spec tagc (updates_of thr tagc (session db) cols rows)
                0 db) as Hspec.
  destruct (execute_updates tagc _ 0 db) as [[m | e] db1];
    [| now apply rollback_and_raise_raises in Hbatch].
  destruct Hspec as (_ & _ & Hsession & Hm & Hjournal).
  destruct (query_fails db1 Commit);
    [now apply rollback_and_raise_raises in Hbatch |].
  inversion Hbatch; subst n db'. cbn [commit journal session table].
  split; [| split; [| split]].
  - rewrite Hjournal, update_calls_all, <- app_assoc by assumption. reflexivity.
  - rewrite Hm. cbn. apply rows_affected_lower.
    apply Forall_forall. intros u Hu.
    split; [exact (proj1 (Forall_forall _ _) Hfields u Hu) |].
    destruct (@updates_of_good thr tagc (session db) cols _ Hkeys u Hu)
      as [[_ Hn] _].
    split; auto.
    apply in_updates_of in Hu as (r & Hr & Hu). destruct u as [tag changes].
    apply row_update_Some in Hu as (_ & _ & sql_row & rest & Hmatch & _).
    assert (Hin : In sql_row (sql_match_rows tagc tag (session db)))
      by (rewrite Hmatch; now left).
    unfold sql_match_rows in Hin. apply filter_In in Hin as [Hin Hmt].
    exists sql_row. split; auto.
  - reflexivity.
  - rewrite Hsession. now apply rediff_settled.
Qed.

(** ** Loading the processing configuration *)

Lemma dict_set_distinct {V : Type} (k : string) (v : V) (d : dict V) :
  NoDup (keys d) -> NoDup (keys (dict_set k v d)).
Proof.
  induction d as [| [k' v'] d IH]; cbn.
  - intros _. constructor; [intros [] | constructor].
  - intros H. inversion H as [| ? ? Hnot Hd]; subst.
    destruct (String.eqb k' k) eqn:E; cbn.
    + constructor; auto.
    + constructor; [| now apply IH].
      change (~ In k' (keys (dict_set k v d))). rewrite dict_set_keys.
      apply String.eqb_neq in E. intros [-> | Hin]; [congruence | auto].
Qed.

Lemma dict_get_set {V : Type} (k k' : string) (v : V) (d : dict V) :
  dict_get k (dict_set k' v d) =
  if String.eqb k' k then Some v else dict_get k d.
Proof.
  induction d as [| [k0 v0] d IH]; cbn.
  - reflexivity.
  - destruct (String.eqb k0 k') eqn:E; cbn.
    + apply String.eqb_eq in E. subst k0.
      now destruct (String.eqb k' k).
    + destruct (String.eqb k0 k) eqn:E0; auto.
      apply String.eqb_eq in E0. subst k0. now rewrite String.eqb_sym, E.
Qed.

Lemma dict_of_pairs_acc {V : Type} (pairs : list (string * V)) :
  forall d : dict V,
    NoDup (keys d) ->
    let d' := fold_left (fun d p => dict_set (fst p) (snd p) d) pairs d in
    NoDup (keys d')
    /\ (forall k v, In (k, v) d' -> In (k, v) d \/ In (k, v) pairs)
    /\ forall k,
         dict_get k d' =
         fold_left (fun acc p => if String.eqb (fst p) k then Some (snd p)
                                 else acc)
                   pairs (dict_get k d).
Proof.
  induction pairs as [| [k0 v0] pairs IH]; intros d Hd; cbn.
  - auto.
  - destruct (IH (dict_set k0 v0 d) (dict_set_distinct k0 v0 d Hd))
      as (H1 & H2 & H3).
    split; [exact H1 |]. split.
    + intros k v Hin. destruct (H2 k v Hin) as [Hs | Hp]; auto.
      apply dict_set_in in Hs as [Hs | Hs]; auto.
    + intros k. rewrite H3, dict_get_set. reflexivity.
Qed.

Lemma text_of_stripped (cells : list value) : Forall stripped (text_of cells).
Proof.
  unfold text_of. apply Forall_forall. intros s Hs.
  apply in_map_iff in Hs as (v & <- & _). apply strip_stripped.
Qed.

Lemma text_list_stripped (label : string) (df : DataFrame) (l : list string) :
  text_list label df = Return l -> Forall stripped l.
Proof.
  unfold text_list. destruct (negb (mem_str label (columns df))); [discriminate |].
  destruct (1 <? label_count label df)%nat; [discriminate |].
  intros H. inversion H. apply text_of_stripped.
Qed.

Lemma text_column_Return (label : string) (df : DataFrame) (l : list string) :
  text_column label df = Return l -> l = text_of (column_values label df).
Proof.
  unfold text_column. destruct (negb (mem_str label (columns df))); [discriminate |].
  destruct (1 <? label_count label df)%nat; [discriminate |].
  intros H. now inversion H.
Qed.

(** X12.  [load_from_excel] raises nothing but [ValueError].  When it
    returns, the mapping has distinct keys, every key, every mapped name,
    every allowed sheet and every ignored header is free of whitespace at
    both ends, and a header that occurs in several mapping rows is mapped
    as its last row says. *)
Theorem load_from_excel_normal (file : outcome Workbook) :
  match load_from_excel file with
  | Return cfg =>
      NoDup (keys (column_mapping cfg))
      /\ (forall k c, In (k, c) (column_mapping cfg) -> stripped k /\ stripped c)
      /\ Forall stripped (allowed_sheets cfg)
      /\ Forall stripped (ignored_headers cfg)
      /\ exists xls sheet_map,
           file = Return xls /\
           read_excel xls "Column_Mapping" = Return sheet_map /\
           forall k, dict_get k (column_mapping cfg) =
                     last_for k (mapping_pairs sheet_map)
  | Raise e => e = ValueError
  end.
Proof.
  unfold load_from_excel.
  destruct file as [xls | e]; cbn [bind or_value_error]; [| reflexivity].
  destruct (read_excel xls "Column_Mapping") as [sheet_map |] eqn:Emap;
    cbn [bind or_value_error]; [| reflexivity].
  unfold dropna_subset.
  destruct (missing_label _ (columns sheet_map));
    cbn [bind or_value_error]; [reflexivity |].
  match goal with
  | |- context [text_column "Excel_Header" ?d] => set (df_map := d)
  end.
  destruct (text_column "Excel_Header" df_map) as [headers |] eqn:Eh;
    cbn [bind or_value_error]; [| reflexivity].
  destruct (text_column "SQL_Column" df_map) as [sql_names |] eqn:Ec;
    cbn [bind or_value_error]; [| reflexivity].
  destruct (read_excel xls "Allowed_Sheets") as [sheet_allowed |];
    cbn [bind or_value_error]; [| reflexivity].
  destruct (text_list "Sheet_Name" sheet_allowed) as [allowed |] eqn:Ea;
    cbn [bind or_value_error]; [| reflexivity].
  destruct (read_excel xls "Ignored_Headers") as [sheet_ignored |];
    cbn [bind or_value_error]; [| reflexivity].
  destruct (text_list "Header_Name" sheet_ignored) as [ignored |] eqn:Ei;
    cbn [bind or_value_error]; [| reflexivity].
  cbn [column_mapping allowed_sheets ignored_headers].
  apply text_column_Return in Eh, Ec.
  destruct (dict_of_pairs_acc (combine headers sql_names) [] (NoDup_nil _))
    as (H1 & H2 & H3).
  split; [exact H1 |]. split; [| split; [| split]].
  - intros k c Hin. destruct (H2 k c Hin) as [[] | Hp].
    pose proof (text_of_stripped (column_values "Excel_Header" df_map)) as Fh.
    pose proof (text_of_stripped (column_values "SQL_Column" df_map)) as Fc.
    rewrite <- Eh in Fh. rewrite <- Ec in Fc. rewrite Forall_forall in Fh, Fc.
    split; [apply Fh; eapply in_combine_l | apply Fc; eapply in_combine_r];
      exact Hp.
  - exact (text_list_stripped _ _ _ Ea).
  - exact (text_list_stripped _ _ _ Ei).
  - exists xls, sheet_map. split; [reflexivity |]. split; [exact Emap |].
    intros k. unfold dict_of_pairs. rewrite (H3 k). subst headers sql_names.
    reflexivity.
Qed.

(** ** Mapping keys and cleaned headers *)

Lemma dict_get_live (x : string) (m : dict string) :
  clean_column_name x = x ->
  dict_get x (live_mapping m) = dict_get x m.
Proof.
  intros Hx. unfold live_mapping.
  induction m as [| [k v] m IH]; cbn [filter dict_get fst]; auto.
  destruct (String.eqb k x) eqn:E.
  - apply String.eqb_eq in E. subst k. rewrite Hx, String.eqb_refl.
    cbn [dict_get]. now rewrite String.eqb_refl.
  - destruct (String.eqb (clean_column_name k) k); auto.
    cbn [dict_get]. now rewrite E.
Qed.

(** X13.  Headers are cleaned before the mapping is consulted, and mapping
    keys are not: a mapping key that cleaning would change (one holding a
    non-breaking space, a tab or a line break) equals no cleaned header, and
    the mapped frame of every sheet is the one obtained without such
    entries. *)
Theorem mapping_key_must_be_clean (self : SheetProcessor) (df : DataFrame) :
  (forall k h, clean_column_name k <> k -> clean_column_name h <> k)
  /\ mapped_frame self df =
     mapped_frame (with_mapping (live_mapping (column_mapping (config self)))
                                self) df.
Proof.
  split.
  - intros k h Hk Hh. apply Hk. rewrite <- Hh.
    apply (clean_column_name_facts h).
  - assert (Hmap : forall h,
               map_header self (clean_column_name h) =
               map_header (with_mapping
                             (live_mapping (column_mapping (config self))) self)
                          (clean_column_name h)).
    { intros h. unfold map_header, with_mapping. cbn [config column_mapping].
      rewrite dict_get_live; auto. apply (clean_column_name_facts h). }
    unfold mapped_frame, rename_columns. cbn [columns records]. f_equal.
    + rewrite !map_map. apply map_ext. intros h. apply Hmap.
    + rewrite !map_map. apply map_ext. intros row.
      rewrite !map_map. apply map_ext. intros p. cbn [fst snd].
      now rewrite Hmap.
Qed.

(** ** Database settings from the environment *)

Lemma not_getenv_false (getenv : string -> option string) (var : string) :
  not_getenv getenv var = false ->
  exists v, getenv var = Some v /\ v <> EmptyString.
Proof.
  unfold not_getenv. destruct (getenv var) as [v |]; [| discriminate].
  intros H. apply String.eqb_neq in H. eauto.
Qed.

Lemma not_getenv_true (getenv : string -> option string) (var : string) :
  not_getenv getenv var = true ->
  getenv var = None \/ getenv var = Some EmptyString.
Proof.
  unfold not_getenv. destruct (getenv var) as [v |]; auto.
  intros H. apply String.eqb_eq in H. subst. auto.
Qed.

(** X14.  [from_env] raises [ValueError] exactly when one of DB_SERVER,
    DB_NAME, DB_USER and DB_PASSWORD is unset or empty.  Otherwise the four
    settings are the values of these variables, none of them empty, while
    the table and key column names are the values of DB_TABLE and
    TAG_COLUMN, an empty one included, and the defaults only when these are
    unset. *)
Theorem from_env_requires (getenv : string -> option string) :
  match from_env getenv with
  | Return cfg =>
      (forall var, In var required_vars ->
         exists v, getenv var = Some v /\ v <> EmptyString)
      /\ getenv "DB_SERVER" = Some (server cfg)
      /\ getenv "DB_NAME" = Some (database cfg)
      /\ getenv "DB_USER" = Some (uid cfg)
      /\ getenv "DB_PASSWORD" = Some (pwd cfg)
      /\ table_name cfg = match getenv "DB_TABLE" with
                          | Some t => t
                          | None => "AllTagslist"
                          end
      /\ cfg_tag_column cfg = match getenv "TAG_COLUMN" with
                              | Some t => t
                              | None => "Tag Number"
                              end
  | Raise e =>
      e = ValueError
      /\ exists var, In var required_vars /\
           (getenv var = None \/ getenv var = Some EmptyString)
  end.
Proof.
  unfold from_env.
  destruct (filter (not_getenv getenv) required_vars) as [| var rest] eqn:E.
  - assert (Hall : forall var, In var required_vars ->
                     exists v, getenv var = Some v /\ v <> EmptyString).
    { intros var Hin. apply not_getenv_false.
      destruct (not_getenv getenv var) eqn:Hv; auto.
      assert (Hf : In var (filter (not_getenv getenv) required_vars))
        by (apply filter_In; auto).
      rewrite E in Hf. contradiction. }
    split; [exact Hall |]. cbn [server database uid pwd table_name cfg_tag_column].
    unfold getenv_or.
    destruct (Hall "DB_SERVER") as (v1 & -> & _); [cbn; auto |].
    destruct (Hall "DB_NAME") as (v2 & -> & _); [cbn; auto |].
    destruct (Hall "DB_USER") as (v3 & -> & _); [cbn; auto |].
    destruct (Hall "DB_PASSWORD") as (v4 & -> & _); [cbn; auto 6 |].
    repeat split; reflexivity.
  - split; [reflexivity |].
    assert (Hf : In var (filter (not_getenv getenv) required_vars))
      by (rewrite E; now left).
    apply filter_In in Hf as [Hin Hv]. exists var. split; auto.
    now apply not_getenv_true.
Qed.

(** ** Quoting column names *)

Lemma safe_col_inj (a : string) :
  forall b, safe_col a = safe_col b -> a = b.
Proof.
  induction a as [| c a IH]; intros [| d b] H; cbn [safe_col] in H.
  - reflexivity.
  - destruct (Ascii.eqb d closing_bracket); discriminate.
  - destruct (Ascii.eqb c closing_bracket); discriminate.
  - destruct (Ascii.eqb c closing_bracket) eqn:Ec;
      destruct (Ascii.eqb d closing_bracket) eqn:Ed;
      inversion H; subst; try congruence; f_equal; auto.
Qed.

Lemma append_inj_l (p a b : string) : (p ++ a = p ++ b)%string -> a = b.
Proof.
  induction p as [| c p IH]; cbn; auto. intros H. injection H as H. auto.
Qed.

Lemma append_length (a b : string) :
  String.length (a ++ b)%string = String.length a + String.length b.
Proof. induction a as [| c a IH]; cbn; auto. Qed.

Lemma append_inj_r (a : string) :
  forall b s, (a ++ s = b ++ s)%string -> a = b.
Proof.
  intros b s H.
  assert (Hlen : String.length a = String.length b).
  { apply (f_equal String.length) in H. rewrite !append_length in H. lia. }
  revert b H Hlen. induction a as [| c a IH]; intros [| d b] H Hlen;
    try discriminate; auto.
  cbn in H. injection H as -> H. f_equal. apply IH; auto.
Qed.

(** X15.  Doubling the closing brackets of a column name loses nothing:
    two column names give the same quoted assignment only when they are the
    same name, and a name is left as it is exactly when it holds no closing
    bracket. *)
Theorem set_part_injective (a b : string) :
  (set_part a = set_part b <-> a = b)
  /\ (safe_col a = a <-> ~ In closing_bracket (chars a)).
Proof.
  split.
  - split; [| now intros ->].
    unfold set_part. intros H. apply append_inj_l in H.
    apply append_inj_r in H. now apply safe_col_inj.
  - induction a as [| c a IH]; cbn [safe_col chars list_ascii_of_string In].
    + split; auto.
    + destruct (Ascii.eqb c closing_bracket) eqn:Ec.
      * apply Ascii.eqb_eq in Ec. subst c. split.
        -- intros H. injection H as H. exfalso.
           apply (f_equal String.length) in H. clear IH.
           assert (Hlen : forall s, String.length s <= String.length (safe_col s)).
           { induction s as [| c s IHs]; cbn [safe_col]; auto.
             destruct (Ascii.eqb c closing_bracket); cbn [String.length]; lia. }
           specialize (Hlen a). cbn [String.length] in H. lia.
        -- intros H. exfalso. apply H. now left.
      * apply Ascii.eqb_neq in Ec. destruct IH as [IH1 IH2]. split.
        -- intros H. injection H as H. intros [Hc | Hin]; [congruence |].
           now apply IH1.
        -- intros H. f_equal. apply IH2. intros Hin. apply H. now right.
Qed.

End Engine.

(* ================================================================== *)
(** * The properties at concrete inputs *)

(** C1.  The sheet "Sensors" has two rows whose keys are in the store and
    whose cells differ from it.  A real run records the sheet as
    "Processing Error", detects nothing and never fetches: the store sees
    the connection and the two reads before the loop only.  The second pass
    the loop was meant to reach, run on the records of those keys, finds
    two changesets. *)
Theorem two_phase_fetch_unreachable :
  run_import sample_float_repr int_literal server_up ex_service
    (Return ex_xls) (Some ex_config) "report.xlsx" false ex_db
  = (mkImportResult true [mkSheetResult "Sensors" "Processing Error" "ERROR" 0]
       0 0 [] None None,
     mkDatabase (schema ex_db) ex_table ex_table [Connect; Metadata; SelectTags])
  /\ fst (fetch_records_by_tags server_up "Tag Number"
            [VStr "T-100"; VStr "T-200"] 2000 ex_db) = Return ex_table
  /\ process_sheet sample_float_repr int_literal
       (built_processor ex_service ex_config ex_db) ex_xls "Sensors"
       (stored_tags sample_float_repr ex_service ex_db) ex_table
     = Return (mkSheetResult "Sensors" "2 changes detected" "DRY-RUN" 2,
               [(VStr "T-100", [("Notes", VStr "  ")]);
                (VStr "T-200", [("Temperature", VFloat 10.5)])],
               [mkValidationError "Sensors" (Scalar (VStr "T-100")) "Pressure"
                  (VStr "abc") "Type Mismatch - Expected numeric value"]).
Proof. repeat split; vm_compute; reflexivity. Qed.



(** C5.  A source value that is None never differs.  But the cleaning does
    not leave a None in every null cell: [df.map] builds each column anew,
    and in a column without text that holds a number the None cells are NaN
    again (only a column with text, or with no number at all, keeps them).
    A NaN source value differs from every reference value that is not a
    float.  So in the sheet "Counts", whose numeric column "Count" has a
    blank cell in row T-100 and a whitespace-only cell in row T-200, both
    rows get a changeset that writes NaN over the integers 7 and 5 of the
    store. *)
Theorem null_source_is_written :
  (forall thr sql_val, compare_values thr VNone sql_val = false)
  /\ (forall thr sql_val,
         compare_values thr (VFloat PrimFloat.nan) sql_val
         = negb (is_float sql_val))
  /\ _clean_dataframe
       (mkDataFrame ["A"; "B"; "C"]
          [[("A", VFloat PrimFloat.nan); ("B", VStr "x");
            ("C", VFloat PrimFloat.nan)];
           [("A", VFloat PrimFloat.nan); ("B", VStr EmptyString);
            ("C", VInt 2)]])
     = mkDataFrame ["A"; "B"; "C"]
         [[("A", VNone); ("B", VStr "x"); ("C", VFloat PrimFloat.nan)];
          [("A", VNone); ("B", VNone); ("C", VFloat 2)]]
  /\ validate_numeric_columns sample_float_repr int_literal
       (validator ex_count_processor)
       (selected_frame sample_float_repr ex_count_processor ex_count_tags
          ex_count_sheet)
       "Counts" "Tag Number"
     = Return (mkDataFrame ["Count"; "Tag Number"]
                 [[("Count", VFloat PrimFloat.nan); ("Tag Number", VStr "T-100")];
                  [("Count", VFloat PrimFloat.nan); ("Tag Number", VStr "T-200")];
                  [("Count", VFloat 5); ("Tag Number", VStr "T-300")]],
               [])
  /\ process_sheet sample_float_repr int_literal ex_count_processor ex_count_xls
       "Counts" ex_count_tags ex_count_table
     = Return (mkSheetResult "Counts" "2 changes detected" "DRY-RUN" 2,
               [(VStr "T-100", [("Count", VFloat PrimFloat.nan)]);
                (VStr "T-200", [("Count", VFloat PrimFloat.nan)])],
               []).
Proof.
  split; [reflexivity |].
  split; [exact compare_values_nan_source |].
  repeat split; vm_compute; reflexivity.
Qed.

(** C5 again: in the text column "Notes" the whitespace-only cell of row
    T-100 is not cleaned to None either, and becomes a field of that row's
    changeset. *)
Lemma whitespace_cell_is_written :
  strip "  " = EmptyString
  /\ series_get "Notes" (hd [] (records ex_sheet)) = Scalar (VStr "  ")
  /\ clean_cell (VStr "  ") = VStr "  "
  /\ exists r errs,
       process_sheet sample_float_repr int_literal ex_processor ex_xls "Sensors"
         ex_tags ex_table
       = Return (r, [(VStr "T-100", [("Notes", VStr "  ")]);
                     (VStr "T-200", [("Temperature", VFloat 10.5)])], errs).
Proof.
  repeat split; try reflexivity.
  eexists _, _. vm_compute. reflexivity.
Qed.

(** C6.  [batch_update_records] runs every update in one transaction: when
    it returns, one statement per non-empty changeset was sent, then one
    commit, and the count is the sum of the row counts; a changeset whose key
    matches no row is no error, adds zero and changes nothing.  When an
    update or the commit is refused, nothing is committed and the rollback is
    sent.  If the server takes the rollback, the session sees the table again
    and DatabaseQueryError is raised.  But the rollback is called in the
    handler without a guard: over a connection lost at the second statement
    of a batch, it is the driver's error that leaves
    [batch_update_records], not DatabaseQueryError. *)
Theorem rollback_failure_escapes :
  (forall query_fails tagc updates db,
      match batch_update_records query_fails tagc updates db with
      | (Raise e, db') =>
          table db' = table db /\
          exists calls db1,
            journal db1 = (journal db ++ calls)%list /\
            journal db' = (journal db ++ calls ++ [Rollback])%list /\
            if query_fails db1 Rollback
            then e = PyodbcError /\ session db' = session db1
            else e = DatabaseQueryError /\ session db' = table db
      | (Return n, db') =>
          table db' = apply_updates tagc updates (session db) /\
          session db' = table db' /\
          n = rows_affected tagc updates (session db) /\
          journal db' = (journal db ++ update_calls updates ++ [Commit])%list
      end)
  /\ (forall query_fails tagc tag changes db,
         rowcount tagc tag (session db) = 0 ->
         query_fails db (Update tag changes) = false ->
         forallb (fun c => mem_str c (columns (session db))) (tagc :: keys changes)
         = true ->
         fst (execute_update query_fails tagc tag changes db) = Return 0 /\
         session (snd (execute_update query_fails tagc tag changes db))
         = session db /\
         table (snd (execute_update query_fails tagc tag changes db)) = table db)
  /\ batch_update_records connection_lost "Tag Number" ex_batch ex_db
     = (Raise PyodbcError,
        mkDatabase (schema ex_db) ex_table
          (update_rows "Tag Number" (VStr "T-100") [("Notes", VStr "new")]
             ex_table)
          [Update (VStr "T-100") [("Notes", VStr "new")];
           Update (VStr "T-200") [("Temperature", VFloat 10.5)]; Rollback])
  /\ batch_update_records statement_refused "Tag Number" ex_batch ex_db
     = (Raise DatabaseQueryError,
        mkDatabase (schema ex_db) ex_table ex_table
          [Update (VStr "T-100") [("Notes", VStr "new")];
           Update (VStr "T-200") [("Temperature", VFloat 10.5)]; Rollback]).
Proof.
  split; [exact batch_update_outcome |].
  split; [exact execute_update_no_match |].
  split; vm_compute; reflexivity.
Qed.

(** C7, the claim as written fails.  The configuration loads, the
    connection opens and both queries succeed, and still the run reports
    failure, because the input workbook cannot be opened.  And the run
    raises when the log callback does: at its first call, before the [try],
    and at the call in an [except] clause (here after the configuration
    failed to load); a callback that raises inside the [try] turns a run in
    which nothing else fails into a failure. *)
Lemma run_import_fails_or_raises :
  run_import sample_float_repr int_literal server_up ex_service
    (Raise OSError) (Some ex_config) "report.xlsx" true ex_db
  = (mkImportResult false [] 0 0 [] None (Some "Unexpected Error"),
     mkDatabase (schema ex_db) ex_table ex_table [Connect; Metadata; SelectTags])
  /\ fst (connect server_up ex_db) = Return tt
  /\ raised (fst (get_table_metadata server_up ex_db)) = false
  /\ raised (fst (get_existing_tags sample_float_repr server_up "Tag Number" ex_db))
     = false
  /\ run_import_logged sample_float_repr int_literal server_up ex_service
       (Return ex_xls) (Some ex_config) "report.xlsx" true true false
       (ex_db, [(0, OSError)])
     = (Raise OSError, (ex_db, []))
  /\ run_import_logged sample_float_repr int_literal server_up ex_service
       (Return ex_xls) None "report.xlsx" true true false
       (ex_db, [(5, OSError)])
     = (Raise OSError, (ex_db, []))
  /\ run_import_logged sample_float_repr int_literal server_up ex_service
       (Return ex_xls) (Some ex_config) "report.xlsx" true true false
       (ex_db, [(14, OSError)])
     = (Return (mkImportResult false [] 0 0 [] None (Some "Unexpected Error")),
        (mkDatabase (schema ex_db) ex_table ex_table
           [Connect; Metadata; SelectTags], [])).
Proof. repeat split; vm_compute; reflexivity. Qed.

(** C8, the claim as written fails: two source rows share the key T-100.
    Both changesets are applied, the second last, and the diff of the same
    rows against the updated store has a changeset again. *)
Lemma round_trip_fails_on_repeated_key :
  _identify_updates ex_processor ex_twice ex_table ["Notes"]
  = Return [(VStr "T-100", [("Notes", VStr "a")]);
            (VStr "T-100", [("Notes", VStr "b")])]
  /\ fst (batch_update_records server_up "Tag Number"
            [(VStr "T-100", [("Notes", VStr "a")]);
             (VStr "T-100", [("Notes", VStr "b")])] ex_db) = Return 2
  /\ _identify_updates ex_processor ex_twice
       (table (snd (batch_update_records server_up "Tag Number"
                      [(VStr "T-100", [("Notes", VStr "a")]);
                       (VStr "T-100", [("Notes", VStr "b")])] ex_db)))
       ["Notes"]
     = Return [(VStr "T-100", [("Notes", VStr "a")])].
Proof. repeat split; vm_compute; reflexivity. Qed.

(** With a negative threshold a float differs from itself, so no diff
    settles. *)
Lemma negative_threshold_never_settles :
  compare_values (-1)%float (VFloat 1) (VFloat 1) = true.
Proof. vm_compute. reflexivity. Qed.

Lemma round_trip_witness :
  Forall (fun r => row_key (tag_column ex_processor) r <> None) (records ex_clean)
  /\ NoDup (map (row_key (tag_column ex_processor)) (records ex_clean))
  /\ PrimFloat.ltb (float_threshold (validator ex_processor)) 0%float = false
  /\ _identify_updates ex_processor ex_clean ex_table ["Temperature"; "Notes"]
     = Return [(VStr "T-100", [("Notes", VStr "new")]);
               (VStr "T-200", [("Temperature", VFloat 10.5)])]
  /\ _identify_updates ex_processor ex_clean
       (apply_updates (tag_column ex_processor)
          [(VStr "T-100", [("Notes", VStr "new")]);
           (VStr "T-200", [("Temperature", VFloat 10.5)])] ex_table)
       ["Temperature"; "Notes"]
     = Return [].
Proof.
  assert (H1 : Forall (fun r => row_key (tag_column ex_processor) r <> None)
                 (records ex_clean))
    by (repeat constructor; vm_compute; discriminate).
  assert (H2 : NoDup (map (row_key (tag_column ex_processor)) (records ex_clean))).
  { vm_compute. repeat constructor; cbn; intros H;
      repeat (destruct H as [H | H]; [discriminate |]); exact H. }
  assert (H3 : PrimFloat.ltb (float_threshold (validator ex_processor)) 0%float
               = false) by reflexivity.
  assert (H4 : _identify_updates ex_processor ex_clean ex_table
                 ["Temperature"; "Notes"]
               = Return [(VStr "T-100", [("Notes", VStr "new")]);
                         (VStr "T-200", [("Temperature", VFloat 10.5)])])
    by (vm_compute; reflexivity).
  split; [exact H1 |]. split; [exact H2 |]. split; [exact H3 |].
  split; [exact H4 |].
  exact (@round_trip ex_processor ex_clean ex_table ["Temperature"; "Notes"]
           _ H1 H2 H3 H4).
Defined.

(** C9, the claim as written fails: "Notes" and "Pressure" are headers of
    the sheet that no mapping produces and that are not ignored; being store
    columns, they are compared and validated: "Notes" is a field of a
    changeset and "Pressure" is named by a validation error. *)
Lemma unmapped_store_column_is_compared :
  ~ In "Notes" (map snd (column_mapping ex_config))
  /\ ~ In "Pressure" (map snd (column_mapping ex_config))
  /\ process_sheet sample_float_repr int_literal ex_processor ex_xls "Sensors"
       ex_tags ex_table
     = Return (mkSheetResult "Sensors" "2 changes detected" "DRY-RUN" 2,
               [(VStr "T-100", [("Notes", VStr "  ")]);
                (VStr "T-200", [("Temperature", VFloat 10.5)])],
               [mkValidationError "Sensors" (Scalar (VStr "T-100")) "Pressure"
                  (VStr "abc") "Type Mismatch - Expected numeric value"]).
Proof.
  split; [| split].
  - cbn. intros [H | []]. discriminate.
  - cbn. intros [H | []]. discriminate.
  - vm_compute. reflexivity.
Qed.

Lemma column_scoping_witness :
  read_excel ex_xls "Sensors" = Return ex_sheet
  /\ process_sheet sample_float_repr int_literal ex_processor ex_xls "Sensors"
       ex_tags ex_table
     = Return (mkSheetResult "Sensors" "2 changes detected" "DRY-RUN" 2,
               [(VStr "T-100", [("Notes", VStr "  ")]);
                (VStr "T-200", [("Temperature", VFloat 10.5)])],
               [mkValidationError "Sensors" (Scalar (VStr "T-100")) "Pressure"
                  (VStr "abc") "Type Mismatch - Expected numeric value"])
  /\ forall tag changes c,
       In (tag, changes) [(VStr "T-100", [("Notes", VStr "  ")]);
                          (VStr "T-200", [("Temperature", VFloat 10.5)])] ->
       In c (keys changes) ->
       In c (valid_columns_of ex_processor (mapped_frame ex_processor ex_sheet)).
Proof.
  assert (H1 : read_excel ex_xls "Sensors" = Return ex_sheet) by reflexivity.
  assert (H2 : process_sheet sample_float_repr int_literal ex_processor ex_xls
                 "Sensors" ex_tags ex_table
               = Return (mkSheetResult "Sensors" "2 changes detected" "DRY-RUN" 2,
                         [(VStr "T-100", [("Notes", VStr "  ")]);
                          (VStr "T-200", [("Temperature", VFloat 10.5)])],
                         [mkValidationError "Sensors" (Scalar (VStr "T-100"))
                            "Pressure" (VStr "abc")
                            "Type Mismatch - Expected numeric value"]))
    by (vm_compute; reflexivity).
  split; [exact H1 |]. split; [exact H2 |].
  exact (proj1 (proj2 (proj2
           (@column_scoping sample_float_repr int_literal ex_processor ex_xls
              "Sensors" ex_tags ex_table ex_sheet _ _ _ H1 H2)))).
Defined.

Lemma changeset_never_empty_witness :
  _identify_updates ex_processor ex_clean ex_table ["Temperature"; "Notes"]
  = Return [(VStr "T-100", [("Notes", VStr "new")]);
            (VStr "T-200", [("Temperature", VFloat 10.5)])]
  /\ forall tag changes,
       In (tag, changes) [(VStr "T-100", [("Notes", VStr "new")]);
                          (VStr "T-200", [("Temperature", VFloat 10.5)])] ->
       changes <> [].
Proof.
  assert (H : _identify_updates ex_processor ex_clean ex_table
                ["Temperature"; "Notes"]
              = Return [(VStr "T-100", [("Notes", VStr "new")]);
                        (VStr "T-200", [("Temperature", VFloat 10.5)])])
    by (vm_compute; reflexivity).
  split; [exact H |].
  intros tag changes Hin.
  exact (proj1 (proj1 (@changeset_never_empty server_up ex_processor ex_clean
                         ex_table ["Temperature"; "Notes"] _ H)
                      tag changes Hin)).
Defined.

(* ================================================================== *)
(** * The further properties at concrete inputs *)

(** X2: the keys of the example store. *)
Lemma key_filtering_witness :
  get_existing_tags sample_float_repr server_up "Tag Number" ex_db
  = (Return ["T-100"; "T-200"],
     snd (get_existing_tags sample_float_repr server_up "Tag Number" ex_db))
  /\ Forall stripped ["T-100"; "T-200"].
Proof.
  assert (H : get_existing_tags sample_float_repr server_up "Tag Number" ex_db
              = (Return ["T-100"; "T-200"],
                 snd (get_existing_tags sample_float_repr server_up
                        "Tag Number" ex_db)))
    by (vm_compute; reflexivity).
  split; [exact H |].
  exact (proj1 (proj2 (proj2
           (@key_filtering sample_float_repr server_up "Tag Number" ex_db _ _ H)))).
Defined.

(** X3: two keys fetched one per query. *)
Lemma fetch_records_by_tags_rows_witness :
  (0 < 1)%Z
  /\ fetch_records_by_tags server_up "Tag Number" [VStr "T-100"; VStr "T-200"]
       1%Z ex_db
     = (Return ex_table,
        snd (fetch_records_by_tags server_up "Tag Number"
               [VStr "T-100"; VStr "T-200"] 1%Z ex_db))
  /\ forall row,
       In row (records ex_table) <->
       In row (records (session ex_db)) /\
       tag_in "Tag Number" [VStr "T-100"; VStr "T-200"] row = true.
Proof.
  assert (H1 : (0 < 1)%Z) by reflexivity.
  assert (H2 : fetch_records_by_tags server_up "Tag Number"
                 [VStr "T-100"; VStr "T-200"] 1%Z ex_db
               = (Return ex_table,
                  snd (fetch_records_by_tags server_up "Tag Number"
                         [VStr "T-100"; VStr "T-200"] 1%Z ex_db)))
    by (vm_compute; reflexivity).
  split; [exact H1 |]. split; [exact H2 |].
  exact (proj2 (proj2 (proj2
           (@fetch_records_by_tags_rows server_up "Tag Number" _ 1%Z ex_db _ _
              H1 H2)))).
Defined.

(** X5: one changeset written to the example store. *)
Lemma batch_update_touches_only_matches_witness :
  batch_update_records server_up "Tag Number"
    [(VStr "T-100", [("Notes", VStr "new")])] ex_db
  = (Return 1,
     snd (batch_update_records server_up "Tag Number"
            [(VStr "T-100", [("Notes", VStr "new")])] ex_db))
  /\ columns (table (snd (batch_update_records server_up "Tag Number"
                            [(VStr "T-100", [("Notes", VStr "new")])] ex_db)))
     = columns (session ex_db).
Proof.
  assert (H : batch_update_records server_up "Tag Number"
                [(VStr "T-100", [("Notes", VStr "new")])] ex_db
              = (Return 1,
                 snd (batch_update_records server_up "Tag Number"
                        [(VStr "T-100", [("Notes", VStr "new")])] ex_db)))
    by (vm_compute; reflexivity).
  split; [exact H |].
  exact (proj1 (@batch_update_touches_only_matches server_up "Tag Number"
                  _ ex_db _ _ H)).
Defined.

(** X6: the diff of the example rows. *)
Lemma changeset_structure_witness :
  _identify_updates ex_processor ex_clean ex_table ["Temperature"; "Notes"]
  = Return [(VStr "T-100", [("Notes", VStr "new")]);
            (VStr "T-200", [("Temperature", VFloat 10.5)])]
  /\ List.length [(VStr "T-100", [("Notes", VStr "new")]);
                  (VStr "T-200", [("Temperature", VFloat 10.5)])]
     <= List.length (records ex_clean).
Proof.
  assert (H : _identify_updates ex_processor ex_clean ex_table
                ["Temperature"; "Notes"]
              = Return [(VStr "T-100", [("Notes", VStr "new")]);
                        (VStr "T-200", [("Temperature", VFloat 10.5)])])
    by (vm_compute; reflexivity).
  split; [exact H |].
  exact (proj1 (@changeset_structure ex_processor ex_clean ex_table
                  ["Temperature"; "Notes"] _ H)).
Defined.

(** X7: a processor that ignores no header, on a sheet none of whose keys
    is known. *)
Lemma key_column_in_scope_never_diffs_witness :
  In (tag_column (with_ignored [] ex_processor))
     (sql_columns (with_ignored [] ex_processor))
  /\ ~ In (tag_column (with_ignored [] ex_processor))
          (ignored_headers (config (with_ignored [] ex_processor)))
  /\ process_sheet sample_float_repr int_literal (with_ignored [] ex_processor)
       ex_xls "Sensors" ["T-555"] ex_table
     = Return (mkSheetResult "Sensors" "No Valid Tags" "SKIP" 0, [], [])
  /\ status (mkSheetResult "Sensors" "No Valid Tags" "SKIP" 0) = "SKIP".
Proof.
  assert (H1 : In (tag_column (with_ignored [] ex_processor))
                  (sql_columns (with_ignored [] ex_processor)))
    by (now left).
  assert (H2 : ~ In (tag_column (with_ignored [] ex_processor))
                    (ignored_headers (config (with_ignored [] ex_processor))))
    by (intros []).
  assert (H3 : process_sheet sample_float_repr int_literal
                 (with_ignored [] ex_processor) ex_xls "Sensors" ["T-555"]
                 ex_table
               = Return (mkSheetResult "Sensors" "No Valid Tags" "SKIP" 0, [], []))
    by (vm_compute; reflexivity).
  split; [exact H1 |]. split; [exact H2 |]. split; [exact H3 |].
  exact (proj1 (@key_column_in_scope_never_diffs sample_float_repr int_literal
                  _ ex_xls "Sensors" ["T-555"] ex_table _ _ _ H1 H2 H3)).
Defined.

(** X8: the example sheet against the example store. *)
Lemma process_sheet_result_witness :
  process_sheet sample_float_repr int_literal ex_processor ex_xls "Sensors"
    ex_tags ex_table
  = Return (mkSheetResult "Sensors" "2 changes detected" "DRY-RUN" 2,
            [(VStr "T-100", [("Notes", VStr "  ")]);
             (VStr "T-200", [("Temperature", VFloat 10.5)])],
            [mkValidationError "Sensors" (Scalar (VStr "T-100")) "Pressure"
               (VStr "abc") "Type Mismatch - Expected numeric value"])
  /\ sr_sheet_name (mkSheetResult "Sensors" "2 changes detected" "DRY-RUN" 2)
     = "Sensors".
Proof.
  assert (H : process_sheet sample_float_repr int_literal ex_processor ex_xls
                "Sensors" ex_tags ex_table
              = Return (mkSheetResult "Sensors" "2 changes detected" "DRY-RUN" 2,
                        [(VStr "T-100", [("Notes", VStr "  ")]);
                         (VStr "T-200", [("Temperature", VFloat 10.5)])],
                        [mkValidationError "Sensors" (Scalar (VStr "T-100"))
                           "Pressure" (VStr "abc")
                           "Type Mismatch - Expected numeric value"]))
    by (vm_compute; reflexivity).
  split; [exact H |].
  exact (proj1 (@process_sheet_result sample_float_repr int_literal ex_processor
                  ex_xls "Sensors" ex_tags ex_table _ _ _ H)).
Defined.

(** X10: the example sheet, whose "Pressure" column holds a cell that is no
    number. *)
Lemma validation_changes_numeric_columns_only_witness :
  validate_numeric_columns sample_float_repr int_literal (validator ex_processor)
    ex_sheet "Sensors" "Tag Number"
  = Return (assign_column "Pressure"
              [VFloat PrimFloat.nan; VFloat 2; VFloat 1] ex_sheet,
            [mkValidationError "Sensors" (Scalar (VStr " T-100 ")) "Pressure"
               (VStr "abc") "Type Mismatch - Expected numeric value"])
  /\ columns (assign_column "Pressure"
                [VFloat PrimFloat.nan; VFloat 2; VFloat 1] ex_sheet)
     = columns ex_sheet.
Proof.
  assert (H : validate_numeric_columns sample_float_repr int_literal
                (validator ex_processor) ex_sheet "Sensors" "Tag Number"
              = Return (assign_column "Pressure"
                          [VFloat PrimFloat.nan; VFloat 2; VFloat 1] ex_sheet,
                        [mkValidationError "Sensors" (Scalar (VStr " T-100 "))
                           "Pressure" (VStr "abc")
                           "Type Mismatch - Expected numeric value"]))
    by (vm_compute; reflexivity).
  split; [exact H |].
  exact (proj1 (@validation_changes_numeric_columns_only sample_float_repr
                  int_literal (validator ex_processor) ex_sheet "Sensors"
                  "Tag Number" _ _ H)).
Defined.

(** X11: the diff of the example rows, written to the example store and
    taken again. *)
Lemma committed_changes_settle_witness :
  Forall (fun r => row_key (tag_column ex_processor) r <> None) (records ex_clean)
  /\ NoDup (map (row_key (tag_column ex_processor)) (records ex_clean))
  /\ PrimFloat.ltb (float_threshold (validator ex_processor)) 0%float = false
  /\ _identify_updates ex_processor ex_clean (session ex_db)
       ["Temperature"; "Notes"]
     = Return [(VStr "T-100", [("Notes", VStr "new")]);
               (VStr "T-200", [("Temperature", VFloat 10.5)])]
  /\ batch_update_records server_up (tag_column ex_processor)
       [(VStr "T-100", [("Notes", VStr "new")]);
        (VStr "T-200", [("Temperature", VFloat 10.5)])] ex_db
     = (Return 2,
        snd (batch_update_records server_up (tag_column ex_processor)
               [(VStr "T-100", [("Notes", VStr "new")]);
                (VStr "T-200", [("Temperature", VFloat 10.5)])] ex_db))
  /\ _identify_updates ex_processor ex_clean
       (table (snd (batch_update_records server_up (tag_column ex_processor)
                      [(VStr "T-100", [("Notes", VStr "new")]);
                       (VStr "T-200", [("Temperature", VFloat 10.5)])] ex_db)))
       ["Temperature"; "Notes"]
     = Return [].
Proof.
  assert (H1 : Forall (fun r => row_key (tag_column ex_processor) r <> None)
                 (records ex_clean))
    by (repeat constructor; vm_compute; discriminate).
  assert (H2 : NoDup (map (row_key (tag_column ex_processor)) (records ex_clean))).
  { vm_compute. repeat constructor; cbn; intros H;
      repeat (destruct H as [H | H]; [discriminate |]); exact H. }
  assert (H3 : PrimFloat.ltb (float_threshold (validator ex_processor)) 0%float
               = false) by reflexivity.
  assert (H4 : _identify_updates ex_processor ex_clean (session ex_db)
                 ["Temperature"; "Notes"]
               = Return [(VStr "T-100", [("Notes", VStr "new")]);
                         (VStr "T-200", [("Temperature", VFloat 10.5)])])
    by (vm_compute; reflexivity).
  assert (H5 : batch_update_records server_up (tag_column ex_processor)
                 [(VStr "T-100", [("Notes", VStr "new")]);
                  (VStr "T-200", [("Temperature", VFloat 10.5)])] ex_db
               = (Return 2,
                  snd (batch_update_records server_up (tag_column ex_processor)
                         [(VStr "T-100", [("Notes", VStr "new")]);
                          (VStr "T-200", [("Temperature", VFloat 10.5)])] ex_db)))
    by (vm_compute; reflexivity).
  split; [exact H1 |]. split; [exact H2 |]. split; [exact H3 |].
  split; [exact H4 |]. split; [exact H5 |].
  exact (proj2 (proj2 (proj2
           (@committed_changes_settle server_up ex_processor ex_clean
              ["Temperature"; "Notes"] _ ex_db _ _ H1 H2 H3 H4 H5)))).
Defined.
